(** * n8n-cli-service: the credential-injection relay

    A shallow embedding of [src/index.js] (the enhanced service, three
    import strategies) and of [src/unnamed/part_002] (the simplified
    service, one import command), followed by the properties of the
    natural-language specification that concern them.

    The service is sequential glue around four external parties: the
    [n8n] command-line tool, the scratch directory [/tmp], the Supabase
    database and the wall clock.  Every call that leaves the process is
    recorded as an [Event]; what the outside world answers is read from
    an [Env], whose answers may depend on everything attempted so far.
    JavaScript exceptions are an explicit [Thrown] outcome.

    Console output is not recorded: nothing reads it back.  What the
    evaluation of its arguments can do is kept: the request log line of
    the handlers converts [attempt] to a string, which may throw, and
    reads the clock.  The CORS middleware and the routing are left out. *)

From Stdlib Require Import String Ascii List ZArith Bool Lia DecimalString.
From Stdlib Require DecimalPos DecimalZ.
Import ListNotations.
Open Scope string_scope.
Open Scope Z_scope.

Set Warnings "-register-all".

(* ================================================================= *)
(** ** JavaScript values *)

(** The values that flow through the handlers: JSON data from the request
    body and from database rows, [undefined] for an absent property, and
    the built-in objects that an inherited property of an object literal
    evaluates to.  Numbers are the integers (the only numbers the service
    produces itself). *)
Inductive js_value : Type :=
| JUndefined
| JNull
| JBool (b : bool)
| JNumber (n : Z)
| JString (s : string)
| JArray (elements : list js_value)
| JObject (fields : list (string * js_value))
| JFunction (name : string)       (* a built-in function object *)
| JObjectPrototype.                (* the object [Object.prototype] *)

(** [!!v] *)
Definition truthy (v : js_value) : bool :=
  match v with
  | JUndefined | JNull => false
  | JBool b => b
  | JNumber n => negb (n =? 0)
  | JString s => negb (s =? EmptyString)%string
  | JArray _ | JObject _ | JFunction _ | JObjectPrototype => true
  end.

(** [a || b] *)
Definition js_or (a b : js_value) : js_value := if truthy a then a else b.

(** [s || d] on a string [s]. *)
Definition str_or (s d : string) : string := if (s =? EmptyString)%string then d else s.

(** Own-property lookup in the field list of an object. *)
Fixpoint own_property (fields : list (string * js_value)) (key : string)
  : option js_value :=
  match fields with
  | [] => None
  | (k, v) :: rest => if (k =? key)%string then Some v else own_property rest key
  end.

(** The properties every object literal inherits from [Object.prototype]
    (ECMAScript 20.1.3 and Annex B.2.2).  All of them are functions, except
    the [__proto__] accessor, which yields the prototype object itself. *)
Definition Object_prototype : list (string * js_value) :=
  [ ("constructor", JFunction "Object");
    ("__defineGetter__", JFunction "__defineGetter__");
    ("__defineSetter__", JFunction "__defineSetter__");
    ("hasOwnProperty", JFunction "hasOwnProperty");
    ("__lookupGetter__", JFunction "__lookupGetter__");
    ("__lookupSetter__", JFunction "__lookupSetter__");
    ("isPrototypeOf", JFunction "isPrototypeOf");
    ("propertyIsEnumerable", JFunction "propertyIsEnumerable");
    ("toString", JFunction "toString");
    ("valueOf", JFunction "valueOf");
    ("__proto__", JObjectPrototype);
    ("toLocaleString", JFunction "toLocaleString") ].

(** [o[key]] on an object literal with the given own fields: the own
    property if there is one, else the inherited one, else [undefined]. *)
Definition object_get (fields : list (string * js_value)) (key : string)
  : js_value :=
  match own_property fields key with
  | Some v => v
  | None =>
      match own_property Object_prototype key with
      | Some v => v
      | None => JUndefined
      end
  end.

(** Decimal rendering of an integer, as [String(n)] gives for the integers
    below 10^21. *)
Definition Z_to_string (n : Z) : string := NilZero.string_of_int (Z.to_int n).

Definition join_comma (parts : list string) : string := String.concat "," parts.

(** [String(v)] as used for a computed property key.  [None] stands for the
    [TypeError] raised when an object cannot be converted to a primitive: a
    data object whose own [toString] property shadows the inherited method
    (a JSON value is never callable, and the inherited [valueOf] returns
    the object itself). *)
Fixpoint to_property_key (v : js_value) : option string :=
  match v with
  | JUndefined => Some "undefined"
  | JNull => Some "null"
  | JBool true => Some "true"
  | JBool false => Some "false"
  | JNumber n => Some (Z_to_string n)
  | JString s => Some s
  | JArray l =>
      (* Array.prototype.join: null and undefined elements print as nothing *)
      let fix go (l : list js_value) : option (list string) :=
        match l with
        | [] => Some []
        | x :: rest =>
            match (match x with
                   | JUndefined | JNull => Some EmptyString
                   | _ => to_property_key x
                   end), go rest with
            | Some s, Some ss => Some (s :: ss)
            | _, _ => None
            end
        end in
      option_map join_comma (go l)
  | JObject fields =>
      match own_property fields "toString" with
      | Some _ => None
      | None => Some "[object Object]"
      end
  | JFunction name => Some ("function " ++ name ++ "() { [native code] }")
  | JObjectPrototype => Some "[object Object]"
  end.

(** [haystack.includes(needle)] *)
Fixpoint includes (haystack needle : string) : bool :=
  if String.prefix needle haystack then true
  else match haystack with
       | EmptyString => false
       | String _ rest => includes rest needle
       end.

(** [c.toUpperCase()] on one ASCII character. *)
Definition ascii_toUpperCase (c : ascii) : ascii :=
  let n := nat_of_ascii c in
  if ((97 <=? n) && (n <=? 122))%nat then ascii_of_nat (n - 32) else c.

(** [s.charAt(0).toUpperCase() + s.slice(1)] *)
Definition capitalize (s : string) : string :=
  match s with
  | EmptyString => EmptyString
  | String c rest => String (ascii_toUpperCase c) rest
  end.

(** [str.slice(0, n)] for [0 <= n]. *)
Fixpoint str_take (n : nat) (s : string) : string :=
  match n, s with
  | O, _ => EmptyString
  | S n', String c rest => String c (str_take n' rest)
  | S _, EmptyString => EmptyString
  end.

(** [str.replace('T', ' ')]: the first occurrence only. *)
Fixpoint replace_first_T (s : string) : string :=
  match s with
  | EmptyString => EmptyString
  | String c rest =>
      if Ascii.eqb c "T"%char then String " "%char rest
      else String c (replace_first_T rest)
  end.

(* ================================================================= *)
(** ** Text, JSON and exceptions *)

(** A string that may hold a JSON document.  [JsonText j] stands for the
    text [JSON.stringify] produces for [j]; [PlainText s] is any other
    text, which [JSON.parse] rejects. *)
Inductive text : Type :=
| PlainText (s : string)
| JsonText (j : js_value).

(** What [JSON.stringify] keeps of a value: properties whose value is
    [undefined] or a function are dropped, such array elements become
    [null], and [Object.prototype] (no enumerable property) prints as the
    empty object. *)
Definition unserialisable (v : js_value) : bool :=
  match v with
  | JUndefined | JFunction _ => true
  | _ => false
  end.

Fixpoint to_json (v : js_value) : js_value :=
  match v with
  | JArray l =>
      JArray (map (fun x => if unserialisable x then JNull else to_json x) l)
  | JObject fields =>
      let fix go (fs : list (string * js_value)) : list (string * js_value) :=
        match fs with
        | [] => []
        | (k, x) :: rest =>
            if unserialisable x then go rest else (k, to_json x) :: go rest
        end in
      JObject (go fields)
  | JObjectPrototype => JObject []
  | _ => v
  end.

Definition JSON_stringify (v : js_value) : text := JsonText (to_json v).

Inductive js_error : Type :=
| Error (message : string)
| TypeError (message : string)
| SyntaxError (message : string)
| SystemError (message : string).   (* raised by fs, child_process, fetch *)

(** [error.message] *)
Definition message_of (e : js_error) : string :=
  match e with
  | Error m | TypeError m | SyntaxError m | SystemError m => m
  end.

Inductive outcome (A : Type) : Type :=
| Returned (a : A)
| Thrown (e : js_error).
Arguments Returned {A} a.
Arguments Thrown {A} e.

Definition JSON_parse (t : text) : outcome js_value :=
  match t with
  | JsonText j => Returned j
  | PlainText _ => Thrown (SyntaxError "Unexpected token in JSON")
  end.

(** [v[key]] for a data key ([credentials], [id], [0]) that no built-in
    prototype defines: reading from [null] or [undefined] throws, an object
    answers through [object_get], an array element or a character of a
    string is found by its index, anything else gives [undefined]. *)
Definition get_member (v : js_value) (key : string) : outcome js_value :=
  match v with
  | JUndefined | JNull =>
      Thrown (TypeError ("Cannot read properties of undefined (reading '"
                           ++ key ++ "')"))
  | JObject fields => Returned (object_get fields key)
  | JArray l =>
      if (key =? "0")%string then Returned (hd JUndefined l)
      else Returned JUndefined
  | JString s =>
      if (key =? "0")%string then
        match s with
        | EmptyString => Returned JUndefined
        | String c _ => Returned (JString (String c EmptyString))
        end
      else Returned JUndefined
  | _ => Returned JUndefined
  end.

(* ================================================================= *)
(** ** Records of the service *)

(** A row of [user_social_credentials] (the columns the service reads). *)
Record SocialCredRow : Type := {
  row_access_token : js_value;
  row_refresh_token : js_value;
  row_client_id : js_value;
  row_client_secret : js_value
}.

(** A row of [launchmvpfast-saas-starterkit_user]. *)
Record UserInfoRow : Type := {
  row_n8n_url : js_value;
  row_n8n_user_email : js_value;
  row_n8n_encryption_key : js_value;
  row_email : js_value;
  row_name : js_value
}.

(** The object [fetchUserCredentials] returns. *)
Record CredData : Type := {
  user_id : js_value;
  provider : js_value;
  access_token : js_value;
  refresh_token : js_value;
  client_id : js_value;
  client_secret : js_value;
  n8n_url : js_value;
  n8n_user_email : js_value;
  n8n_encryption_key : js_value
}.

Record TemplateData : Type := {
  clientId : js_value;
  clientSecret : js_value;
  accessToken : js_value;
  refreshToken : js_value;
  tokenType : string;
  grantType : string
}.

(** The object [createCredentialTemplate] returns.  [type] is a keyword of
    Rocq, hence [type_]. *)
Record CredentialTemplate : Type := {
  id : string;
  name : string;
  type_ : js_value;
  data : TemplateData;
  createdAt : string;
  updatedAt : string
}.

Record Details : Type := {
  method : string;
  output : string;
  strategy_used : option string     (* [strategy]; absent in part_002 *)
}.

Record Troubleshooting : Type := {
  strategies_tried : list string;
  common_fixes : list string
}.

(** The object the importers return ([cliResult]); an absent property is
    [None] or [JUndefined]. *)
Record CliResult : Type := {
  success : bool;
  credentialId : js_value;
  message : string;
  details : option Details;
  troubleshooting : option Troubleshooting
}.

(** The object passed to [.update(...)]. *)
Record UpdateData : Type := {
  injected_to_n8n : bool;
  injected_at : option string;          (* [null] is [None] *)
  injection_error : option string;      (* [error || null] *)
  additional_data : text;
  updated_at : string;
  n8n_credential_id : option js_value   (* set only for a truthy id *)
}.

(** [req.body] as [express.json()] leaves it: an object, of which the
    handler reads three members; a member that is absent reads as
    [undefined]. *)
Record RequestBody : Type := {
  body_user_id : js_value;
  body_provider : js_value;
  body_attempt : js_value
}.

(** The JSON object handed to [res.json]; an absent member is [None] or
    [JUndefined]. *)
Record ResponseBody : Type := {
  res_success : bool;
  res_message : string;
  res_credential_id : js_value;
  res_details : option Details;
  res_attempt : js_value;
  res_troubleshooting : option Troubleshooting;
  res_error_type : option string
}.

Record Response : Type := {
  status : Z;
  json : ResponseBody
}.

Record Config : Type := {
  SUPABASE_URL : option string;
  SUPABASE_SERVICE_KEY : option string
}.

(* ================================================================= *)
(** ** The outside world *)

(** One entry per call that leaves the process, in the order attempted. *)
Inductive Event : Type :=
| EvExec (command : string) (env : option (list (string * js_value)))
         (timeout : Z) (cwd : option string)
| EvWriteFile (path : string) (content : text)
| EvReadFile (path : string)
| EvUnlink (path : string)
| EvMkdir (path : string)
| EvSelect (table columns : string) (filters : list (string * js_value))
| EvUpdate (table : string) (updateData : UpdateData)
           (filters : list (string * js_value)).

(** How a child process ended.  The promisified [exec] of Node fulfils with
    [{stdout, stderr}] only for exit code 0; a non-zero exit code, a kill
    (time-out, signal, output over [maxBuffer]) and a spawn failure reject
    the promise. *)
Inductive ExecOutcome : Type :=
| Exited (code : Z) (stdout stderr : string)
| Killed (reason : string) (stdout stderr : string)
| SpawnFailed (reason : string).

(** The [error] member of a Supabase response. *)
Record DbError : Type := { db_message : string }.

(** A Supabase call fulfils with [{data, error}] or, at worst, rejects. *)
Inductive DbResponse (A : Type) : Type :=
| DbResolved (data : option A) (error : option DbError)
| DbRejected (e : js_error).
Arguments DbResolved {A} data error.
Arguments DbRejected {A} e.

Record Instant : Type := {
  epoch_ms : Z;          (* [Date.now()] *)
  iso : string           (* [new Date().toISOString()] *)
}.

(** The environment of one run.  The answer to a call is a function of the
    log that ends with that call, so the same command may succeed the
    second time it is issued.  Clock and random generator are read by
    position. *)
Record Env : Type := {
  process_env : list (string * string);
  clock : nat -> Instant;
  uuid_source : nat -> string;
  exec_result : list Event -> ExecOutcome;
  writeFile_result : list Event -> option js_error;
  readFile_result : list Event -> outcome text;
  unlink_result : list Event -> option js_error;
  mkdir_result : list Event -> option js_error;
  select_social_result : list Event -> DbResponse SocialCredRow;
  select_user_result : list Event -> DbResponse UserInfoRow;
  update_result : list Event -> DbResponse unit
}.

Record World : Type := {
  log : list Event;      (* what has been attempted so far *)
  reads : nat            (* clock and random readings taken so far *)
}.

Definition initial_world : World := {| log := []; reads := 0 |}.

(* ================================================================= *)
(** ** Computations: environment, world and exceptions *)

Definition M (A : Type) : Type := Env -> World -> outcome A * World.

Definition ret {A} (a : A) : M A := fun _ w => (Returned a, w).

Definition throw {A} (e : js_error) : M A := fun _ w => (Thrown e, w).

Definition bind {A B} (m : M A) (k : A -> M B) : M B :=
  fun env w =>
    match m env w with
    | (Returned a, w') => k a env w'
    | (Thrown e, w') => (Thrown e, w')
    end.

(** [try { m } catch (error) { handler }] *)
Definition try_catch {A} (m : M A) (handler : js_error -> M A) : M A :=
  fun env w =>
    match m env w with
    | (Returned a, w') => (Returned a, w')
    | (Thrown e, w') => handler e env w'
    end.

(** [promise.catch(() => {})] *)
Definition swallow (m : M unit) : M unit := try_catch m (fun _ => ret tt).

Definition lift {A} (o : outcome A) : M A := fun _ w => (o, w).

Declare Scope js_scope.
Delimit Scope js_scope with js.
Notation "x <- m ;; k" := (bind m (fun x => k))
  (at level 61, m at next level, right associativity) : js_scope.
Notation "' pat <- m ;; k" := (bind m (fun x => match x with pat => k end))
  (at level 61, pat pattern, m at next level, right associativity) : js_scope.
Notation "m ;; k" := (bind m (fun _ => k))
  (at level 61, right associativity) : js_scope.
Open Scope js_scope.

Definition record_event (e : Event) (w : World) : World :=
  {| log := log w ++ [e]; reads := reads w |}.

Definition tick (w : World) : World :=
  {| log := log w; reads := S (reads w) |}.

(** [Date.now()] *)
Definition Date_now : M Z :=
  fun env w => (Returned (epoch_ms (clock env (reads w))), tick w).

(** [new Date().toISOString()] *)
Definition Date_toISOString : M string :=
  fun env w => (Returned (iso (clock env (reads w))), tick w).

(** [crypto.randomUUID()] *)
Definition crypto_randomUUID : M string :=
  fun env w => (Returned (uuid_source env (reads w)), tick w).

Definition newline : string := String (ascii_of_nat 10) EmptyString.

(** [await execAsync(command, { env, timeout, cwd })] *)
Definition execAsync (command : string)
    (env_opt : option (list (string * js_value))) (timeout : Z)
    (cwd : option string) : M (string * string) :=
  fun env w =>
    let w' := record_event (EvExec command env_opt timeout cwd) w in
    match exec_result env (log w') with
    | Exited 0 stdout stderr => (Returned (stdout, stderr), w')
    | Exited _ _ stderr =>
        (Thrown (Error ("Command failed: " ++ command ++ newline ++ stderr)), w')
    | Killed reason _ stderr =>
        (Thrown (Error ("Command failed: " ++ command ++ newline ++ stderr)), w')
    | SpawnFailed reason => (Thrown (SystemError reason), w')
    end.

Definition fs_call (e : Event) (answer : Env -> list Event -> option js_error)
  : M unit :=
  fun env w =>
    let w' := record_event e w in
    match answer env (log w') with
    | None => (Returned tt, w')
    | Some err => (Thrown err, w')
    end.

(** [await fs.writeFile(path, content)] *)
Definition fs_writeFile (path : string) (content : text) : M unit :=
  fs_call (EvWriteFile path content) writeFile_result.

(** [await fs.unlink(path)] *)
Definition fs_unlink (path : string) : M unit :=
  fs_call (EvUnlink path) unlink_result.

(** [await fs.mkdir(path, { recursive: true })] *)
Definition fs_mkdir (path : string) : M unit :=
  fs_call (EvMkdir path) mkdir_result.

(** [await fs.readFile(path, 'utf8')] *)
Definition fs_readFile (path : string) : M text :=
  fun env w =>
    let w' := record_event (EvReadFile path) w in
    (readFile_result env (log w'), w').

Definition db_call {A} (e : Event)
    (answer : Env -> list Event -> DbResponse A)
  : M (option A * option DbError) :=
  fun env w =>
    let w' := record_event e w in
    match answer env (log w') with
    | DbResolved data error => (Returned (data, error), w')
    | DbRejected err => (Thrown err, w')
    end.

(** [path.join(dir, file)] for a [file] without separators. *)
Definition path_join (dir file : string) : string := dir ++ "/" ++ file.

(** [process.env.NAME] *)
Fixpoint getenv (penv : list (string * string)) (name : string)
  : option string :=
  match penv with
  | [] => None
  | (k, v) :: rest => if (k =? name)%string then Some v else getenv rest name
  end.

(** [const CONFIG = {...}], read once from the process environment. *)
Definition CONFIG (env : Env) : Config :=
  {| SUPABASE_URL := getenv (process_env env) "SUPABASE_URL";
     SUPABASE_SERVICE_KEY := getenv (process_env env) "SUPABASE_SERVICE_ROLE_KEY" |}.

(** [!!s] for [s] a string or [undefined]. *)
Definition configured (s : option string) : bool :=
  match s with
  | Some v => negb (v =? EmptyString)%string
  | None => false
  end.

Definition get_config : M Config := fun env w => (Returned (CONFIG env), w).

(** [{ ...process.env }] *)
Definition inherited_env (env : Env) : list (string * js_value) :=
  map (fun kv => (fst kv, JString (snd kv))) (process_env env).

Definition spread_process_env : M (list (string * js_value)) :=
  fun env w => (Returned (inherited_env env), w).

(** [obj.key = v]: an existing property keeps its place, a new one goes
    last. *)
Fixpoint set_property (obj : list (string * js_value)) (key : string)
    (v : js_value) : list (string * js_value) :=
  match obj with
  | [] => [(key, v)]
  | (k, x) :: rest =>
      if (k =? key)%string then (k, v) :: rest
      else (k, x) :: set_property rest key v
  end.

(* ================================================================= *)
(** ** Functions common to both services *)

Definition select_social (userId provider : js_value)
  : M (option SocialCredRow * option DbError) :=
  db_call (EvSelect "user_social_credentials" "*"
                    [("user_id", userId); ("provider", provider)])
          select_social_result.

Definition select_user (userId : js_value)
  : M (option UserInfoRow * option DbError) :=
  db_call (EvSelect "launchmvpfast-saas-starterkit_user"
                    "n8n_url, n8n_user_email, n8n_encryption_key, email, name"
                    [("id", userId)])
          select_user_result.

(** [fetchUserCredentials]; [null] is [None].  Building the client touches
    nothing outside the process. *)
Definition fetchUserCredentials (userId provider : js_value)
  : M (option CredData) :=
  try_catch
    ('(socialCred, socialError) <- select_social userId provider ;;
     match socialError, socialCred with
     | None, Some socialCred =>
         '(userInfo, userError) <- select_user userId ;;
         match userError, userInfo with
         | None, Some userInfo =>
             ret (Some
               {| user_id := userId;
                  provider := provider;
                  access_token := row_access_token socialCred;
                  refresh_token :=
                    js_or (row_refresh_token socialCred) (JString EmptyString);
                  client_id := row_client_id socialCred;
                  client_secret := row_client_secret socialCred;
                  n8n_url := row_n8n_url userInfo;
                  n8n_user_email :=
                    js_or (row_n8n_user_email userInfo) (row_email userInfo);
                  n8n_encryption_key := row_n8n_encryption_key userInfo |})
         | _, _ => ret None
         end
     | _, _ => ret None
     end)
    (fun _ => ret None).

Definition credentialTypes : list (string * js_value) :=
  [ ("google", JString "googleOAuth2Api");
    ("spotify", JString "spotifyOAuth2Api");
    ("github", JString "githubOAuth2Api") ].

(** [createCredentialTemplate].  The table is indexed with the provider
    converted to a property key; the display name calls [charAt], which
    only a string has. *)
Definition createCredentialTemplate (credData : CredData)
  : M CredentialTemplate :=
  credentialId <- crypto_randomUUID ;;
  now <- Date_toISOString ;;
  let timestamp := replace_first_T (str_take 16 now) in
  key <- lift (match to_property_key (provider credData) with
               | Some k => Returned k
               | None =>
                   Thrown (TypeError "Cannot convert object to primitive value")
               end) ;;
  let credentialType := object_get credentialTypes key in
  if negb (truthy credentialType) then
    throw (Error ("Unsupported provider: " ++ key))
  else
    display <- lift (match provider credData with
                     | JString p => Returned (capitalize p)
                     | _ =>
                         Thrown (TypeError
                                   "credData.provider.charAt is not a function")
                     end) ;;
    created <- Date_toISOString ;;
    updated <- Date_toISOString ;;
    ret {| id := credentialId;
           name := display ++ " OAuth2 - " ++ timestamp;
           type_ := credentialType;
           data := {| clientId := client_id credData;
                      clientSecret := client_secret credData;
                      accessToken := access_token credData;
                      refreshToken := refresh_token credData;
                      tokenType := "Bearer";
                      grantType := "authorizationCode" |};
           createdAt := created;
           updatedAt := updated |}.

Definition template_to_js (t : CredentialTemplate) : js_value :=
  JObject
    [ ("id", JString (id t));
      ("name", JString (name t));
      ("type", type_ t);
      ("data", JObject
         [ ("clientId", clientId (data t));
           ("clientSecret", clientSecret (data t));
           ("accessToken", accessToken (data t));
           ("refreshToken", refreshToken (data t));
           ("tokenType", JString (tokenType (data t)));
           ("grantType", JString (grantType (data t))) ]);
      ("createdAt", JString (createdAt t));
      ("updatedAt", JString (updatedAt t)) ].

(** [generateCredentialJSON] *)
Definition generateCredentialJSON (credentials : list CredentialTemplate)
  : text :=
  JSON_stringify
    (JObject [ ("version", JString "1.0.0");
               ("credentials", JArray (map template_to_js credentials));
               ("workflows", JArray []) ]).

Definition details_to_js (d : Details) : js_value :=
  JObject
    ([ ("method", JString (method d)); ("output", JString (output d)) ]
       ++ match strategy_used d with
          | Some s => [ ("strategy", JString s) ]
          | None => []
          end).

(** [s || null] *)
Definition string_or_null (s : string) : option string :=
  if (s =? EmptyString)%string then None else Some s.

Definition nullable_string (s : option string) : js_value :=
  match s with
  | Some v => JString v
  | None => JNull
  end.

(** [updateCredentialStatus]; the two services differ only in the extra
    members of the diagnostic blob ([injection_method], [version]). *)
Definition updateCredentialStatus_with (injection_method : string)
    (extra : list (string * js_value))
    (userId provider : js_value) (success : bool) (credentialId : js_value)
    (error : string) (details : option Details) : M unit :=
  injected <- (if success
               then (t <- Date_toISOString ;; ret (Some t))
               else ret None) ;;
  timestamp <- Date_toISOString ;;
  updated <- Date_toISOString ;;
  let updateData :=
    {| injected_to_n8n := success;
       injected_at := injected;
       injection_error := string_or_null error;
       additional_data :=
         JSON_stringify
           (JObject
              ([ ("injection_method", JString injection_method);
                 ("success", JBool success);
                 ("error", nullable_string (string_or_null error));
                 ("details", match details with
                             | Some d => details_to_js d
                             | None => JNull
                             end);
                 ("timestamp", JString timestamp);
                 ("platform", JString "railway") ] ++ extra));
       updated_at := updated;
       n8n_credential_id :=
         if truthy credentialId then Some credentialId else None |} in
  '(_, updateError) <-
    db_call (EvUpdate "user_social_credentials" updateData
                      [("user_id", userId); ("provider", provider)])
            update_result ;;
  match updateError with
  | Some err => throw (Error ("Database update failed: " ++ db_message err))
  | None => ret tt
  end.

(** [`${v}`]: the string conversion of a template literal, which throws
    for an object that cannot be converted to a primitive. *)
Definition template_string (v : js_value) : outcome string :=
  match to_property_key v with
  | Some s => Returned s
  | None => Thrown (TypeError "Cannot convert object to primitive value")
  end.

(** [console.log(`Processing credential injection (attempt ${attempt}):`,
    { userId: user_id, provider: provider,
      timestamp: new Date().toISOString() })]: the template literal is
    evaluated first, then the clock is read; the output itself is not
    recorded. *)
Definition log_processing (attempt : js_value) : M unit :=
  _ <- lift (template_string attempt) ;;
  _ <- Date_toISOString ;;
  ret tt.

(** The response shapes of the injection endpoint. *)
Definition plain_response (code : Z) (msg : string) (error_type : option string)
  : Response :=
  {| status := code;
     json := {| res_success := false;
                res_message := msg;
                res_credential_id := JUndefined;
                res_details := None;
                res_attempt := JUndefined;
                res_troubleshooting := None;
                res_error_type := error_type |} |}.

Definition success_response (cliResult : CliResult) : Response :=
  {| status := 200;
     json := {| res_success := true;
                res_message :=
                  "Credentials injected successfully via Railway n8n CLI";
                res_credential_id := credentialId cliResult;
                res_details := details cliResult;
                res_attempt := JUndefined;
                res_troubleshooting := None;
                res_error_type := None |} |}.

Definition failure_response (cliResult : CliResult) (attempt : js_value)
    (hints : option Troubleshooting) : Response :=
  {| status := 500;
     json := {| res_success := false;
                res_message := message cliResult;
                res_credential_id := JUndefined;
                res_details := None;
                res_attempt := attempt;
                res_troubleshooting := hints;
                res_error_type := None |} |}.

(** [const { attempt = 1 } = req.body]: the default replaces [undefined]
    only. *)
Definition attempt_of (body : RequestBody) : js_value :=
  match body_attempt body with
  | JUndefined => JNumber 1
  | a => a
  end.

(* ================================================================= *)
(** ** Health probes: shared pieces *)

(** What a health endpoint sends: a status code and a JSON object. *)
Record HttpResponse : Type := {
  http_status : Z;
  http_json : js_value
}.

(** White space and line terminators of the ASCII range. *)
Definition is_white_space (c : ascii) : bool :=
  let n := nat_of_ascii c in
  (((9 <=? n) && (n <=? 13)) || (n =? 32))%nat.

Fixpoint trimStart (s : string) : string :=
  match s with
  | EmptyString => EmptyString
  | String c rest => if is_white_space c then trimStart rest else s
  end.

Fixpoint trimEnd (s : string) : string :=
  match s with
  | EmptyString => EmptyString
  | String c rest =>
      match trimEnd rest with
      | EmptyString => if is_white_space c then EmptyString
                       else String c EmptyString
      | kept => String c kept
      end
  end.

(** [s.trim()] *)
Definition trim (s : string) : string := trimEnd (trimStart s).

(* ================================================================= *)
(** ** The enhanced service ([src/index.js]) *)

Module Enhanced.

(** The [switch (strategy)] of [tryImportCommand]: the command line and
    the environment object of the child, from the inherited copy
    [{ ...process.env }]. *)
Definition import_invocation (strategy tempFilePath : string)
    (credData : CredData) (inherited : list (string * js_value))
  : outcome (string * list (string * js_value)) :=
  if (strategy =? "basic")%string then
    Returned
      ("n8n import:credentials --input=" ++ tempFilePath,
       set_property inherited "N8N_ENCRYPTION_KEY"
                    (n8n_encryption_key credData))
  else if (strategy =? "userFolder")%string then
    Returned
      ("n8n import:credentials --input=" ++ tempFilePath
         ++ " --userFolder=/tmp/.n8n",
       set_property
         (set_property inherited "N8N_ENCRYPTION_KEY"
                       (n8n_encryption_key credData))
         "N8N_USER_FOLDER" (JString "/tmp/.n8n"))
  else if (strategy =? "minimal")%string then
    Returned
      ("n8n import:credentials --input=" ++ tempFilePath,
       [ ("NODE_ENV", JString "production");
         ("N8N_ENCRYPTION_KEY", n8n_encryption_key credData);
         ("N8N_LOG_LEVEL", JString "error");
         ("N8N_USER_MANAGEMENT_DISABLED", JString "true") ])
  else Thrown (Error ("Unknown strategy: " ++ strategy)).

(** The success test on the importer's standard output. *)
Definition success_indicators (stdout : string) : bool :=
  includes stdout "Successfully imported"
  || includes stdout "imported"
  || includes stdout "credential".

(** [JSON.parse(await fs.readFile(path, 'utf8')).credentials[0].id] *)
Definition read_back_id (tempFilePath : string) : M js_value :=
  content <- fs_readFile tempFilePath ;;
  parsed <- lift (JSON_parse content) ;;
  credentials <- lift (get_member parsed "credentials") ;;
  first <- lift (get_member credentials "0") ;;
  lift (get_member first "id").

Definition tryImportCommand (tempFilePath : string) (credData : CredData)
    (strategy : string) : M CliResult :=
  inherited <- spread_process_env ;;
  '(command, env) <-
    lift (import_invocation strategy tempFilePath credData inherited) ;;
  '(stdout, stderr) <- execAsync command (Some env) 60000 (Some "/tmp") ;;
  if success_indicators stdout then
    credentialId <- read_back_id tempFilePath ;;
    ret {| success := true;
           credentialId := credentialId;
           message := "Credentials imported successfully using "
                        ++ strategy ++ " strategy";
           details := Some {| method := "railway_cli_" ++ strategy;
                              output := stdout;
                              strategy_used := Some strategy |};
           troubleshooting := None |}
  else
    throw (Error ("Import command completed but no success indicators found. Output: "
                    ++ stdout)).

(** One [try { ... if (result.success) { unlink; return result } }
    catch (error) { log }] block.  [Some r] is the early [return r];
    [None] means control falls through to what follows the block. *)
Definition strategy_block (prepare : M unit) (tempFilePath : string)
    (credData : CredData) (strategy : string) : M (option CliResult) :=
  try_catch
    (prepare ;;
     result <- tryImportCommand tempFilePath credData strategy ;;
     if success result then
       swallow (fs_unlink tempFilePath) ;;
       ret (Some result)
     else ret None)
    (fun _ => ret None).

Definition failure_hints : Troubleshooting :=
  {| strategies_tried := ["basic"; "userFolder"; "minimal"];
     common_fixes :=
       [ "Rebuild Docker image with proper n8n installation";
         "Check n8n global installation";
         "Verify file permissions in container" ] |}.

Definition temp_path (now : Z) : string :=
  path_join "/tmp" ("credentials-" ++ Z_to_string now ++ ".json").

(** The three strategy blocks in source order, then the [throw]. *)
Definition run_strategies (tempFilePath : string) (credData : CredData)
  : M CliResult :=
  first <- strategy_block (ret tt) tempFilePath credData "basic" ;;
  match first with
  | Some result => ret result
  | None =>
      second <- strategy_block (fs_mkdir "/tmp/.n8n") tempFilePath credData
                               "userFolder" ;;
      match second with
      | Some result => ret result
      | None =>
          third <- strategy_block (ret tt) tempFilePath credData "minimal" ;;
          match third with
          | Some result => ret result
          | None => throw (Error "All import strategies failed")
          end
      end
  end.

Definition executeN8NCLIEnhanced (credData : CredData) (jsonContent : text)
  : M CliResult :=
  now <- Date_now ;;
  let tempFilePath := temp_path now in
  try_catch
    (fs_writeFile tempFilePath jsonContent ;;
     run_strategies tempFilePath credData)
    (fun error =>
       swallow (fs_unlink tempFilePath) ;;
       ret {| success := false;
              credentialId := JUndefined;
              message := str_or (message_of error)
                                "Enhanced CLI execution failed";
              details := None;
              troubleshooting := Some failure_hints |}).

Definition updateCredentialStatus :=
  updateCredentialStatus_with "railway_cli_enhanced"
                              [("version", JString "2.0")].

(** [app.post('/inject-credential', ...)] *)
Definition inject_credential (body : RequestBody) : M Response :=
  try_catch
    (let user_id := body_user_id body in
     let provider := body_provider body in
     let attempt := attempt_of body in
     if negb (truthy user_id) || negb (truthy provider) then
       ret (plain_response 400 "Missing user_id or provider" None)
     else
       config <- get_config ;;
       if negb (configured (SUPABASE_URL config))
          || negb (configured (SUPABASE_SERVICE_KEY config)) then
         ret (plain_response 500 "Missing Supabase configuration" None)
       else
         log_processing attempt ;;
         unavailable <-
           try_catch
             (execAsync "n8n --version" None 5000 None ;; ret None)
             (fun _ =>
                ret (Some (plain_response 500
                             "N8N CLI is not available in this environment"
                             (Some "cli_unavailable")))) ;;
         match unavailable with
         | Some response => ret response
         | None =>
             credData <- fetchUserCredentials user_id provider ;;
             match credData with
             | None =>
                 ret (plain_response 404
                        "User credentials or n8n configuration not found"
                        None)
             | Some credData =>
                 credentialTemplate <- createCredentialTemplate credData ;;
                 let jsonContent :=
                   generateCredentialJSON [credentialTemplate] in
                 cliResult <- executeN8NCLIEnhanced credData jsonContent ;;
                 updateCredentialStatus user_id provider
                   (success cliResult) (credentialId cliResult)
                   (message cliResult) (details cliResult) ;;
                 if success cliResult then ret (success_response cliResult)
                 else ret (failure_response cliResult attempt
                                            (troubleshooting cliResult))
             end
         end)
    (fun error =>
       ret (plain_response 500
              (str_or (message_of error) "Internal server error")
              (Some "railway_service_error"))).

(** [app.get('/', ...)] *)
Definition get_root : M HttpResponse :=
  try_catch
    ('(stdout, _) <- execAsync "n8n --version" None 5000 None ;;
     timestamp <- Date_toISOString ;;
     ret {| http_status := 200;
            http_json :=
              JObject [ ("status", JString "healthy");
                        ("timestamp", JString timestamp);
                        ("service", JString "n8n-cli-railway");
                        ("version", JString "2.0.0");
                        ("n8n_cli_version", JString (trim stdout));
                        ("n8n_available", JBool true) ] |})
    (fun error =>
       timestamp <- Date_toISOString ;;
       ret {| http_status := 500;
              http_json :=
                JObject [ ("status", JString "unhealthy");
                          ("timestamp", JString timestamp);
                          ("service", JString "n8n-cli-railway");
                          ("error", JString "n8n CLI not available");
                          ("details", JString (message_of error));
                          ("n8n_available", JBool false) ] |}).

(** [app.get('/health', ...)] *)
Definition get_health : M HttpResponse :=
  try_catch
    ('(stdout, _) <- execAsync "n8n --help" None 5000 None ;;
     let hasImportCommand := includes stdout "import:credentials" in
     timestamp <- Date_toISOString ;;
     ret {| http_status := 200;
            http_json :=
              JObject [ ("status", JString "ok");
                        ("timestamp", JString timestamp);
                        ("n8n_cli_available", JBool true);
                        ("import_command_available",
                         JBool hasImportCommand) ] |})
    (fun error =>
       timestamp <- Date_toISOString ;;
       ret {| http_status := 500;
              http_json :=
                JObject [ ("status", JString "error");
                          ("timestamp", JString timestamp);
                          ("error", JString "n8n CLI check failed");
                          ("details", JString (message_of error));
                          ("n8n_cli_available", JBool false) ] |}).

End Enhanced.

(* ================================================================= *)
(** ** The simplified service ([src/unnamed/part_002]) *)

Module Simplified.

Definition temp_path (now : Z) : string :=
  path_join "/tmp" ("credentials-" ++ Z_to_string now ++ ".json").

Definition executeN8NCLI (credData : CredData) (jsonContent : text)
  : M CliResult :=
  now <- Date_now ;;
  let tempFilePath := temp_path now in
  try_catch
    (fs_writeFile tempFilePath jsonContent ;;
     inherited <- spread_process_env ;;
     let env :=
       set_property
         (set_property
            (set_property inherited "N8N_ENCRYPTION_KEY"
                          (n8n_encryption_key credData))
            "N8N_USER_MANAGEMENT_DISABLED" (JString "false"))
         "N8N_LOG_LEVEL" (JString "warn") in
     '(stdout, stderr) <-
       execAsync ("n8n import:credentials --input=" ++ tempFilePath
                    ++ " --separate")
                 (Some env) 30000 None ;;
     swallow (fs_unlink tempFilePath) ;;
     parsed <- lift (JSON_parse jsonContent) ;;
     credentials <- lift (get_member parsed "credentials") ;;
     first <- lift (get_member credentials "0") ;;
     credentialId <- lift (get_member first "id") ;;
     ret {| success := true;
            credentialId := credentialId;
            message := "Credentials imported successfully via Railway";
            details := Some {| method := "railway_cli";
                               output := stdout;
                               strategy_used := None |};
            troubleshooting := None |})
    (fun error =>
       swallow (fs_unlink tempFilePath) ;;
       ret {| success := false;
              credentialId := JUndefined;
              message := str_or (message_of error)
                                "Railway CLI execution failed";
              details := None;
              troubleshooting := None |}).

Definition updateCredentialStatus :=
  updateCredentialStatus_with "railway_cli" [].

(** [app.post('/inject-credential', ...)] *)
Definition inject_credential (body : RequestBody) : M Response :=
  try_catch
    (let user_id := body_user_id body in
     let provider := body_provider body in
     let attempt := attempt_of body in
     if negb (truthy user_id) || negb (truthy provider) then
       ret (plain_response 400 "Missing user_id or provider" None)
     else
       config <- get_config ;;
       if negb (configured (SUPABASE_URL config))
          || negb (configured (SUPABASE_SERVICE_KEY config)) then
         ret (plain_response 500 "Missing Supabase configuration" None)
       else
         log_processing attempt ;;
         credData <- fetchUserCredentials user_id provider ;;
         match credData with
         | None =>
             ret (plain_response 404
                    "User credentials or n8n configuration not found" None)
         | Some credData =>
             credentialTemplate <- createCredentialTemplate credData ;;
             let jsonContent := generateCredentialJSON [credentialTemplate] in
             cliResult <- executeN8NCLI credData jsonContent ;;
             updateCredentialStatus user_id provider
               (success cliResult) (credentialId cliResult)
               (message cliResult) (details cliResult) ;;
             if success cliResult then ret (success_response cliResult)
             else ret (failure_response cliResult attempt None)
         end)
    (fun error =>
       ret (plain_response 500
              (str_or (message_of error) "Internal server error")
              (Some "railway_service_error"))).

(** [app.get('/', ...)] *)
Definition get_root : M HttpResponse :=
  timestamp <- Date_toISOString ;;
  ret {| http_status := 200;
         http_json :=
           JObject [ ("status", JString "healthy");
                     ("timestamp", JString timestamp);
                     ("service", JString "n8n-cli-railway");
                     ("version", JString "1.0.0") ] |}.

(** [app.get('/health', ...)] *)
Definition get_health : M HttpResponse :=
  timestamp <- Date_toISOString ;;
  ret {| http_status := 200;
         http_json :=
           JObject [ ("status", JString "ok");
                     ("timestamp", JString timestamp) ] |}.

End Simplified.

(* ================================================================= *)
(** ** Concrete environments *)

(** The most recent call in a log. *)
Definition last_event (l : list Event) : option Event :=
  match rev l with
  | [] => None
  | e :: _ => Some e
  end.

(** A file system that gives back what was last written to a path. *)
Fixpoint written_to (path : string) (l : list Event) : option text :=
  match l with
  | [] => None
  | e :: rest =>
      match written_to path rest with
      | Some t => Some t
      | None =>
          match e with
          | EvWriteFile p t => if (p =? path)%string then Some t else None
          | _ => None
          end
      end
  end.

Definition honest_readFile (l : list Event) : outcome text :=
  match last_event l with
  | Some (EvReadFile p) =>
      match written_to p l with
      | Some t => Returned t
      | None => Thrown (SystemError "ENOENT: no such file or directory")
      end
  | _ => Thrown (SystemError "EBADF")
  end.

Definition sample_social_row : SocialCredRow :=
  {| row_access_token := JString "at-1";
     row_refresh_token := JNull;
     row_client_id := JString "cid";
     row_client_secret := JString "secret" |}.

Definition sample_user_row : UserInfoRow :=
  {| row_n8n_url := JString "https://n8n.example";
     row_n8n_user_email := JNull;
     row_email := JString "u1@example.org";
     row_n8n_encryption_key := JString "k";
     row_name := JString "U One" |}.

(** An environment in which everything works; the importer prints
    [cli_stdout] and ends with [cli_code]. *)
Definition sample_env (cli_code : Z) (cli_stdout : string) : Env :=
  {| process_env := [ ("PATH", "/usr/bin");
                      ("SUPABASE_URL", "https://db.example");
                      ("SUPABASE_SERVICE_ROLE_KEY", "service-key") ];
     clock := fun n => {| epoch_ms := 1700000000000 + Z.of_nat n;
                          iso := "2023-11-14T22:13:20.000Z" |};
     uuid_source := fun _ => "3f2b8c1e-0000-4000-8000-000000000001";
     exec_result := fun l =>
       match last_event l with
       | Some (EvExec "n8n --version" _ _ _) => Exited 0 "1.64.0" EmptyString
       | _ => Exited cli_code cli_stdout EmptyString
       end;
     writeFile_result := fun _ => None;
     readFile_result := honest_readFile;
     unlink_result := fun _ => None;
     mkdir_result := fun _ => None;
     select_social_result := fun _ => DbResolved (Some sample_social_row) None;
     select_user_result := fun _ => DbResolved (Some sample_user_row) None;
     update_result := fun _ => DbResolved None None |}.

(** The same environment with another database answering the status
    update. *)
Definition with_update_result (answer : list Event -> DbResponse unit)
    (env : Env) : Env :=
  {| process_env := process_env env;
     clock := clock env;
     uuid_source := uuid_source env;
     exec_result := exec_result env;
     writeFile_result := writeFile_result env;
     readFile_result := readFile_result env;
     unlink_result := unlink_result env;
     mkdir_result := mkdir_result env;
     select_social_result := select_social_result env;
     select_user_result := select_user_result env;
     update_result := answer |}.

(** The same environment with other answers to the two lookups. *)
Definition with_lookup_results
    (social : list Event -> DbResponse SocialCredRow)
    (user : list Event -> DbResponse UserInfoRow) (env : Env) : Env :=
  {| process_env := process_env env;
     clock := clock env;
     uuid_source := uuid_source env;
     exec_result := exec_result env;
     writeFile_result := writeFile_result env;
     readFile_result := readFile_result env;
     unlink_result := unlink_result env;
     mkdir_result := mkdir_result env;
     select_social_result := social;
     select_user_result := user;
     update_result := update_result env |}.

Definition sample_body (p : string) : RequestBody :=
  {| body_user_id := JString "u1";
     body_provider := JString p;
     body_attempt := JUndefined |}.

Definition sample_credData (p : string) : CredData :=
  {| user_id := JString "u1";
     provider := JString p;
     access_token := JString "at-1";
     refresh_token := JString EmptyString;
     client_id := JString "cid";
     client_secret := JString "secret";
     n8n_url := JString "https://n8n.example";
     n8n_user_email := JString "u1@example.org";
     n8n_encryption_key := JString "k" |}.

(** A template as the service builds it for [sample_credData "spotify"]. *)
Definition sample_template : CredentialTemplate :=
  {| id := "c-9";
     name := "Spotify OAuth2 - 2023-11-14 22:13";
     type_ := JString "spotifyOAuth2Api";
     data := {| clientId := JString "cid";
                clientSecret := JString "secret";
                accessToken := JString "at-1";
                refreshToken := JString EmptyString;
                tokenType := "Bearer";
                grantType := "authorizationCode" |};
     createdAt := "2023-11-14T22:13:20.000Z";
     updatedAt := "2023-11-14T22:13:20.000Z" |}.

(** A world in which the scratch file has been written. *)
Definition sample_written_world : World :=
  record_event
    (EvWriteFile "/tmp/credentials-7.json"
       (JsonText
          (JObject
             [ ("version", JString "1.0.0");
               ("credentials", JArray [ JObject [ ("id", JString "c-1") ] ]);
               ("workflows", JArray []) ])))
    initial_world.

(* ================================================================= *)
(** ** Vocabulary of the properties *)

Definition is_thrown {A} (o : outcome A) : Prop :=
  match o with
  | Thrown _ => True
  | Returned _ => False
  end.

(** Kinds of events. *)
Definition is_update (e : Event) : bool :=
  match e with
  | EvUpdate _ _ _ => true
  | _ => false
  end.

Definition is_exec (e : Event) : bool :=
  match e with
  | EvExec _ _ _ _ => true
  | _ => false
  end.

(** What the importers do to the outside world: subprocesses and scratch
    files, never the database. *)
Definition importer_event (e : Event) : Prop :=
  match e with
  | EvSelect _ _ _ | EvUpdate _ _ _ => False
  | _ => True
  end.

(** [m] only adds to the log, and only events that satisfy [P]. *)
Definition emits (P : Event -> Prop) {A} (m : M A) : Prop :=
  forall env w,
  exists evs, log (snd (m env w)) = (log w ++ evs)%list /\ Forall P evs.

(** The log shows an import subprocess that ended with exit code 0 and
    printed a success substring. *)
Definition import_succeeded (env : Env) (l : list Event) : Prop :=
  exists before command e after stdout stderr,
    l = (before ++ EvExec command (Some e) 60000 (Some "/tmp") :: after)%list
    /\ exec_result env
         (before ++ [EvExec command (Some e) 60000 (Some "/tmp")])%list
       = Exited 0 stdout stderr
    /\ Enhanced.success_indicators stdout = true.

(** The same environment with another file system answering [unlink]. *)
Definition with_unlink_result (answer : list Event -> option js_error)
    (env : Env) : Env :=
  {| process_env := process_env env;
     clock := clock env;
     uuid_source := uuid_source env;
     exec_result := exec_result env;
     writeFile_result := writeFile_result env;
     readFile_result := readFile_result env;
     unlink_result := answer;
     mkdir_result := mkdir_result env;
     select_social_result := select_social_result env;
     select_user_result := select_user_result env;
     update_result := update_result env |}.

(** [m] behaves the same whatever [unlink] answers. *)
Definition unlink_blind {A} (m : M A) : Prop :=
  forall answer env w, m (with_unlink_result answer env) w = m env w.

(** A lookup that did not produce a row: no data, an error, or a rejected
    call. *)
Definition lookup_failed {A} (r : DbResponse A) : bool :=
  match r with
  | DbResolved (Some _) None => false
  | _ => true
  end.

(** The two lookups of [fetchUserCredentials], as events. *)
Definition social_lookup (userId provider : js_value) : Event :=
  EvSelect "user_social_credentials" "*"
           [("user_id", userId); ("provider", provider)].

Definition user_lookup (userId : js_value) : Event :=
  EvSelect "launchmvpfast-saas-starterkit_user"
           "n8n_url, n8n_user_email, n8n_encryption_key, email, name"
           [("id", userId)].

(** The pre-flight probe of the enhanced handler, as an event. *)
Definition version_probe : Event := EvExec "n8n --version" None 5000 None.

(** The status-update write for one credential record, as an event. *)
Definition status_update (userId provider : js_value) (updateData : UpdateData)
  : Event :=
  EvUpdate "user_social_credentials" updateData
           [("user_id", userId); ("provider", provider)].

(** The message of the exception a failed status update raises, if the
    update failed: the database answered with an error, or the call was
    rejected. *)
Definition update_failure (r : DbResponse unit) : option string :=
  match r with
  | DbResolved _ (Some err) =>
      Some ("Database update failed: " ++ db_message err)
  | DbResolved _ None => None
  | DbRejected e => Some (message_of e)
  end.

(** The enhanced handler gets as far as the importer: the body is valid,
    the configuration present, [attempt] can be shown in the log line, the
    probe answers, the lookups find the credentials [cd], and the template
    [template] is built, which leaves the world [w3]. *)
Definition reaches_importer (body : RequestBody) (env : Env) (w0 : World)
    (cd : CredData) (template : CredentialTemplate) (w3 : World) : Prop :=
  truthy (body_user_id body) = true
  /\ truthy (body_provider body) = true
  /\ configured (SUPABASE_URL (CONFIG env)) = true
  /\ configured (SUPABASE_SERVICE_KEY (CONFIG env)) = true
  /\ (exists shown, template_string (attempt_of body) = Returned shown)
  /\ exists out w1 w2,
      execAsync "n8n --version" None 5000 None env (tick w0)
      = (Returned out, w1)
      /\ fetchUserCredentials (body_user_id body) (body_provider body) env w1
         = (Returned (Some cd), w2)
      /\ createCredentialTemplate cd env w2 = (Returned template, w3).

(** The status of the response a run ended with, if it ended with one. *)
Definition status_of_run (o : outcome Response) : option Z :=
  match o with
  | Returned r => Some (status r)
  | Thrown _ => None
  end.

(** [o[key]] on the JSON object of a health answer. *)
Definition member (v : js_value) (key : string) : js_value :=
  match v with
  | JObject fields => object_get fields key
  | _ => JUndefined
  end.

(** The import command of a strategy, as the event it is logged as; no
    event for a name that is no strategy. *)
Definition import_exec (strategy path : string) (cd : CredData) (env : Env)
  : list Event :=
  match Enhanced.import_invocation strategy path cd (inherited_env env) with
  | Returned (command, e) => [EvExec command (Some e) 60000 (Some "/tmp")]
  | Thrown _ => []
  end.

(** What a request may attempt before the importer starts: the version
    probe and the lookups. *)
Definition early_event (e : Event) : Prop :=
  match e with
  | EvExec "n8n --version" None 5000 None => True
  | EvSelect _ _ _ => True
  | _ => False
  end.

(** The steps of the strategies: a subprocess, or the creation of the
    user folder. *)
Definition is_step (e : Event) : bool :=
  match e with
  | EvExec _ _ _ _ | EvMkdir _ => true
  | _ => false
  end.

(** A lookup in the database. *)
Definition lookup_event (e : Event) : Prop :=
  match e with
  | EvSelect _ _ _ => True
  | _ => False
  end.

(** The simplified handler gets as far as the importer (it has no
    pre-flight probe): as above, with the lookups right after the log
    line. *)
Definition simplified_reaches_importer (body : RequestBody) (env : Env)
    (w0 : World) (cd : CredData) (template : CredentialTemplate)
    (w2 : World) : Prop :=
  truthy (body_user_id body) = true
  /\ truthy (body_provider body) = true
  /\ configured (SUPABASE_URL (CONFIG env)) = true
  /\ configured (SUPABASE_SERVICE_KEY (CONFIG env)) = true
  /\ (exists shown, template_string (attempt_of body) = Returned shown)
  /\ exists w1,
      fetchUserCredentials (body_user_id body) (body_provider body) env
        (tick w0)
      = (Returned (Some cd), w1)
      /\ createCredentialTemplate cd env w1 = (Returned template, w2).

(** The import command of the simplified service, as an event. *)
Definition simplified_import_exec (path : string) (cd : CredData) (env : Env)
  : Event :=
  EvExec ("n8n import:credentials --input=" ++ path ++ " --separate")
    (Some (set_property
             (set_property
                (set_property (inherited_env env) "N8N_ENCRYPTION_KEY"
                              (n8n_encryption_key cd))
                "N8N_USER_MANAGEMENT_DISABLED" (JString "false"))
             "N8N_LOG_LEVEL" (JString "warn")))
    30000 None.

(* ================================================================= *)
(** * Properties *)

(** ** Strings *)

Lemma prefix_iff (n h : string) :
  String.prefix n h = true <-> exists rest, h = (n ++ rest)%string.
Proof.
  revert h; induction n as [|c n IH]; intros h.
  - destruct h; simpl; split; intros; eauto.
  - destruct h as [|d h]; simpl.
    + split; [discriminate | intros [r Hr]; discriminate].
    + destruct (Ascii.ascii_dec c d) as [->|Hcd].
      * rewrite IH. split; intros [r Hr]; exists r; congruence.
      * split; [discriminate | intros [r Hr]; congruence].
Qed.

Lemma includes_nil (n : string) :
  includes EmptyString n = String.prefix n EmptyString.
Proof. cbn [includes]. now destruct (String.prefix n EmptyString). Qed.

Lemma includes_cons (c : ascii) (h n : string) :
  includes (String c h) n
  = if String.prefix n (String c h) then true else includes h n.
Proof. reflexivity. Qed.

(** [includes] is the substring test. *)
Lemma includes_iff (h n : string) :
  includes h n = true <-> exists before after, h = (before ++ n ++ after)%string.
Proof.
  induction h as [|c h IH].
  - rewrite includes_nil, prefix_iff. split.
    + intros [r Hr]. now exists EmptyString, r.
    + intros [b [a Hba]]. destruct b; simpl in Hba; [eauto | discriminate].
  - rewrite includes_cons.
    destruct (String.prefix n (String c h)) eqn:Hp.
    + split; [intros _ | reflexivity].
      apply prefix_iff in Hp as [r Hr]. now exists EmptyString, r.
    + rewrite IH. split.
      * intros [b [a ->]]. now exists (String c b), a.
      * intros [b [a Hba]]. destruct b as [|c' b]; simpl in Hba.
        -- assert (String.prefix n (String c h) = true)
             by (apply prefix_iff; eauto).
           congruence.
        -- injection Hba as _ ->. eauto.
Qed.

Lemma success_indicators_iff (stdout : string) :
  Enhanced.success_indicators stdout = true <->
  exists marker,
    In marker ["Successfully imported"; "imported"; "credential"]
    /\ includes stdout marker = true.
Proof.
  unfold Enhanced.success_indicators. rewrite !orb_true_iff. split.
  - intros [[H|H]|H]; eexists; (split; [|exact H]); simpl; auto.
  - intros [m [[<-|[<-|[<-|[]]]] H]]; auto.
Qed.

(** ** Running computations *)

Ltac unfold_m :=
  unfold swallow, fs_writeFile, fs_unlink, fs_mkdir, fs_call, fs_readFile,
    db_call, get_config, spread_process_env, Date_now, Date_toISOString,
    crypto_randomUUID, bind, try_catch, ret, throw, lift in *.

Lemma bind_returned {A B} (m : M A) (k : A -> M B) env w a w' :
  m env w = (Returned a, w') -> bind m k env w = k a env w'.
Proof. intros H. unfold bind. now rewrite H. Qed.

Lemma bind_thrown {A B} (m : M A) (k : A -> M B) env w e w' :
  m env w = (Thrown e, w') -> bind m k env w = (Thrown e, w').
Proof. intros H. unfold bind. now rewrite H. Qed.

Lemma try_catch_returned {A} (m : M A) h env w a w' :
  m env w = (Returned a, w') -> try_catch m h env w = (Returned a, w').
Proof. intros H. unfold try_catch. now rewrite H. Qed.

Lemma try_catch_thrown {A} (m : M A) h env w e w' :
  m env w = (Thrown e, w') -> try_catch m h env w = h e env w'.
Proof. intros H. unfold try_catch. now rewrite H. Qed.

(** The log line passes, reading the clock once, or throws at once. *)
Lemma log_processing_returns attempt shown env w :
  template_string attempt = Returned shown ->
  log_processing attempt env w = (Returned tt, tick w).
Proof.
  intros H. unfold log_processing, bind, lift. now rewrite H.
Qed.

Lemma log_processing_throws attempt e env w :
  template_string attempt = Thrown e ->
  log_processing attempt env w = (Thrown e, w).
Proof.
  intros H. unfold log_processing, bind, lift. now rewrite H.
Qed.

(** A swallowed deletion always returns, and leaves the same world
    whatever the file system answered. *)
Lemma swallow_unlink (path : string) env w :
  swallow (fs_unlink path) env w = (Returned tt, record_event (EvUnlink path) w).
Proof.
  unfold_m.
  destruct (unlink_result env (log (record_event (EvUnlink path) w)));
    reflexivity.
Qed.

(** ** Input validation *)

Lemma falsy_field_rejected_enhanced body env w :
  truthy (body_user_id body) = false \/ truthy (body_provider body) = false ->
  Enhanced.inject_credential body env w
  = (Returned (plain_response 400 "Missing user_id or provider" None), w).
Proof.
  intros H. unfold Enhanced.inject_credential, try_catch.
  assert (Hc : negb (truthy (body_user_id body))
               || negb (truthy (body_provider body)) = true).
  { destruct H as [-> | ->]; simpl; auto using orb_true_r. }
  simpl. rewrite Hc. reflexivity.
Qed.

Lemma falsy_field_rejected_simplified body env w :
  truthy (body_user_id body) = false \/ truthy (body_provider body) = false ->
  Simplified.inject_credential body env w
  = (Returned (plain_response 400 "Missing user_id or provider" None), w).
Proof.
  intros H. unfold Simplified.inject_credential, try_catch.
  assert (Hc : negb (truthy (body_user_id body))
               || negb (truthy (body_provider body)) = true).
  { destruct H as [-> | ->]; simpl; auto using orb_true_r. }
  simpl. rewrite Hc. reflexivity.
Qed.

(** C3.  A request whose body lacks [user_id] or lacks [provider] is
    answered 400 by both services, and the world is left as it was: the
    log gains no entry, so no database query, no scratch-file write, no
    subprocess and no status update has been attempted. *)
Theorem missing_field_is_400_without_effects body env w :
  body_user_id body = JUndefined \/ body_provider body = JUndefined ->
  let answer := plain_response 400 "Missing user_id or provider" None in
  status answer = 400
  /\ Enhanced.inject_credential body env w = (Returned answer, w)
  /\ Simplified.inject_credential body env w = (Returned answer, w)
  /\ log (snd (Enhanced.inject_credential body env w)) = log w
  /\ log (snd (Simplified.inject_credential body env w)) = log w.
Proof.
  intros H answer.
  assert (Hf : truthy (body_user_id body) = false
               \/ truthy (body_provider body) = false)
    by (destruct H as [-> | ->]; auto).
  rewrite (falsy_field_rejected_enhanced body env w Hf).
  rewrite (falsy_field_rejected_simplified body env w Hf).
  repeat split.
Qed.

Lemma missing_field_is_400_without_effects_witness :
  let body := {| body_user_id := JString "u1";
                 body_provider := JUndefined;
                 body_attempt := JNumber 2 |} in
  let env := sample_env 0 "Successfully imported 1 credential." in
  status (plain_response 400 "Missing user_id or provider" None) = 400
  /\ Enhanced.inject_credential body env initial_world
     = (Returned (plain_response 400 "Missing user_id or provider" None),
        initial_world)
  /\ Simplified.inject_credential body env initial_world
     = (Returned (plain_response 400 "Missing user_id or provider" None),
        initial_world)
  /\ log (snd (Enhanced.inject_credential body env initial_world)) = []
  /\ log (snd (Simplified.inject_credential body env initial_world)) = [].
Proof.
  intros body env.
  exact (missing_field_is_400_without_effects body env initial_world
           (or_intror eq_refl)).
Defined.

(** C9.  An empty string for [user_id] or [provider] is treated like an
    absent member: both services answer 400 with the message
    "Missing user_id or provider", because the presence test is a
    falsiness test. *)
Theorem empty_string_field_is_400 body env w :
  body_user_id body = JString EmptyString
  \/ body_provider body = JString EmptyString ->
  exists answer,
    Enhanced.inject_credential body env w = (Returned answer, w)
    /\ Simplified.inject_credential body env w = (Returned answer, w)
    /\ status answer = 400
    /\ res_message (json answer) = "Missing user_id or provider".
Proof.
  intros H.
  assert (Hf : truthy (body_user_id body) = false
               \/ truthy (body_provider body) = false)
    by (destruct H as [-> | ->]; auto).
  exists (plain_response 400 "Missing user_id or provider" None).
  rewrite (falsy_field_rejected_enhanced body env w Hf).
  rewrite (falsy_field_rejected_simplified body env w Hf).
  repeat split.
Qed.

Lemma empty_string_field_is_400_witness :
  exists answer,
    Enhanced.inject_credential (sample_body EmptyString)
      (sample_env 0 "imported") initial_world = (Returned answer, initial_world)
    /\ Simplified.inject_credential (sample_body EmptyString)
         (sample_env 0 "imported") initial_world
       = (Returned answer, initial_world)
    /\ status answer = 400
    /\ res_message (json answer) = "Missing user_id or provider".
Proof.
  exact (empty_string_field_is_400 (sample_body EmptyString)
           (sample_env 0 "imported") initial_world (or_intror eq_refl)).
Defined.

(** ** The credential template *)

Lemma createCredentialTemplate_supported cd p env w :
  provider cd = JString p ->
  truthy (object_get credentialTypes p) = true ->
  exists t,
    createCredentialTemplate cd env w = (Returned t, tick (tick (tick (tick w))))
    /\ type_ t = object_get credentialTypes p.
Proof.
  intros Hp Ht. unfold createCredentialTemplate. unfold_m.
  rewrite Hp. cbn [to_property_key]. rewrite Ht. cbn [negb].
  eexists. split; reflexivity.
Qed.

Lemma createCredentialTemplate_unsupported cd p env w :
  provider cd = JString p ->
  truthy (object_get credentialTypes p) = false ->
  createCredentialTemplate cd env w
  = (Thrown (Error ("Unsupported provider: " ++ p)), tick (tick w)).
Proof.
  intros Hp Ht. unfold createCredentialTemplate. unfold_m.
  rewrite Hp. cbn [to_property_key]. rewrite Ht. reflexivity.
Qed.

(** The three providers of the table get their type tag. *)
Lemma createCredentialTemplate_table cd p tag env w :
  provider cd = JString p ->
  In (p, tag) [ ("google", "googleOAuth2Api");
                ("spotify", "spotifyOAuth2Api");
                ("github", "githubOAuth2Api") ] ->
  exists t w',
    createCredentialTemplate cd env w = (Returned t, w')
    /\ type_ t = JString tag.
Proof.
  intros Hp Hin. simpl in Hin.
  destruct Hin as [H|[H|[H|[]]]]; injection H as <- <-;
    (destruct (createCredentialTemplate_supported cd _ env w Hp eq_refl)
      as [t [Ht Hty]]);
    exists t; eexists; (split; [exact Ht | exact Hty]).
Qed.

(** A provider that names nothing, own or inherited, is refused. *)
Lemma createCredentialTemplate_unknown cd p env w :
  provider cd = JString p ->
  object_get credentialTypes p = JUndefined ->
  createCredentialTemplate cd env w
  = (Thrown (Error ("Unsupported provider: " ++ p)), tick (tick w)).
Proof.
  intros Hp Hg. apply createCredentialTemplate_unsupported; [exact Hp|].
  rewrite Hg. reflexivity.
Qed.

Lemma inherited_property_truthy key v :
  own_property Object_prototype key = Some v -> truthy v = true.
Proof.
  unfold Object_prototype. cbn [own_property].
  repeat match goal with
         | |- (if (?k =? key)%string then _ else _) = _ -> _ =>
             destruct (k =? key)%string;
             [intros H; injection H as <-; reflexivity|]
         end.
  discriminate.
Qed.

(** C4, what the code does.  The type table is an object literal, so the
    lookup also finds what the literal inherits: for a provider string that
    is no key of the table but names a property of [Object.prototype]
    ([constructor], [toString], [__proto__], ...) construction does not
    throw; it returns a template whose [type] is that built-in object. *)
Theorem createCredentialTemplate_inherited_provider cd p v env w :
  provider cd = JString p ->
  own_property credentialTypes p = None ->
  own_property Object_prototype p = Some v ->
  exists t w',
    createCredentialTemplate cd env w = (Returned t, w')
    /\ type_ t = v.
Proof.
  intros Hp Hown Hinh.
  assert (Hg : object_get credentialTypes p = v).
  { unfold object_get. now rewrite Hown, Hinh. }
  destruct (createCredentialTemplate_supported cd p env w Hp) as [t [Ht Hty]].
  { rewrite Hg. eauto using inherited_property_truthy. }
  exists t. eexists. split; [exact Ht | congruence].
Qed.

Lemma createCredentialTemplate_inherited_provider_witness :
  exists t w',
    createCredentialTemplate (sample_credData "constructor")
      (sample_env 0 "imported") initial_world = (Returned t, w')
    /\ type_ t = JFunction "Object".
Proof.
  exact (createCredentialTemplate_inherited_provider
           (sample_credData "constructor") "constructor" (JFunction "Object")
           (sample_env 0 "imported") initial_world
           eq_refl eq_refl eq_refl).
Defined.

(** ** One import attempt *)

Lemma execAsync_zero command e timeout cwd env w stdout stderr :
  exec_result env (log (record_event (EvExec command e timeout cwd) w))
  = Exited 0 stdout stderr ->
  execAsync command e timeout cwd env w
  = (Returned (stdout, stderr), record_event (EvExec command e timeout cwd) w).
Proof. intros H. unfold execAsync. cbv zeta. now rewrite H. Qed.

Lemma execAsync_rejects command e timeout cwd env w :
  (forall stdout stderr,
      exec_result env (log (record_event (EvExec command e timeout cwd) w))
      <> Exited 0 stdout stderr) ->
  exists err,
    execAsync command e timeout cwd env w
    = (Thrown err, record_event (EvExec command e timeout cwd) w).
Proof.
  intros H. unfold execAsync. cbv zeta.
  destruct (exec_result env _) as [code out err | reason out err | reason].
  - destruct code; [now elim (H out err) | |]; eauto.
  - eauto.
  - eauto.
Qed.

(** C1, as the code has it.  The verdict of one attempt depends on how the
    child ended before it depends on its output:
    - a child that did not exit with code 0 makes the attempt fail,
      whatever it printed;
    - exit code 0 without any success substring makes the attempt fail;
    - exit code 0 with a success substring makes the attempt succeed,
      provided the scratch file can be read back for the credential id;
    - and if it cannot, the attempt fails as well. *)
Theorem tryImportCommand_verdict path cd strategy env w command e :
  Enhanced.import_invocation strategy path cd (inherited_env env)
  = Returned (command, e) ->
  let w1 := record_event (EvExec command (Some e) 60000 (Some "/tmp")) w in
  let attempt := Enhanced.tryImportCommand path cd strategy env w in
  ((forall stdout stderr,
       exec_result env (log w1) <> Exited 0 stdout stderr) ->
   is_thrown (fst attempt) /\ snd attempt = w1)
  /\ (forall stdout stderr,
        exec_result env (log w1) = Exited 0 stdout stderr ->
        Enhanced.success_indicators stdout = false ->
        attempt
        = (Thrown (Error ("Import command completed but no success indicators found. Output: "
                            ++ stdout)), w1))
  /\ (forall stdout stderr cid w2,
        exec_result env (log w1) = Exited 0 stdout stderr ->
        Enhanced.success_indicators stdout = true ->
        Enhanced.read_back_id path env w1 = (Returned cid, w2) ->
        exists result,
          attempt = (Returned result, w2)
          /\ success result = true
          /\ credentialId result = cid
          /\ option_map output (details result) = Some stdout)
  /\ (forall stdout stderr err w2,
        exec_result env (log w1) = Exited 0 stdout stderr ->
        Enhanced.success_indicators stdout = true ->
        Enhanced.read_back_id path env w1 = (Thrown err, w2) ->
        attempt = (Thrown err, w2)).
Proof.
  intros Hinv w1 attempt. subst attempt.
  unfold Enhanced.tryImportCommand.
  rewrite (bind_returned _ _ env w (inherited_env env) w) by reflexivity.
  rewrite (bind_returned _ _ env w (command, e) w)
    by (unfold lift; now rewrite Hinv).
  repeat split.
  - destruct (execAsync_rejects command (Some e) 60000 (Some "/tmp") env w H)
      as [err Herr].
    rewrite (bind_thrown _ _ _ _ _ _ Herr). exact I.
  - destruct (execAsync_rejects command (Some e) 60000 (Some "/tmp") env w H)
      as [err Herr].
    rewrite (bind_thrown _ _ _ _ _ _ Herr). reflexivity.
  - intros stdout stderr Hexec Hind.
    rewrite (bind_returned _ _ _ _ _ _ (execAsync_zero _ _ _ _ _ _ _ _ Hexec)).
    rewrite Hind. reflexivity.
  - intros stdout stderr cid w2 Hexec Hind Hread.
    rewrite (bind_returned _ _ _ _ _ _ (execAsync_zero _ _ _ _ _ _ _ _ Hexec)).
    rewrite Hind. rewrite (bind_returned _ _ _ _ _ _ Hread).
    eexists. split; [reflexivity|]. repeat split.
  - intros stdout stderr err w2 Hexec Hind Hread.
    rewrite (bind_returned _ _ _ _ _ _ (execAsync_zero _ _ _ _ _ _ _ _ Hexec)).
    rewrite Hind. now rewrite (bind_thrown _ _ _ _ _ _ Hread).
Qed.

Lemma tryImportCommand_verdict_witness :
  exists result w2,
    Enhanced.tryImportCommand "/tmp/credentials-7.json"
      (sample_credData "google") "basic"
      (sample_env 0 "Successfully imported 1 credential.")
      sample_written_world
    = (Returned result, w2)
    /\ success result = true
    /\ credentialId result = JString "c-1"
    /\ option_map output (details result)
       = Some "Successfully imported 1 credential.".
Proof.
  destruct (tryImportCommand_verdict "/tmp/credentials-7.json"
              (sample_credData "google") "basic"
              (sample_env 0 "Successfully imported 1 credential.")
              sample_written_world _ _ eq_refl)
    as (_ & _ & Hgood & _).
  destruct (Hgood _ _ (JString "c-1") _ eq_refl eq_refl eq_refl)
    as [result Hresult].
  exists result. eexists. exact Hresult.
Defined.

(** C1, as the specification words it, fails: the importer prints
    "Successfully imported 1 credential." and ends with exit code 1; the
    output contains all three success substrings, yet the attempt throws
    and is counted as a failure. *)
Lemma success_output_with_exit_code_1_fails :
  let env := sample_env 1 "Successfully imported 1 credential." in
  let attempt :=
    Enhanced.tryImportCommand "/tmp/credentials-7.json"
      (sample_credData "google") "basic" env sample_written_world in
  exec_result env (log (snd attempt))
  = Exited 1 "Successfully imported 1 credential." EmptyString
  /\ includes "Successfully imported 1 credential." "Successfully imported"
     = true
  /\ includes "Successfully imported 1 credential." "imported" = true
  /\ includes "Successfully imported 1 credential." "credential" = true
  /\ fst attempt
     = Thrown (Error ("Command failed: n8n import:credentials --input=/tmp/credentials-7.json"
                        ++ newline)).
Proof. vm_compute. repeat split. Qed.

(** ** What a computation adds to the log *)

Section Emits.

Variable P : Event -> Prop.

Lemma emits_ret {A} (a : A) : emits P (ret a).
Proof. intros env w. exists []. now rewrite app_nil_r. Qed.

Lemma emits_throw {A} (e : js_error) : emits P (@throw A e).
Proof. intros env w. exists []. now rewrite app_nil_r. Qed.

Lemma emits_lift {A} (o : outcome A) : emits P (lift o).
Proof. intros env w. exists []. now rewrite app_nil_r. Qed.

Lemma emits_bind {A B} (m : M A) (k : A -> M B) :
  emits P m -> (forall a, emits P (k a)) -> emits P (bind m k).
Proof.
  intros Hm Hk env w. unfold bind.
  destruct (Hm env w) as [evs [Hlog Hall]].
  destruct (m env w) as [[a|e] w1]; simpl in Hlog.
  - destruct (Hk a env w1) as [evs' [Hlog' Hall']].
    exists (evs ++ evs')%list. split.
    + now rewrite Hlog', Hlog, app_assoc.
    + apply Forall_app; auto.
  - exists evs. auto.
Qed.

Lemma emits_try_catch {A} (m : M A) (h : js_error -> M A) :
  emits P m -> (forall e, emits P (h e)) -> emits P (try_catch m h).
Proof.
  intros Hm Hh env w. unfold try_catch.
  destruct (Hm env w) as [evs [Hlog Hall]].
  destruct (m env w) as [[a|e] w1]; simpl in Hlog.
  - exists evs. auto.
  - destruct (Hh e env w1) as [evs' [Hlog' Hall']].
    exists (evs ++ evs')%list. split.
    + now rewrite Hlog', Hlog, app_assoc.
    + apply Forall_app; auto.
Qed.

Lemma emits_swallow (m : M unit) : emits P m -> emits P (swallow m).
Proof. intros Hm. apply emits_try_catch; auto using @emits_ret. Qed.

Lemma emits_tick {A} (f : Env -> World -> A) :
  emits P (fun env w => (Returned (f env w), tick w)).
Proof. intros env w. exists []. now rewrite app_nil_r. Qed.

Lemma emits_execAsync command e timeout cwd :
  P (EvExec command e timeout cwd) ->
  emits P (execAsync command e timeout cwd).
Proof.
  intros HP env w. exists [EvExec command e timeout cwd].
  split; [|auto]. unfold execAsync. cbv zeta.
  destruct (exec_result env _) as [[| |] ? ?| |]; reflexivity.
Qed.

Lemma emits_fs_call ev answer : P ev -> emits P (fs_call ev answer).
Proof.
  intros HP env w. exists [ev]. split; [|auto].
  unfold fs_call. cbv zeta. destruct (answer env _); reflexivity.
Qed.

Lemma emits_fs_readFile path : P (EvReadFile path) -> emits P (fs_readFile path).
Proof. intros HP env w. exists [EvReadFile path]. split; auto. Qed.

Lemma emits_db_call {A} ev (answer : Env -> list Event -> DbResponse A) :
  P ev -> emits P (db_call ev answer).
Proof.
  intros HP env w. exists [ev]. split; [|auto].
  unfold db_call. cbv zeta. destruct (answer env _); reflexivity.
Qed.

End Emits.

(** Decompose a computation along its binds, handlers and branches. *)
Ltac emits_step :=
  match goal with
  | |- emits _ (bind _ _) => apply emits_bind; [|intros ?]
  | |- emits _ (try_catch _ _) => apply emits_try_catch; [|intros ?]
  | |- emits _ (swallow _) => apply emits_swallow
  | |- emits _ (ret _) => apply emits_ret
  | |- emits _ (throw _) => apply emits_throw
  | |- emits _ (lift _) => apply emits_lift
  | |- emits _ (execAsync _ _ _ _) => apply emits_execAsync; exact I
  | |- emits _ (fs_writeFile _ _) => apply emits_fs_call; exact I
  | |- emits _ (fs_unlink _) => apply emits_fs_call; exact I
  | |- emits _ (fs_mkdir _) => apply emits_fs_call; exact I
  | |- emits _ (fs_readFile _) => apply emits_fs_readFile; exact I
  | |- emits _ Date_now => apply emits_tick
  | |- emits _ Date_toISOString => apply emits_tick
  | |- emits _ crypto_randomUUID => apply emits_tick
  | |- emits _ spread_process_env => intros ? ?; exists []; now rewrite app_nil_r
  | |- emits _ (match ?x with _ => _ end) => destruct x
  | |- emits _ (if ?c then _ else _) => destruct c
  end.

Lemma tryImportCommand_emits path cd strategy :
  emits importer_event (Enhanced.tryImportCommand path cd strategy).
Proof.
  unfold Enhanced.tryImportCommand, Enhanced.read_back_id.
  repeat emits_step.
Qed.

(** ** The strategies of the enhanced importer *)

Lemma import_succeeded_extends env l more :
  import_succeeded env l -> import_succeeded env (l ++ more)%list.
Proof.
  intros (before & command & e & after & out & err & Hl & Hexec & Hind).
  exists before, command, e, (after ++ more)%list, out, err.
  repeat split; auto. rewrite Hl, <- app_assoc. reflexivity.
Qed.

(** An attempt that returns has seen exit code 0 and a success substring,
    and its result says [success]. *)
Lemma tryImportCommand_returned path cd strategy env w result w' :
  Enhanced.tryImportCommand path cd strategy env w = (Returned result, w') ->
  success result = true /\ import_succeeded env (log w').
Proof.
  unfold Enhanced.tryImportCommand.
  rewrite (bind_returned _ _ env w (inherited_env env) w) by reflexivity.
  unfold bind at 1. unfold lift at 1.
  destruct (Enhanced.import_invocation strategy path cd (inherited_env env))
    as [[command e]|err]; [|discriminate].
  unfold bind at 1.
  destruct (execAsync command (Some e) 60000 (Some "/tmp") env w)
    as [[[stdout stderr]|err] w1] eqn:Hexec; [|discriminate].
  assert (Hw1 : w1 = record_event (EvExec command (Some e) 60000 (Some "/tmp")) w
                /\ exec_result env (log w1) = Exited 0 stdout stderr).
  { unfold execAsync in Hexec. cbv zeta in Hexec.
    destruct (exec_result env _) as [[| |] out err'| |] eqn:Hres;
      try discriminate.
    injection Hexec as <- <- <-. auto. }
  destruct Hw1 as [Hw1 Hres].
  destruct (Enhanced.success_indicators stdout) eqn:Hind; [|discriminate].
  unfold bind at 1.
  destruct (Enhanced.read_back_id path env w1) as [[cid|err] w2] eqn:Hread;
    [|discriminate].
  intros H. injection H as <- <-. split; [reflexivity|].
  assert (Hlog : exists evs, log w2 = (log w1 ++ evs)%list).
  { assert (Hem : emits importer_event (Enhanced.read_back_id path))
      by (unfold Enhanced.read_back_id; repeat emits_step).
    destruct (Hem env w1) as [evs [Hl _]]. rewrite Hread in Hl. eauto. }
  destruct Hlog as [evs Hlog].
  exists (log w), command, e, evs, stdout, stderr.
  repeat split; auto.
  - rewrite Hlog, Hw1. simpl. rewrite <- app_assoc. reflexivity.
  - rewrite Hw1 in Hres. exact Hres.
Qed.

(** One strategy block never throws.  Either it falls through, or it
    returns a successful result right after attempting the deletion of the
    scratch file. *)
Lemma strategy_block_spec prepare path cd strategy env w :
  emits importer_event prepare ->
  exists w' evs,
    Forall importer_event evs
    /\ ((Enhanced.strategy_block prepare path cd strategy env w
         = (Returned None, w')
         /\ log w' = (log w ++ evs)%list)
        \/ (exists result,
             Enhanced.strategy_block prepare path cd strategy env w
             = (Returned (Some result), w')
             /\ success result = true
             /\ log w' = (log w ++ evs ++ [EvUnlink path])%list
             /\ import_succeeded env (log w'))).
Proof.
  intros Hprep. unfold Enhanced.strategy_block, try_catch, bind.
  destruct (Hprep env w) as [evs1 [Hl1 Hall1]].
  destruct (prepare env w) as [[[]|e1] w1]; simpl in Hl1.
  - destruct (tryImportCommand_emits path cd strategy env w1)
      as [evs2 [Hl2 Hall2]].
    destruct (Enhanced.tryImportCommand path cd strategy env w1)
      as [[result|e2] w2] eqn:Hattempt; simpl in Hl2.
    + destruct (tryImportCommand_returned _ _ _ _ _ _ _ Hattempt) as [Hs Himp].
      rewrite Hs, swallow_unlink.
      exists (record_event (EvUnlink path) w2), (evs1 ++ evs2)%list.
      split; [apply Forall_app; auto|]. right. exists result.
      repeat split; auto.
      * simpl. rewrite Hl2, Hl1, <- !app_assoc. reflexivity.
      * simpl. now apply import_succeeded_extends.
    + exists w2, (evs1 ++ evs2)%list.
      split; [apply Forall_app; auto|]. left.
      split; [reflexivity|]. now rewrite Hl2, Hl1, app_assoc.
  - exists w1, evs1. split; [auto|]. left. auto.
Qed.

Lemma emits_unit_ret : emits importer_event (ret tt).
Proof. apply emits_ret. Qed.

Lemma emits_mkdir path : emits importer_event (fs_mkdir path).
Proof. apply emits_fs_call. exact I. Qed.

(** The three blocks in a row: a successful result right after the
    deletion, or the final [throw]. *)
Lemma run_strategies_spec path cd env w :
  exists w' evs,
    Forall importer_event evs
    /\ ((Enhanced.run_strategies path cd env w
         = (Thrown (Error "All import strategies failed"), w')
         /\ log w' = (log w ++ evs)%list)
        \/ (exists result,
             Enhanced.run_strategies path cd env w = (Returned result, w')
             /\ success result = true
             /\ log w' = (log w ++ evs ++ [EvUnlink path])%list
             /\ import_succeeded env (log w'))).
Proof.
  unfold Enhanced.run_strategies.
  destruct (strategy_block_spec (ret tt) path cd "basic" env w emits_unit_ret)
    as (w1 & evs1 & Hall1 & [[Hrun1 Hlog1] | (r1 & Hrun1 & Hs1 & Hlog1 & Hi1)]).
  2:{ exists w1, evs1. split; [auto|]. right. exists r1.
      rewrite (bind_returned _ _ _ _ _ _ Hrun1). auto. }
  rewrite (bind_returned _ _ _ _ _ _ Hrun1).
  destruct (strategy_block_spec (fs_mkdir "/tmp/.n8n") path cd "userFolder"
              env w1 (emits_mkdir _))
    as (w2 & evs2 & Hall2 & [[Hrun2 Hlog2] | (r2 & Hrun2 & Hs2 & Hlog2 & Hi2)]).
  2:{ exists w2, (evs1 ++ evs2)%list. split; [apply Forall_app; auto|].
      right. exists r2.
      rewrite (bind_returned _ _ _ _ _ _ Hrun2). repeat split; auto.
      rewrite Hlog2, Hlog1, <- !app_assoc. reflexivity. }
  rewrite (bind_returned _ _ _ _ _ _ Hrun2).
  destruct (strategy_block_spec (ret tt) path cd "minimal" env w2
              emits_unit_ret)
    as (w3 & evs3 & Hall3 & [[Hrun3 Hlog3] | (r3 & Hrun3 & Hs3 & Hlog3 & Hi3)]).
  2:{ exists w3, (evs1 ++ evs2 ++ evs3)%list.
      split; [rewrite !Forall_app; auto|].
      right. exists r3.
      rewrite (bind_returned _ _ _ _ _ _ Hrun3). repeat split; auto.
      rewrite Hlog3, Hlog2, Hlog1, <- !app_assoc. reflexivity. }
  rewrite (bind_returned _ _ _ _ _ _ Hrun3).
  exists w3, (evs1 ++ evs2 ++ evs3)%list.
  split; [rewrite !Forall_app; auto|].
  left. split; [reflexivity|].
  rewrite Hlog3, Hlog2, Hlog1, <- !app_assoc. reflexivity.
Qed.

(** The result the [catch] block of the enhanced importer builds. *)
Lemma executeN8NCLIEnhanced_spec cd jsonContent env w :
  let path := Enhanced.temp_path (epoch_ms (clock env (reads w))) in
  exists result w' evs,
    Enhanced.executeN8NCLIEnhanced cd jsonContent env w = (Returned result, w')
    /\ log w'
       = (log w ++ EvWriteFile path jsonContent :: evs ++ [EvUnlink path])%list
    /\ Forall importer_event evs
    /\ (success result = true -> import_succeeded env (log w'))
    /\ (success result = false ->
        troubleshooting result = Some Enhanced.failure_hints).
Proof.
  intros path. unfold Enhanced.executeN8NCLIEnhanced.
  rewrite (bind_returned _ _ env w (epoch_ms (clock env (reads w))) (tick w))
    by reflexivity.
  fold path. unfold try_catch, bind at 1.
  unfold fs_writeFile at 1. unfold fs_call at 1. cbv zeta.
  set (w0 := record_event (EvWriteFile path jsonContent) (tick w)).
  destruct (writeFile_result env (log w0)) as [err|].
  - (* the write failed *)
    rewrite (bind_returned _ _ _ _ _ _ (swallow_unlink path env w0)).
    do 2 eexists. exists []. split; [reflexivity|].
    split; [subst w0; simpl; rewrite <- app_assoc; reflexivity|].
    split; [constructor|]. split; [discriminate | reflexivity].
  - destruct (run_strategies_spec path cd env w0)
      as (w1 & evs & Hall & [[Hrun Hlog] | (r & Hrun & Hs & Hlog & Hi)]).
    + rewrite Hrun.
      rewrite (bind_returned _ _ _ _ _ _ (swallow_unlink path env w1)).
      do 2 eexists. exists evs. split; [reflexivity|].
      split; [simpl; rewrite Hlog; subst w0; simpl;
              rewrite <- !app_assoc; reflexivity|].
      split; [exact Hall|]. split; [discriminate | reflexivity].
    + rewrite Hrun. exists r, w1, evs. split; [reflexivity|].
      split; [rewrite Hlog; subst w0; simpl;
              rewrite <- !app_assoc; reflexivity|].
      split; [exact Hall|]. split; [auto | congruence].
Qed.

(** C5.  When the scratch file has been written and each of the three
    strategy blocks falls through without a successful result, the enhanced
    importer returns (it does not throw) a failure whose troubleshooting
    payload lists [basic], [userFolder], [minimal], in that order. *)
Theorem all_strategies_failed_lists_three cd jsonContent env w w1 w2 w3 :
  let path := Enhanced.temp_path (epoch_ms (clock env (reads w))) in
  let w0 := record_event (EvWriteFile path jsonContent) (tick w) in
  writeFile_result env (log w0) = None ->
  Enhanced.strategy_block (ret tt) path cd "basic" env w0
  = (Returned None, w1) ->
  Enhanced.strategy_block (fs_mkdir "/tmp/.n8n") path cd "userFolder" env w1
  = (Returned None, w2) ->
  Enhanced.strategy_block (ret tt) path cd "minimal" env w2
  = (Returned None, w3) ->
  exists result w',
    Enhanced.executeN8NCLIEnhanced cd jsonContent env w = (Returned result, w')
    /\ success result = false
    /\ message result = "All import strategies failed"
    /\ option_map strategies_tried (troubleshooting result)
       = Some ["basic"; "userFolder"; "minimal"].
Proof.
  intros path w0 Hwrite H1 H2 H3.
  assert (Hrun : Enhanced.run_strategies path cd env w0
                 = (Thrown (Error "All import strategies failed"), w3)).
  { unfold Enhanced.run_strategies.
    rewrite (bind_returned _ _ _ _ _ _ H1).
    rewrite (bind_returned _ _ _ _ _ _ H2).
    rewrite (bind_returned _ _ _ _ _ _ H3). reflexivity. }
  unfold Enhanced.executeN8NCLIEnhanced.
  rewrite (bind_returned _ _ env w (epoch_ms (clock env (reads w))) (tick w))
    by reflexivity.
  fold path.
  assert (Hbody : bind (fs_writeFile path jsonContent)
                       (fun _ => Enhanced.run_strategies path cd) env (tick w)
                  = (Thrown (Error "All import strategies failed"), w3)).
  { rewrite (bind_returned _ _ env (tick w) tt w0); [exact Hrun|].
    unfold fs_writeFile, fs_call. cbv zeta. fold w0. now rewrite Hwrite. }
  rewrite (try_catch_thrown _ _ _ _ _ _ Hbody).
  rewrite (bind_returned _ _ _ _ _ _ (swallow_unlink path env w3)).
  do 2 eexists. split; [reflexivity|]. repeat split.
Qed.

Lemma all_strategies_failed_lists_three_witness :
  exists result w',
    Enhanced.executeN8NCLIEnhanced (sample_credData "google")
      (generateCredentialJSON []) (sample_env 1 "Permission denied")
      initial_world
    = (Returned result, w')
    /\ success result = false
    /\ message result = "All import strategies failed"
    /\ option_map strategies_tried (troubleshooting result)
       = Some ["basic"; "userFolder"; "minimal"].
Proof.
  eapply (all_strategies_failed_lists_three (sample_credData "google")
            (generateCredentialJSON []) (sample_env 1 "Permission denied")
            initial_world);
    reflexivity.
Defined.

(** ** Deletion of the scratch file *)

Section UnlinkBlind.

Lemma blind_ret {A} (a : A) : unlink_blind (ret a).
Proof. intros answer env w. reflexivity. Qed.

Lemma blind_throw {A} (e : js_error) : unlink_blind (@throw A e).
Proof. intros answer env w. reflexivity. Qed.

Lemma blind_lift {A} (o : outcome A) : unlink_blind (lift o).
Proof. intros answer env w. reflexivity. Qed.

Lemma blind_bind {A B} (m : M A) (k : A -> M B) :
  unlink_blind m -> (forall a, unlink_blind (k a)) -> unlink_blind (bind m k).
Proof.
  intros Hm Hk answer env w. unfold bind. rewrite Hm.
  destruct (m env w) as [[a|e] w1]; [apply Hk | reflexivity].
Qed.

Lemma blind_try_catch {A} (m : M A) (h : js_error -> M A) :
  unlink_blind m -> (forall e, unlink_blind (h e)) ->
  unlink_blind (try_catch m h).
Proof.
  intros Hm Hh answer env w. unfold try_catch. rewrite Hm.
  destruct (m env w) as [[a|e] w1]; [reflexivity | apply Hh].
Qed.

(** The one place where the answer of [unlink] is read discards it. *)
Lemma blind_swallow_unlink path : unlink_blind (swallow (fs_unlink path)).
Proof. intros answer env w. now rewrite !swallow_unlink. Qed.

End UnlinkBlind.

Ltac blind_step :=
  match goal with
  | |- unlink_blind (swallow (fs_unlink _)) => apply blind_swallow_unlink
  | |- unlink_blind (bind _ _) => apply blind_bind; [|intros ?]
  | |- unlink_blind (try_catch _ _) => apply blind_try_catch; [|intros ?]
  | |- unlink_blind (ret _) => apply blind_ret
  | |- unlink_blind (throw _) => apply blind_throw
  | |- unlink_blind (lift _) => apply blind_lift
  | |- unlink_blind (match ?x with _ => _ end) => destruct x
  | |- unlink_blind (if ?c then _ else _) => destruct c
  | |- unlink_blind _ => intros ? ? ?; reflexivity
  end.

Lemma tryImportCommand_blind path cd strategy :
  unlink_blind (Enhanced.tryImportCommand path cd strategy).
Proof.
  unfold Enhanced.tryImportCommand, Enhanced.read_back_id.
  repeat blind_step.
Qed.

Lemma run_strategies_blind path cd :
  unlink_blind (Enhanced.run_strategies path cd).
Proof.
  unfold Enhanced.run_strategies, Enhanced.strategy_block.
  repeat (first [apply tryImportCommand_blind | blind_step]).
Qed.

Lemma executeN8NCLIEnhanced_blind cd jsonContent :
  unlink_blind (Enhanced.executeN8NCLIEnhanced cd jsonContent).
Proof.
  unfold Enhanced.executeN8NCLIEnhanced.
  repeat (first [apply run_strategies_blind | blind_step]).
Qed.

(** C7.  Every run of the enhanced importer ends with an attempt to delete
    the scratch file it first tried to write: after a strategy's success
    and after the failure of all of them alike.  What [unlink] answers is
    discarded: with any other answer the importer returns the same result
    and leaves the same log. *)
Theorem scratch_file_deletion_attempted cd jsonContent env w :
  let path := Enhanced.temp_path (epoch_ms (clock env (reads w))) in
  (exists result w' evs,
      Enhanced.executeN8NCLIEnhanced cd jsonContent env w
      = (Returned result, w')
      /\ log w'
         = (log w ++ EvWriteFile path jsonContent :: evs ++ [EvUnlink path])%list)
  /\ (forall answer,
         Enhanced.executeN8NCLIEnhanced cd jsonContent
           (with_unlink_result answer env) w
         = Enhanced.executeN8NCLIEnhanced cd jsonContent env w).
Proof.
  intros path. split.
  - destruct (executeN8NCLIEnhanced_spec cd jsonContent env w)
      as (result & w' & evs & Hrun & Hlog & _).
    exists result, w', evs. auto.
  - intros answer. apply executeN8NCLIEnhanced_blind.
Qed.

(** ** The credential fetcher *)

Lemma fetchUserCredentials_first_failed userId provider env w :
  let w1 := record_event (social_lookup userId provider) w in
  lookup_failed (select_social_result env (log w1)) = true ->
  fetchUserCredentials userId provider env w = (Returned None, w1).
Proof.
  intros w1 H. unfold fetchUserCredentials, select_social. unfold_m.
  fold (social_lookup userId provider). fold w1.
  destruct (select_social_result env (log w1)) as [[row|] [err|] | e];
    try reflexivity.
  discriminate.
Qed.

Lemma fetchUserCredentials_second_failed userId provider env w :
  let w1 := record_event (social_lookup userId provider) w in
  let w2 := record_event (user_lookup userId) w1 in
  lookup_failed (select_social_result env (log w1)) = false ->
  lookup_failed (select_user_result env (log w2)) = true ->
  fetchUserCredentials userId provider env w = (Returned None, w2).
Proof.
  intros w1 w2 H1 H2.
  unfold fetchUserCredentials, select_social, select_user. unfold_m.
  fold (social_lookup userId provider). fold w1.
  destruct (select_social_result env (log w1)) as [[row|] [err|] | e];
    try discriminate.
  fold (user_lookup userId). fold w2.
  destruct (select_user_result env (log w2)) as [[row'|] [err'|] | e'];
    try reflexivity.
  discriminate.
Qed.

(** Credentials that were found carry the identifiers they were asked
    for, and cost exactly the two lookups. *)
Lemma fetchUserCredentials_found userId prov env w cd w' :
  fetchUserCredentials userId prov env w = (Returned (Some cd), w') ->
  user_id cd = userId
  /\ provider cd = prov
  /\ w' = record_event (user_lookup userId)
            (record_event (social_lookup userId prov) w).
Proof.
  unfold fetchUserCredentials, select_social, select_user. unfold_m.
  fold (social_lookup userId prov).
  destruct (select_social_result env _) as [[row|] [err|] | e];
    try discriminate.
  fold (user_lookup userId).
  destruct (select_user_result env _) as [[row'|] [err'|] | e'];
    try discriminate.
  intros H. injection H as <- <-. auto.
Qed.

(** ** The status reporter *)

Lemma updateCredentialStatus_with_spec method extra userId provider ok cid
    error details env w :
  exists updateData w',
    log w' = (log w ++ [status_update userId provider updateData])%list
    /\ injected_to_n8n updateData = ok
    /\ updateCredentialStatus_with method extra userId provider ok cid
         error details env w
       = match update_failure (update_result env (log w')) with
         | Some msg =>
             (match update_result env (log w') with
              | DbRejected e => Thrown e
              | _ => Thrown (Error msg)
              end, w')
         | None => (Returned tt, w')
         end.
Proof.
  unfold updateCredentialStatus_with.
  destruct ok; unfold_m; cbv zeta;
    match goal with
    | |- context [update_result env
                    (log (record_event (EvUpdate _ ?u _) ?w0))] =>
        exists u, (record_event (status_update userId provider u) w0)
    end;
    (split; [reflexivity|]); (split; [reflexivity|]);
    unfold status_update;
    match goal with
    | |- context [update_result env ?l] =>
        destruct (update_result env l) as [d [err|] | e]
    end; reflexivity.
Qed.

(** ** The enhanced handler *)

Lemma enhanced_handler_continues body env w0 cd template w3 :
  reaches_importer body env w0 cd template w3 ->
  Enhanced.inject_credential body env w0
  = try_catch
      (cliResult <- Enhanced.executeN8NCLIEnhanced cd
                      (generateCredentialJSON [template]) ;;
       Enhanced.updateCredentialStatus (body_user_id body) (body_provider body)
         (success cliResult) (credentialId cliResult)
         (message cliResult) (details cliResult) ;;
       if success cliResult then ret (success_response cliResult)
       else ret (failure_response cliResult (attempt_of body)
                                  (troubleshooting cliResult)))
      (fun error =>
         ret (plain_response 500
                (str_or (message_of error) "Internal server error")
                (Some "railway_service_error")))
      env w3.
Proof.
  intros (Hu & Hp & Hc1 & Hc2 & (shown & Hshown) & out & w1 & w2
          & Hprobe & Hfetch & Htpl).
  unfold Enhanced.inject_credential. unfold try_catch at 1 3. cbv zeta.
  rewrite Hu, Hp. cbn [negb orb].
  rewrite (bind_returned _ _ env w0 (CONFIG env) w0) by reflexivity.
  rewrite Hc1, Hc2. cbn [negb orb].
  rewrite (bind_returned _ _ _ _ _ _
             (log_processing_returns _ _ env w0 Hshown)).
  rewrite (bind_returned _ _ env (tick w0) None w1).
  2:{ apply try_catch_returned. now rewrite (bind_returned _ _ _ _ _ _ Hprobe). }
  rewrite (bind_returned _ _ _ _ _ _ Hfetch).
  rewrite (bind_returned _ _ _ _ _ _ Htpl).
  reflexivity.
Qed.

Lemma execAsync_world command e timeout cwd env w :
  snd (execAsync command e timeout cwd env w)
  = record_event (EvExec command e timeout cwd) w.
Proof.
  unfold execAsync. cbv zeta.
  destruct (exec_result env _) as [[| |] ? ?| |]; reflexivity.
Qed.

Lemma createCredentialTemplate_log cd env w :
  log (snd (createCredentialTemplate cd env w)) = log w.
Proof.
  assert (H : emits (fun _ => False) (createCredentialTemplate cd)).
  { unfold createCredentialTemplate. repeat emits_step. }
  destruct (H env w) as [evs [Hlog Hall]].
  destruct evs as [|e evs]; [now rewrite app_nil_r in Hlog|].
  inversion Hall; contradiction.
Qed.

(** Discharge [reaches_importer] at a concrete request by running it. *)
Ltac reach_by_running :=
  repeat (split; [reflexivity|]);
  (split; [eexists; reflexivity|]);
  do 3 eexists; repeat split; cbv; reflexivity.

(** What the request has attempted when the importer is about to start:
    the probe and the two lookups. *)
Lemma reaches_importer_log body env w0 cd template w3 :
  reaches_importer body env w0 cd template w3 ->
  log w3
  = (log w0 ++ [ version_probe;
                 social_lookup (body_user_id body) (body_provider body);
                 user_lookup (body_user_id body) ])%list.
Proof.
  intros (_ & _ & _ & _ & _ & out & w1 & w2 & Hprobe & Hfetch & Htpl).
  pose proof (createCredentialTemplate_log cd env w2) as Hl3.
  rewrite Htpl in Hl3. simpl in Hl3. rewrite Hl3.
  apply fetchUserCredentials_found in Hfetch as (_ & _ & ->).
  pose proof (execAsync_world "n8n --version" None 5000 None env (tick w0))
    as Hl1.
  rewrite Hprobe in Hl1. simpl in Hl1. subst w1.
  simpl. rewrite <- !app_assoc. reflexivity.
Qed.

Lemma importer_events_no_update evs :
  Forall importer_event evs -> filter is_update evs = [].
Proof.
  induction 1 as [|e evs He _ IH]; [reflexivity|].
  simpl. rewrite IH. destruct e; simpl in *; try reflexivity; contradiction.
Qed.

(** C2.  Once a request has passed validation, configuration, pre-flight,
    lookup and template construction, the importer returns a result (it
    never throws), and the handler then attempts the status update of the
    credential record of that user and provider: it is the last thing the
    request attempts, it carries the importer's verdict, and it is the only
    update among everything the request attempted. *)
Theorem one_status_update_after_importer body env w0 cd template w3 :
  reaches_importer body env w0 cd template w3 ->
  exists result w4 updateData response w5 events,
    Enhanced.executeN8NCLIEnhanced cd (generateCredentialJSON [template])
      env w3 = (Returned result, w4)
    /\ Enhanced.inject_credential body env w0 = (Returned response, w5)
    /\ log w5
       = (log w4 ++ [status_update (body_user_id body) (body_provider body)
                                   updateData])%list
    /\ injected_to_n8n updateData = success result
    /\ log w5 = (log w0 ++ events)%list
    /\ filter is_update events
       = [status_update (body_user_id body) (body_provider body) updateData].
Proof.
  intros Hreach.
  destruct (executeN8NCLIEnhanced_spec cd (generateCredentialJSON [template])
              env w3) as (result & w4 & evs & Hrun & Hlog4 & Hall & _ & _).
  destruct (updateCredentialStatus_with_spec "railway_cli_enhanced"
              [("version", JString "2.0")]
              (body_user_id body) (body_provider body)
              (success result) (credentialId result) (message result)
              (details result) env w4)
    as (updateData & w5 & Hlog5 & Hinj & Hupd).
  assert (Hhandler : exists response,
             Enhanced.inject_credential body env w0 = (Returned response, w5)).
  { rewrite (enhanced_handler_continues body env w0 cd template w3 Hreach).
    unfold try_catch. rewrite (bind_returned _ _ _ _ _ _ Hrun).
    unfold bind at 1. unfold Enhanced.updateCredentialStatus. rewrite Hupd.
    destruct (update_failure (update_result env (log w5))) as [msg|].
    - destruct (update_result env (log w5)); eexists; reflexivity.
    - destruct (success result); eexists; reflexivity. }
  destruct Hhandler as [response Hhandler].
  exists result, w4, updateData, response, w5.
  eexists. split; [exact Hrun|]. split; [exact Hhandler|].
  split; [exact Hlog5|]. split; [exact Hinj|].
  split.
  - rewrite Hlog5, Hlog4, (reaches_importer_log _ _ _ _ _ _ Hreach).
    rewrite <- !app_assoc. reflexivity.
  - simpl. rewrite !filter_app. simpl.
    rewrite (importer_events_no_update evs Hall). reflexivity.
Qed.

Lemma one_status_update_after_importer_witness :
  exists result w4 updateData response w5 events,
    Enhanced.executeN8NCLIEnhanced (sample_credData "google")
      (generateCredentialJSON
         [ {| id := "3f2b8c1e-0000-4000-8000-000000000001";
              name := "Google OAuth2 - 2023-11-14 22:13";
              type_ := JString "googleOAuth2Api";
              data := {| clientId := JString "cid";
                         clientSecret := JString "secret";
                         accessToken := JString "at-1";
                         refreshToken := JString EmptyString;
                         tokenType := "Bearer";
                         grantType := "authorizationCode" |};
              createdAt := "2023-11-14T22:13:20.000Z";
              updatedAt := "2023-11-14T22:13:20.000Z" |} ])
      (sample_env 1 "Permission denied")
      {| log := [ version_probe;
                  social_lookup (JString "u1") (JString "google");
                  user_lookup (JString "u1") ];
         reads := 5 |}
    = (Returned result, w4)
    /\ Enhanced.inject_credential (sample_body "google")
         (sample_env 1 "Permission denied") initial_world
       = (Returned response, w5)
    /\ log w5
       = (log w4 ++ [status_update (JString "u1") (JString "google")
                                   updateData])%list
    /\ injected_to_n8n updateData = success result
    /\ log w5 = events
    /\ filter is_update events
       = [status_update (JString "u1") (JString "google") updateData].
Proof.
  eapply (one_status_update_after_importer (sample_body "google")
            (sample_env 1 "Permission denied") initial_world).
  reach_by_running.
Defined.

Lemma updateCredentialStatus_with_world method extra userId prov ok cid
    error details env w updateData w' :
  updateCredentialStatus_with method extra userId prov ok cid error details
    env w
  = match update_failure (update_result env (log w')) with
    | Some msg =>
        (match update_result env (log w') with
         | DbRejected e => Thrown e
         | _ => Thrown (Error msg)
         end, w')
    | None => (Returned tt, w')
    end ->
  log w' = (log w ++ [status_update userId prov updateData])%list ->
  snd (updateCredentialStatus_with method extra userId prov ok cid error
         details env w) = w'.
Proof.
  intros -> _. destruct (update_failure _); reflexivity.
Qed.

(** C6.  When the importer has reported success and the database then
    answers the status update of the request with a failure (an error in
    the answer, or a rejected call), the request as a whole fails: the
    handler answers 500 with [error_type] "railway_service_error" and the
    message of the failure.  The import subprocess had already ended with
    exit code 0 and a success substring, and the failed update is the last
    thing the request attempts: nothing is done to undo or to repeat
    anything. *)
Theorem failed_status_update_after_import_is_500
    body env w0 cd template w3 result w4 msg :
  reaches_importer body env w0 cd template w3 ->
  Enhanced.executeN8NCLIEnhanced cd (generateCredentialJSON [template]) env w3
  = (Returned result, w4) ->
  success result = true ->
  update_failure
    (update_result env
       (log (snd (Enhanced.updateCredentialStatus
                    (body_user_id body) (body_provider body)
                    (success result) (credentialId result)
                    (message result) (details result) env w4))))
  = Some msg ->
  exists updateData w5,
    Enhanced.inject_credential body env w0
    = (Returned (plain_response 500 (str_or msg "Internal server error")
                                (Some "railway_service_error")), w5)
    /\ log w5
       = (log w4 ++ [status_update (body_user_id body) (body_provider body)
                                   updateData])%list
    /\ injected_to_n8n updateData = true
    /\ import_succeeded env (log w4).
Proof.
  intros Hreach Hrun Hok Hfail.
  destruct (executeN8NCLIEnhanced_spec cd (generateCredentialJSON [template])
              env w3) as (r & w4' & evs & Hrun' & _ & _ & Himp & _).
  rewrite Hrun in Hrun'. injection Hrun' as <- <-.
  destruct (updateCredentialStatus_with_spec "railway_cli_enhanced"
              [("version", JString "2.0")]
              (body_user_id body) (body_provider body)
              (success result) (credentialId result) (message result)
              (details result) env w4)
    as (updateData & w5 & Hlog5 & Hinj & Hupd).
  unfold Enhanced.updateCredentialStatus in Hfail.
  rewrite (updateCredentialStatus_with_world _ _ _ _ _ _ _ _ _ _ _ _
             Hupd Hlog5) in Hfail.
  exists updateData, w5.
  split; [|split; [exact Hlog5 | split; [congruence | auto]]].
  rewrite (enhanced_handler_continues body env w0 cd template w3 Hreach).
  unfold try_catch. rewrite (bind_returned _ _ _ _ _ _ Hrun).
  unfold bind at 1. unfold Enhanced.updateCredentialStatus. rewrite Hupd.
  rewrite Hfail.
  destruct (update_result env (log w5)) as [d [err|] | e];
    simpl in Hfail; try discriminate; injection Hfail as <-; reflexivity.
Qed.

Lemma failed_status_update_after_import_is_500_witness :
  exists updateData w5,
    Enhanced.inject_credential (sample_body "google")
      (with_update_result
         (fun _ => DbResolved None (Some {| db_message := "connection lost" |}))
         (sample_env 0 "Successfully imported 1 credential."))
      initial_world
    = (Returned
         (plain_response 500 "Database update failed: connection lost"
                         (Some "railway_service_error")), w5)
    /\ log w5
       = [ version_probe;
           social_lookup (JString "u1") (JString "google");
           user_lookup (JString "u1");
           EvWriteFile "/tmp/credentials-1700000000005.json"
             (generateCredentialJSON
                [ {| id := "3f2b8c1e-0000-4000-8000-000000000001";
                     name := "Google OAuth2 - 2023-11-14 22:13";
                     type_ := JString "googleOAuth2Api";
                     data := {| clientId := JString "cid";
                                clientSecret := JString "secret";
                                accessToken := JString "at-1";
                                refreshToken := JString EmptyString;
                                tokenType := "Bearer";
                                grantType := "authorizationCode" |};
                     createdAt := "2023-11-14T22:13:20.000Z";
                     updatedAt := "2023-11-14T22:13:20.000Z" |} ]);
           EvExec "n8n import:credentials --input=/tmp/credentials-1700000000005.json"
             (Some [ ("PATH", JString "/usr/bin");
                     ("SUPABASE_URL", JString "https://db.example");
                     ("SUPABASE_SERVICE_ROLE_KEY", JString "service-key");
                     ("N8N_ENCRYPTION_KEY", JString "k") ])
             60000 (Some "/tmp");
           EvReadFile "/tmp/credentials-1700000000005.json";
           EvUnlink "/tmp/credentials-1700000000005.json";
           status_update (JString "u1") (JString "google") updateData ].
Proof.
  edestruct (failed_status_update_after_import_is_500 (sample_body "google")
              (with_update_result
                 (fun _ =>
                    DbResolved None (Some {| db_message := "connection lost" |}))
                 (sample_env 0 "Successfully imported 1 credential."))
              initial_world (sample_credData "google"))
    as (updateData & w5 & Hrun & Hlog & _).
  - reach_by_running.
  - cbv. reflexivity.
  - reflexivity.
  - reflexivity.
  - exists updateData, w5. split; [exact Hrun | exact Hlog].
Defined.

(** C8.  Whatever makes a lookup fail (no row, an error in the answer, a
    rejected call), [fetchUserCredentials] returns [null]; the cause is
    not passed on.  The enhanced handler answers a request that got as far
    as that lookup 404, with one fixed message. *)
Theorem failed_lookup_is_null_then_404 userId provider env w :
  let w1 := record_event (social_lookup userId provider) w in
  let w2 := record_event (user_lookup userId) w1 in
  lookup_failed (select_social_result env (log w1)) = true
  \/ lookup_failed (select_user_result env (log w2)) = true ->
  (exists w', fetchUserCredentials userId provider env w = (Returned None, w'))
  /\ (forall body w0 shown stdout stderr,
         body_user_id body = userId ->
         body_provider body = provider ->
         truthy userId = true ->
         truthy provider = true ->
         configured (SUPABASE_URL (CONFIG env)) = true ->
         configured (SUPABASE_SERVICE_KEY (CONFIG env)) = true ->
         template_string (attempt_of body) = Returned shown ->
         w = record_event version_probe (tick w0) ->
         exec_result env (log w) = Exited 0 stdout stderr ->
         fst (Enhanced.inject_credential body env w0)
         = Returned
             (plain_response 404
                "User credentials or n8n configuration not found" None)).
Proof.
  intros w1 w2 Hfailed.
  assert (Hnull : exists w',
             fetchUserCredentials userId provider env w = (Returned None, w')).
  { destruct (lookup_failed (select_social_result env (log w1))) eqn:H1.
    - exists w1. now apply fetchUserCredentials_first_failed.
    - exists w2. destruct Hfailed as [H|H]; [discriminate|].
      now apply fetchUserCredentials_second_failed. }
  split; [exact Hnull|].
  intros body w0 shown stdout stderr Hu Hp Htu Htp Hc1 Hc2 Hshown Hw Hexec.
  destruct Hnull as [w' Hnull].
  unfold Enhanced.inject_credential. unfold try_catch at 1. cbv zeta.
  rewrite Hu, Hp, Htu, Htp. cbn [negb orb].
  rewrite (bind_returned _ _ env w0 (CONFIG env) w0) by reflexivity.
  rewrite Hc1, Hc2. cbn [negb orb].
  rewrite (bind_returned _ _ _ _ _ _
             (log_processing_returns _ _ env w0 Hshown)).
  rewrite (bind_returned _ _ env (tick w0) None w).
  2:{ apply try_catch_returned.
      assert (Hprobe : execAsync "n8n --version" None 5000 None env (tick w0)
                       = (Returned (stdout, stderr), w)).
      { rewrite Hw. apply execAsync_zero. fold version_probe.
        now rewrite <- Hw. }
      now rewrite (bind_returned _ _ _ _ _ _ Hprobe). }
  rewrite (bind_returned _ _ _ _ _ _ Hnull). reflexivity.
Qed.

Lemma failed_lookup_is_null_then_404_witness :
  let env :=
    with_lookup_results
      (fun _ => DbResolved None (Some {| db_message := "connection refused" |}))
      (fun _ => DbResolved (Some sample_user_row) None)
      (sample_env 0 "imported") in
  (exists w',
      fetchUserCredentials (JString "u1") (JString "google") env
        (record_event version_probe (tick initial_world))
      = (Returned None, w'))
  /\ fst (Enhanced.inject_credential (sample_body "google") env initial_world)
     = Returned
         (plain_response 404
            "User credentials or n8n configuration not found" None).
Proof.
  intros env.
  destruct (failed_lookup_is_null_then_404 (JString "u1") (JString "google")
              env (record_event version_probe (tick initial_world))
              (or_introl eq_refl)) as [Hnull Hhandler].
  split; [exact Hnull|].
  exact (Hhandler (sample_body "google") initial_world "1" "1.64.0"
           EmptyString
           eq_refl eq_refl eq_refl eq_refl eq_refl eq_refl eq_refl eq_refl
           eq_refl).
Defined.

(** C10, as the code has it.  When the request gets past the log line
    ([attempt] can be shown), the probe and the lookups succeed, and the
    provider is a string that names no property of the type table, own or
    inherited, the enhanced handler answers 500 with [error_type]
    "railway_service_error" and the message of the refusal.  The request
    has then attempted the version probe (a subprocess) and the two
    lookups and nothing else: no scratch file, no import command, no
    status update. *)
Theorem unknown_provider_is_500_before_import
    body p env w0 shown out w1 cd w2 :
  body_provider body = JString p ->
  truthy (body_user_id body) = true ->
  truthy (JString p) = true ->
  configured (SUPABASE_URL (CONFIG env)) = true ->
  configured (SUPABASE_SERVICE_KEY (CONFIG env)) = true ->
  template_string (attempt_of body) = Returned shown ->
  execAsync "n8n --version" None 5000 None env (tick w0)
  = (Returned out, w1) ->
  fetchUserCredentials (body_user_id body) (JString p) env w1
  = (Returned (Some cd), w2) ->
  object_get credentialTypes p = JUndefined ->
  exists w3,
    Enhanced.inject_credential body env w0
    = (Returned (plain_response 500 ("Unsupported provider: " ++ p)
                                (Some "railway_service_error")), w3)
    /\ log w3
       = (log w0 ++ [ version_probe;
                      social_lookup (body_user_id body) (JString p);
                      user_lookup (body_user_id body) ])%list.
Proof.
  intros Hp Htu Htp Hc1 Hc2 Hshown Hprobe Hfetch Hunknown.
  destruct (fetchUserCredentials_found _ _ _ _ _ _ Hfetch) as (_ & Hcp & Hw2).
  pose proof (createCredentialTemplate_unknown cd p env w2 Hcp Hunknown) as Htpl.
  exists (tick (tick w2)). split.
  - unfold Enhanced.inject_credential. unfold try_catch at 1. cbv zeta.
    rewrite Hp, Htu, Htp. cbn [negb orb].
    rewrite (bind_returned _ _ env w0 (CONFIG env) w0) by reflexivity.
    rewrite Hc1, Hc2. cbn [negb orb].
    rewrite (bind_returned _ _ _ _ _ _
               (log_processing_returns _ _ env w0 Hshown)).
    rewrite (bind_returned _ _ env (tick w0) None w1).
    2:{ apply try_catch_returned.
        now rewrite (bind_returned _ _ _ _ _ _ Hprobe). }
    rewrite (bind_returned _ _ _ _ _ _ Hfetch).
    rewrite (bind_thrown _ _ _ _ _ _ Htpl). reflexivity.
  - pose proof (execAsync_world "n8n --version" None 5000 None env (tick w0))
      as Hl1.
    rewrite Hprobe in Hl1. simpl in Hl1. subst w1 w2.
    simpl. rewrite <- !app_assoc. reflexivity.
Qed.

Lemma unknown_provider_is_500_before_import_witness :
  exists w3,
    Enhanced.inject_credential (sample_body "dropbox")
      (sample_env 0 "imported") initial_world
    = (Returned (plain_response 500 "Unsupported provider: dropbox"
                                (Some "railway_service_error")), w3)
    /\ log w3
       = [ version_probe;
           social_lookup (JString "u1") (JString "dropbox");
           user_lookup (JString "u1") ].
Proof.
  eapply (unknown_provider_is_500_before_import (sample_body "dropbox")
            "dropbox" (sample_env 0 "imported") initial_world);
    reflexivity.
Defined.

(** C10, as the specification words it, fails: for the unsupported
    provider "dropbox" with credentials on record, the handler answers 500
    as said, but by then a subprocess has been invoked, the version probe
    that precedes the lookup. *)
Lemma unsupported_provider_has_run_a_subprocess :
  let run :=
    Enhanced.inject_credential (sample_body "dropbox")
      (sample_env 0 "imported") initial_world in
  object_get credentialTypes "dropbox" = JUndefined
  /\ fst run
     = Returned (plain_response 500 "Unsupported provider: dropbox"
                                (Some "railway_service_error"))
  /\ log (snd run)
     = [ EvExec "n8n --version" None 5000 None;
         social_lookup (JString "u1") (JString "dropbox");
         user_lookup (JString "u1") ]
  /\ existsb is_exec (log (snd run)) = true.
Proof. vm_compute. repeat split. Qed.

(* ================================================================= *)
(** * Further properties of the code *)

(** ** Configuration and pre-flight *)

(** X1.  A valid request is answered 500 "Missing Supabase configuration"
    by both services when the URL or the service key is unset or empty, and
    nothing outside the process is attempted. *)
Theorem missing_configuration_is_500_without_effects body env w :
  truthy (body_user_id body) = true ->
  truthy (body_provider body) = true ->
  configured (getenv (process_env env) "SUPABASE_URL") = false
  \/ configured (getenv (process_env env) "SUPABASE_SERVICE_ROLE_KEY") = false ->
  Enhanced.inject_credential body env w
  = (Returned (plain_response 500 "Missing Supabase configuration" None), w)
  /\ Simplified.inject_credential body env w
     = (Returned (plain_response 500 "Missing Supabase configuration" None), w).
Proof.
  intros Hu Hp Hc.
  assert (Hcfg : negb (configured (SUPABASE_URL (CONFIG env)))
                 || negb (configured (SUPABASE_SERVICE_KEY (CONFIG env)))
                 = true).
  { unfold CONFIG. cbn [SUPABASE_URL SUPABASE_SERVICE_KEY].
    destruct Hc as [-> | ->]; simpl; auto using orb_true_r. }
  split.
  - unfold Enhanced.inject_credential, try_catch. cbv zeta.
    rewrite Hu, Hp. cbn [negb orb].
    rewrite (bind_returned _ _ env w (CONFIG env) w) by reflexivity.
    rewrite Hcfg. reflexivity.
  - unfold Simplified.inject_credential, try_catch. cbv zeta.
    rewrite Hu, Hp. cbn [negb orb].
    rewrite (bind_returned _ _ env w (CONFIG env) w) by reflexivity.
    rewrite Hcfg. reflexivity.
Qed.

Lemma missing_configuration_is_500_without_effects_witness :
  let env :=
    {| process_env := [ ("SUPABASE_URL", "https://db.example");
                        ("SUPABASE_SERVICE_ROLE_KEY", EmptyString) ];
       clock := clock (sample_env 0 "imported");
       uuid_source := uuid_source (sample_env 0 "imported");
       exec_result := exec_result (sample_env 0 "imported");
       writeFile_result := fun _ => None;
       readFile_result := honest_readFile;
       unlink_result := fun _ => None;
       mkdir_result := fun _ => None;
       select_social_result :=
         fun _ => DbResolved (Some sample_social_row) None;
       select_user_result := fun _ => DbResolved (Some sample_user_row) None;
       update_result := fun _ => DbResolved None None |} in
  Enhanced.inject_credential (sample_body "google") env initial_world
  = (Returned (plain_response 500 "Missing Supabase configuration" None),
     initial_world)
  /\ Simplified.inject_credential (sample_body "google") env initial_world
     = (Returned (plain_response 500 "Missing Supabase configuration" None),
        initial_world).
Proof.
  intros env.
  exact (missing_configuration_is_500_without_effects
           (sample_body "google") env initial_world
           eq_refl eq_refl (or_intror eq_refl)).
Defined.

(** X2.  When a request gets past the log line ([attempt] can be shown)
    and the version probe does not end with exit code 0, the enhanced
    handler answers 500 with [error_type] "cli_unavailable"; the probe is
    all the request has attempted: no lookup, no scratch file, no status
    update. *)
Theorem unavailable_cli_is_500_after_probe_only body env w shown :
  truthy (body_user_id body) = true ->
  truthy (body_provider body) = true ->
  configured (SUPABASE_URL (CONFIG env)) = true ->
  configured (SUPABASE_SERVICE_KEY (CONFIG env)) = true ->
  template_string (attempt_of body) = Returned shown ->
  (forall stdout stderr,
      exec_result env (log w ++ [version_probe])%list
      <> Exited 0 stdout stderr) ->
  Enhanced.inject_credential body env w
  = (Returned (plain_response 500
                 "N8N CLI is not available in this environment"
                 (Some "cli_unavailable")),
     record_event version_probe (tick w)).
Proof.
  intros Hu Hp Hc1 Hc2 Hshown Hexec.
  destruct (execAsync_rejects "n8n --version" None 5000 None env (tick w)
              Hexec) as [err Herr].
  unfold Enhanced.inject_credential. unfold try_catch at 1. cbv zeta.
  rewrite Hu, Hp. cbn [negb orb].
  rewrite (bind_returned _ _ env w (CONFIG env) w) by reflexivity.
  rewrite Hc1, Hc2. cbn [negb orb].
  rewrite (bind_returned _ _ _ _ _ _
             (log_processing_returns _ _ env w Hshown)).
  rewrite (bind_returned _ _ env (tick w)
             (Some (plain_response 500
                      "N8N CLI is not available in this environment"
                      (Some "cli_unavailable")))
             (record_event version_probe (tick w))).
  - reflexivity.
  - unfold try_catch. now rewrite (bind_thrown _ _ _ _ _ _ Herr).
Qed.

Lemma unavailable_cli_is_500_after_probe_only_witness :
  let env :=
    {| process_env := process_env (sample_env 0 "imported");
       clock := clock (sample_env 0 "imported");
       uuid_source := uuid_source (sample_env 0 "imported");
       exec_result := fun _ => SpawnFailed "spawn n8n ENOENT";
       writeFile_result := fun _ => None;
       readFile_result := honest_readFile;
       unlink_result := fun _ => None;
       mkdir_result := fun _ => None;
       select_social_result :=
         fun _ => DbResolved (Some sample_social_row) None;
       select_user_result := fun _ => DbResolved (Some sample_user_row) None;
       update_result := fun _ => DbResolved None None |} in
  Enhanced.inject_credential (sample_body "google") env initial_world
  = (Returned (plain_response 500
                 "N8N CLI is not available in this environment"
                 (Some "cli_unavailable")),
     {| log := [version_probe]; reads := 1 |}).
Proof.
  intros env.
  apply (unavailable_cli_is_500_after_probe_only (sample_body "google") env
           initial_world "1" eq_refl eq_refl eq_refl eq_refl eq_refl).
  intros stdout stderr. discriminate.
Defined.

(** ** The environment of the import command *)

Lemma own_property_set_same obj key v :
  own_property (set_property obj key v) key = Some v.
Proof.
  induction obj as [|[k x] rest IH]; simpl.
  - now rewrite String.eqb_refl.
  - destruct (k =? key)%string eqn:Hk; simpl; rewrite Hk; auto.
Qed.

Lemma own_property_set_other obj key v other :
  other <> key ->
  own_property (set_property obj key v) other = own_property obj other.
Proof.
  intros Hne. induction obj as [|[k x] rest IH]; simpl.
  - destruct (key =? other)%string eqn:Hk; [|reflexivity].
    apply String.eqb_eq in Hk. congruence.
  - destruct (k =? key)%string eqn:Hk; simpl.
    + apply String.eqb_eq in Hk. subst k.
      destruct (key =? other)%string eqn:Hko; [|reflexivity].
      apply String.eqb_eq in Hko. congruence.
    + destruct (k =? other)%string; auto.
Qed.

(** X3.  Every strategy hands the user's encryption key to the child, also
    when the service itself inherited an [N8N_ENCRYPTION_KEY].  [basic]
    passes every other inherited variable on unchanged, [userFolder] does
    so too but for [N8N_USER_FOLDER], which it sets to [/tmp/.n8n];
    [minimal] passes nothing of the inherited environment: the child sees
    its four variables and no other. *)
Theorem strategy_environments path cd inherited :
  (exists command e,
      Enhanced.import_invocation "basic" path cd inherited
      = Returned (command, e)
      /\ command = "n8n import:credentials --input=" ++ path
      /\ own_property e "N8N_ENCRYPTION_KEY" = Some (n8n_encryption_key cd)
      /\ forall other, other <> "N8N_ENCRYPTION_KEY" ->
                       own_property e other = own_property inherited other)
  /\ (exists command e,
         Enhanced.import_invocation "userFolder" path cd inherited
         = Returned (command, e)
         /\ command = "n8n import:credentials --input=" ++ path
                        ++ " --userFolder=/tmp/.n8n"
         /\ own_property e "N8N_ENCRYPTION_KEY" = Some (n8n_encryption_key cd)
         /\ own_property e "N8N_USER_FOLDER" = Some (JString "/tmp/.n8n")
         /\ forall other, other <> "N8N_ENCRYPTION_KEY" ->
                          other <> "N8N_USER_FOLDER" ->
                          own_property e other = own_property inherited other)
  /\ (exists command e,
         Enhanced.import_invocation "minimal" path cd inherited
         = Returned (command, e)
         /\ command = "n8n import:credentials --input=" ++ path
         /\ own_property e "N8N_ENCRYPTION_KEY" = Some (n8n_encryption_key cd)
         /\ map fst e = [ "NODE_ENV"; "N8N_ENCRYPTION_KEY"; "N8N_LOG_LEVEL";
                          "N8N_USER_MANAGEMENT_DISABLED" ]).
Proof.
  split; [|split].
  - do 2 eexists. split; [reflexivity|]. split; [reflexivity|].
    split; [apply own_property_set_same|].
    intros other Hne. now apply own_property_set_other.
  - do 2 eexists. split; [reflexivity|]. split; [reflexivity|].
    split; [|split; [apply own_property_set_same|]].
    + rewrite own_property_set_other by discriminate.
      apply own_property_set_same.
    + intros other Hk Hf. now rewrite !own_property_set_other.
  - do 2 eexists. split; [reflexivity|]. repeat split.
Qed.

(** X4.  A strategy name other than the three known ones makes
    [tryImportCommand] throw "Unknown strategy: <name>" before anything is
    attempted outside the process. *)
Theorem unknown_strategy_throws_without_effects path cd strategy env w :
  ~ In strategy ["basic"; "userFolder"; "minimal"] ->
  Enhanced.tryImportCommand path cd strategy env w
  = (Thrown (Error ("Unknown strategy: " ++ strategy)), w).
Proof.
  intros Hnot. unfold Enhanced.tryImportCommand.
  rewrite (bind_returned _ _ env w (inherited_env env) w) by reflexivity.
  apply bind_thrown. unfold lift, Enhanced.import_invocation.
  destruct (strategy =? "basic")%string eqn:H1;
    [apply String.eqb_eq in H1; elim Hnot; simpl; auto|].
  destruct (strategy =? "userFolder")%string eqn:H2;
    [apply String.eqb_eq in H2; elim Hnot; simpl; auto|].
  destruct (strategy =? "minimal")%string eqn:H3;
    [apply String.eqb_eq in H3; elim Hnot; simpl; auto|].
  reflexivity.
Qed.

Lemma unknown_strategy_throws_without_effects_witness :
  Enhanced.tryImportCommand "/tmp/credentials-7.json"
    (sample_credData "google") "Basic" (sample_env 0 "imported")
    sample_written_world
  = (Thrown (Error "Unknown strategy: Basic"), sample_written_world).
Proof.
  apply (unknown_strategy_throws_without_effects "/tmp/credentials-7.json"
           (sample_credData "google") "Basic").
  simpl. intros [H|[H|[H|[]]]]; discriminate.
Defined.

(** ** The success test *)

Lemma string_app_assoc (a b c : string) :
  ((a ++ b) ++ c = a ++ (b ++ c))%string.
Proof. induction a as [|x a IH]; simpl; [reflexivity | now rewrite IH]. Qed.

(** X5.  The first success substring adds nothing: an output passes the
    test exactly when it contains "imported" or "credential". *)
Theorem success_indicators_two_markers stdout :
  Enhanced.success_indicators stdout
  = includes stdout "imported" || includes stdout "credential".
Proof.
  unfold Enhanced.success_indicators.
  destruct (includes stdout "Successfully imported") eqn:H; [|reflexivity].
  apply includes_iff in H as [before [after ->]].
  assert (Hi : includes (before ++ "Successfully imported" ++ after)
                        "imported" = true).
  { apply includes_iff.
    exists (before ++ "Successfully ")%string, after.
    rewrite string_app_assoc. reflexivity. }
  now rewrite Hi.
Qed.

(** ** The credential fetcher, in full *)

(** X6.  [fetchUserCredentials] never throws and only reads: it attempts
    the lookup of the credential row, and the lookup of the user row only
    when the first one produced a row without error.  What it returns
    carries the identifiers it was asked for, and its refresh token is a
    truthy value or the empty string, never [null] or [undefined]. *)
Theorem fetcher_only_reads_and_never_throws userId prov env w :
  let w1 := record_event (social_lookup userId prov) w in
  let w2 := record_event (user_lookup userId) w1 in
  exists found w',
    fetchUserCredentials userId prov env w = (Returned found, w')
    /\ ((lookup_failed (select_social_result env (log w1)) = true
         /\ found = None /\ w' = w1)
        \/ (lookup_failed (select_social_result env (log w1)) = false
            /\ w' = w2
            /\ (found = None
                <-> lookup_failed (select_user_result env (log w2)) = true)))
    /\ (forall cd, found = Some cd ->
          user_id cd = userId
          /\ provider cd = prov
          /\ (truthy (refresh_token cd) = true
              \/ refresh_token cd = JString EmptyString)).
Proof.
  intros w1 w2.
  unfold fetchUserCredentials, select_social, select_user. unfold_m.
  fold (social_lookup userId prov). fold w1.
  destruct (select_social_result env (log w1)) as [[sc|] [err|] | e];
    try (do 2 eexists; split; [reflexivity|];
         split; [left; repeat split | discriminate]).
  fold (user_lookup userId). fold w2.
  destruct (select_user_result env (log w2)) as [[ui|] [err'|] | e'];
    try (do 2 eexists; split; [reflexivity|];
         split; [right; repeat split | discriminate]).
  do 2 eexists. split; [reflexivity|]. split.
  - right. repeat split; discriminate.
  - intros cd H. injection H as <-. cbn. repeat split.
    unfold js_or. destruct (truthy (row_refresh_token sc)) eqn:Ht; auto.
Qed.

(** ** The credential template, in full *)

(** X7.  A template is only ever built for a provider that is a string:
    any other value makes construction throw, also a value such as the
    array [["google"]] whose string form is a key of the table.  The
    template that is built has the looked-up type, a display name made of
    the capitalised provider and the minute of construction, the OAuth
    fields of the credentials unchanged and the fixed token and grant
    types; building it attempts nothing outside the process. *)
Theorem template_built_only_for_string_provider cd env w t w' :
  createCredentialTemplate cd env w = (Returned t, w') ->
  exists p,
    provider cd = JString p
    /\ type_ t = object_get credentialTypes p
    /\ truthy (type_ t) = true
    /\ id t = uuid_source env (reads w)
    /\ name t
       = capitalize p ++ " OAuth2 - "
           ++ replace_first_T (str_take 16 (iso (clock env (S (reads w)))))
    /\ data t = {| clientId := client_id cd;
                   clientSecret := client_secret cd;
                   accessToken := access_token cd;
                   refreshToken := refresh_token cd;
                   tokenType := "Bearer";
                   grantType := "authorizationCode" |}
    /\ log w' = log w.
Proof.
  unfold createCredentialTemplate. unfold_m. cbn [reads tick].
  destruct (to_property_key (provider cd)) as [key|] eqn:Hkey;
    [|discriminate].
  destruct (truthy (object_get credentialTypes key)) eqn:Htruthy;
    cbn [negb]; [|discriminate].
  destruct (provider cd) as [ | | b | n | p | l | fs | f | ] eqn:Hp;
    try discriminate.
  cbn in Hkey. injection Hkey as <-.
  intros H. injection H as <- <-. exists p. repeat split. exact Htruthy.
Qed.

Lemma template_built_only_for_string_provider_witness :
  exists p,
    provider (sample_credData "github") = JString p
    /\ type_ (
         {| id := "3f2b8c1e-0000-4000-8000-000000000001";
            name := "Github OAuth2 - 2023-11-14 22:13";
            type_ := JString "githubOAuth2Api";
            data := {| clientId := JString "cid";
                       clientSecret := JString "secret";
                       accessToken := JString "at-1";
                       refreshToken := JString EmptyString;
                       tokenType := "Bearer";
                       grantType := "authorizationCode" |};
            createdAt := "2023-11-14T22:13:20.000Z";
            updatedAt := "2023-11-14T22:13:20.000Z" |})
       = object_get credentialTypes p.
Proof.
  destruct (template_built_only_for_string_provider
              (sample_credData "github") (sample_env 0 "imported")
              initial_world _ _ eq_refl) as (p & Hp & Hty & _).
  exists p. split; [exact Hp | exact Hty].
Defined.

(** An array whose string form is a key of the table is looked up
    successfully and then fails on [charAt]. *)
Lemma template_of_array_provider_throws cd p env w :
  provider cd = JArray [JString p] ->
  truthy (object_get credentialTypes p) = true ->
  fst (createCredentialTemplate cd env w)
  = Thrown (TypeError "credData.provider.charAt is not a function").
Proof.
  intros Hp Ht. unfold createCredentialTemplate. unfold_m.
  rewrite Hp. cbn [to_property_key option_map join_comma String.concat].
  rewrite Ht. reflexivity.
Qed.

(** ** The import document *)

(** X8.  Reading back a scratch file that holds the document generated
    for a non-empty list of templates yields the id of the first template;
    for the empty list the read-back throws, as there is no first
    credential to take the id of. *)
Theorem read_back_of_generated_document path t ts env w :
  let w1 := record_event (EvReadFile path) w in
  (readFile_result env (log w1) = Returned (generateCredentialJSON (t :: ts)) ->
   Enhanced.read_back_id path env w = (Returned (JString (id t)), w1))
  /\ (readFile_result env (log w1) = Returned (generateCredentialJSON []) ->
      is_thrown (fst (Enhanced.read_back_id path env w))).
Proof.
  intros w1. split; intros Hread.
  - unfold Enhanced.read_back_id, fs_readFile. unfold_m. fold w1.
    rewrite Hread. reflexivity.
  - unfold Enhanced.read_back_id, fs_readFile. unfold_m. fold w1.
    rewrite Hread. exact I.
Qed.

(** ** The scratch path *)

Lemma Z_to_string_injective (a b : Z) : Z_to_string a = Z_to_string b -> a = b.
Proof.
  unfold Z_to_string. intros H.
  assert (Hnz : forall z, Z.to_int z <> Decimal.Pos Decimal.Nil
                          /\ Z.to_int z <> Decimal.Neg Decimal.Nil).
  { intros [|p|p]; split; try discriminate; simpl;
      intros Hc; injection Hc as Hc;
      now apply DecimalPos.Unsigned.to_uint_nonnil in Hc. }
  assert (Hi : Some (Z.to_int a) = Some (Z.to_int b)).
  { rewrite <- (NilZero.isi (Z.to_int a)) by apply Hnz.
    rewrite <- (NilZero.isi (Z.to_int b)) by apply Hnz.
    now rewrite H. }
  injection Hi as Hi.
  rewrite <- (DecimalZ.of_to a), <- (DecimalZ.of_to b). now rewrite Hi.
Qed.

Lemma string_length_app (a b : string) :
  String.length (a ++ b) = (String.length a + String.length b)%nat.
Proof. induction a as [|c a IH]; simpl; [reflexivity | now rewrite IH]. Qed.

Lemma string_app_cancel_r (a b suffix : string) :
  (a ++ suffix = b ++ suffix)%string -> a = b.
Proof.
  revert b. induction a as [|c a IH]; intros [|d b] H; simpl in H.
  - reflexivity.
  - apply (f_equal String.length) in H. simpl in H.
    rewrite string_length_app in H. lia.
  - apply (f_equal String.length) in H. simpl in H.
    rewrite string_length_app in H. lia.
  - injection H as -> H. f_equal. now apply IH.
Qed.

(** X9.  Two runs of an importer use the same scratch file exactly when
    [Date.now()] gave them the same millisecond: the path determines the
    reading and the reading the path, in both services. *)
Theorem scratch_path_collides_only_on_equal_time (a b : Z) :
  (Enhanced.temp_path a = Enhanced.temp_path b <-> a = b)
  /\ (Simplified.temp_path a = Simplified.temp_path b <-> a = b).
Proof.
  assert (H : forall x y,
             path_join "/tmp" ("credentials-" ++ Z_to_string x ++ ".json")
             = path_join "/tmp" ("credentials-" ++ Z_to_string y ++ ".json")
             -> x = y).
  { intros x y Hxy. unfold path_join in Hxy. simpl in Hxy.
    injection Hxy as Hxy.
    now apply Z_to_string_injective, (string_app_cancel_r _ _ ".json"). }
  unfold Enhanced.temp_path, Simplified.temp_path.
  split; (split; [apply H | now intros ->]).
Qed.

Lemma read_back_of_generated_document_witness :
  let w :=
    record_event
      (EvWriteFile "/tmp/credentials-7.json"
                   (generateCredentialJSON [sample_template]))
      initial_world in
  Enhanced.read_back_id "/tmp/credentials-7.json" (sample_env 0 "imported") w
  = (Returned (JString "c-9"),
     record_event (EvReadFile "/tmp/credentials-7.json") w).
Proof.
  intros w.
  exact (proj1 (read_back_of_generated_document "/tmp/credentials-7.json"
                  sample_template [] (sample_env 0 "imported") w)
           eq_refl).
Defined.

(** ** What the enhanced importer returns *)

(** The result of an attempt that returns. *)
Lemma tryImportCommand_result_shape path cd strategy env w result w' :
  Enhanced.tryImportCommand path cd strategy env w = (Returned result, w') ->
  exists cid stdout,
    result = {| success := true;
                credentialId := cid;
                message := "Credentials imported successfully using "
                             ++ strategy ++ " strategy";
                details := Some {| method := "railway_cli_" ++ strategy;
                                   output := stdout;
                                   strategy_used := Some strategy |};
                troubleshooting := None |}.
Proof.
  unfold Enhanced.tryImportCommand.
  rewrite (bind_returned _ _ env w (inherited_env env) w) by reflexivity.
  unfold bind at 1. unfold lift at 1.
  destruct (Enhanced.import_invocation strategy path cd (inherited_env env))
    as [[command e]|err]; [|discriminate].
  unfold bind at 1.
  destruct (execAsync command (Some e) 60000 (Some "/tmp") env w)
    as [[[stdout stderr]|err] w1]; [|discriminate].
  destruct (Enhanced.success_indicators stdout); [|discriminate].
  unfold bind at 1.
  destruct (Enhanced.read_back_id path env w1) as [[cid|err] w2];
    [|discriminate].
  intros H. injection H as <- <-. eauto.
Qed.

(** A block that returns a result got it from its attempt. *)
Lemma strategy_block_result prepare path cd strategy env w result w' :
  Enhanced.strategy_block prepare path cd strategy env w
  = (Returned (Some result), w') ->
  exists w1 w2,
    Enhanced.tryImportCommand path cd strategy env w1 = (Returned result, w2).
Proof.
  unfold Enhanced.strategy_block, try_catch, bind.
  destruct (prepare env w) as [[[]|e1] w1]; [|discriminate].
  destruct (Enhanced.tryImportCommand path cd strategy env w1)
    as [[r|e2] w2] eqn:Hattempt; [|discriminate].
  destruct (success r); [|discriminate].
  rewrite swallow_unlink. intros H. injection H as <- <-. eauto.
Qed.

Lemma strategy_block_never_throws prepare path cd strategy env w :
  exists r w',
    Enhanced.strategy_block prepare path cd strategy env w = (Returned r, w').
Proof.
  unfold Enhanced.strategy_block, try_catch, bind.
  destruct (prepare env w) as [[[]|e1] w1];
    [|do 2 eexists; reflexivity].
  destruct (Enhanced.tryImportCommand path cd strategy env w1)
    as [[r|e2] w2]; [|do 2 eexists; reflexivity].
  destruct (success r); [|do 2 eexists; reflexivity].
  rewrite swallow_unlink. do 2 eexists; reflexivity.
Qed.

Lemma run_strategies_result path cd env w result w' :
  Enhanced.run_strategies path cd env w = (Returned result, w') ->
  exists strategy w1 w2,
    In strategy ["basic"; "userFolder"; "minimal"]
    /\ Enhanced.tryImportCommand path cd strategy env w1
       = (Returned result, w2).
Proof.
  unfold Enhanced.run_strategies.
  destruct (strategy_block_never_throws (ret tt) path cd "basic" env w)
    as (r1 & wa & H1).
  rewrite (bind_returned _ _ _ _ _ _ H1).
  destruct r1 as [r1|].
  { intros H. injection H as <- <-.
    destruct (strategy_block_result _ _ _ _ _ _ _ _ H1) as (w1 & w2 & Ht).
    exists "basic", w1, w2. simpl; auto. }
  destruct (strategy_block_never_throws (fs_mkdir "/tmp/.n8n") path cd
              "userFolder" env wa) as (r2 & wb & H2).
  rewrite (bind_returned _ _ _ _ _ _ H2).
  destruct r2 as [r2|].
  { intros H. injection H as <- <-.
    destruct (strategy_block_result _ _ _ _ _ _ _ _ H2) as (w1 & w2 & Ht).
    exists "userFolder", w1, w2. simpl; auto. }
  destruct (strategy_block_never_throws (ret tt) path cd "minimal" env wb)
    as (r3 & wc & H3).
  rewrite (bind_returned _ _ _ _ _ _ H3).
  destruct r3 as [r3|]; [|discriminate].
  intros H. injection H as <- <-.
  destruct (strategy_block_result _ _ _ _ _ _ _ _ H3) as (w1 & w2 & Ht).
  exists "minimal", w1, w2. simpl; auto.
Qed.

Lemma executeN8NCLIEnhanced_shapes cd jsonContent env w result w' :
  Enhanced.executeN8NCLIEnhanced cd jsonContent env w = (Returned result, w') ->
  (success result = true
   /\ exists strategy cid stdout,
       In strategy ["basic"; "userFolder"; "minimal"]
       /\ result = {| success := true;
                      credentialId := cid;
                      message := "Credentials imported successfully using "
                                   ++ strategy ++ " strategy";
                      details := Some {| method := "railway_cli_" ++ strategy;
                                         output := stdout;
                                         strategy_used := Some strategy |};
                      troubleshooting := None |})
  \/ (success result = false
      /\ exists msg,
          msg <> EmptyString
          /\ result = {| success := false;
                         credentialId := JUndefined;
                         message := msg;
                         details := None;
                         troubleshooting := Some Enhanced.failure_hints |}).
Proof.
  unfold Enhanced.executeN8NCLIEnhanced.
  rewrite (bind_returned _ _ env w (epoch_ms (clock env (reads w))) (tick w))
    by reflexivity.
  set (path := Enhanced.temp_path (epoch_ms (clock env (reads w)))).
  unfold try_catch.
  destruct (bind (fs_writeFile path jsonContent)
                 (fun _ => Enhanced.run_strategies path cd) env (tick w))
    as [[r|e] w1] eqn:Hbody.
  - intros H. injection H as <- <-. left.
    unfold bind in Hbody.
    destruct (fs_writeFile path jsonContent env (tick w)) as [[[]|e0] w0];
      [|discriminate].
    destruct (run_strategies_result _ _ _ _ _ _ Hbody)
      as (strategy & wa & wb & Hin & Ht).
    destruct (tryImportCommand_result_shape _ _ _ _ _ _ _ Ht)
      as (cid & stdout & ->).
    split; [reflexivity|]. exists strategy, cid, stdout. auto.
  - rewrite (bind_returned _ _ _ _ _ _ (swallow_unlink path env w1)).
    intros H. injection H as <- <-. right. split; [reflexivity|].
    eexists. split; [|reflexivity].
    unfold str_or. destruct (message_of e =? EmptyString)%string eqn:Hm.
    + discriminate.
    + intros Hc. rewrite Hc in Hm. discriminate.
Qed.

(** X10.  What the enhanced importer returns has one of two shapes.  A
    success names the strategy that worked, in its message and in its
    details, and has no troubleshooting payload.  A failure has no
    credential id and no details, a message that is not empty, and the
    fixed troubleshooting payload. *)
Theorem enhanced_importer_result_shapes cd jsonContent env w result w' :
  Enhanced.executeN8NCLIEnhanced cd jsonContent env w = (Returned result, w') ->
  (success result = true
   /\ exists strategy cid stdout,
       In strategy ["basic"; "userFolder"; "minimal"]
       /\ result = {| success := true;
                      credentialId := cid;
                      message := "Credentials imported successfully using "
                                   ++ strategy ++ " strategy";
                      details := Some {| method := "railway_cli_" ++ strategy;
                                         output := stdout;
                                         strategy_used := Some strategy |};
                      troubleshooting := None |})
  \/ (success result = false
      /\ exists msg,
          msg <> EmptyString
          /\ result = {| success := false;
                         credentialId := JUndefined;
                         message := msg;
                         details := None;
                         troubleshooting := Some Enhanced.failure_hints |}).
Proof.
  unfold Enhanced.executeN8NCLIEnhanced.
  rewrite (bind_returned _ _ env w (epoch_ms (clock env (reads w))) (tick w))
    by reflexivity.
  set (path := Enhanced.temp_path (epoch_ms (clock env (reads w)))).
  unfold try_catch.
  destruct (bind (fs_writeFile path jsonContent)
                 (fun _ => Enhanced.run_strategies path cd) env (tick w))
    as [[r|e] w1] eqn:Hbody.
  - intros H. injection H as <- <-. left.
    unfold bind in Hbody.
    destruct (fs_writeFile path jsonContent env (tick w)) as [[[]|e0] w0];
      [|discriminate].
    destruct (run_strategies_result _ _ _ _ _ _ Hbody)
      as (strategy & wa & wb & Hin & Ht).
    destruct (tryImportCommand_result_shape _ _ _ _ _ _ _ Ht)
      as (cid & stdout & ->).
    split; [reflexivity|]. exists strategy, cid, stdout. auto.
  - rewrite (bind_returned _ _ _ _ _ _ (swallow_unlink path env w1)).
    intros H. injection H as <- <-. right. split; [reflexivity|].
    eexists. split; [|reflexivity].
    unfold str_or. destruct (message_of e =? EmptyString)%string eqn:Hm.
    + discriminate.
    + intros Hc. rewrite Hc in Hm. discriminate.
Qed.

Lemma enhanced_importer_result_shapes_witness :
  exists result,
    fst (Enhanced.executeN8NCLIEnhanced (sample_credData "google")
           (generateCredentialJSON []) (sample_env 1 "Permission denied")
           initial_world) = Returned result
    /\ ((success result = true
         /\ exists strategy cid stdout,
             In strategy ["basic"; "userFolder"; "minimal"]
             /\ result
                = {| success := true;
                     credentialId := cid;
                     message := "Credentials imported successfully using "
                                  ++ strategy ++ " strategy";
                     details :=
                       Some {| method := "railway_cli_" ++ strategy;
                               output := stdout;
                               strategy_used := Some strategy |};
                     troubleshooting := None |})
        \/ (success result = false
            /\ exists msg,
                msg <> EmptyString
                /\ result
                   = {| success := false;
                        credentialId := JUndefined;
                        message := msg;
                        details := None;
                        troubleshooting := Some Enhanced.failure_hints |})).
Proof.
  eexists. split; [cbv; reflexivity|].
  eapply (enhanced_importer_result_shapes (sample_credData "google")
            (generateCredentialJSON []) (sample_env 1 "Permission denied")
            initial_world).
  cbv. reflexivity.
Defined.

(** ** The status reporter, in full *)

(** X11.  The status update is one write against the record of the given
    user and provider.  It records the verdict; a time of injection exactly
    when the verdict is a success; the message it was given as
    [injection_error], or none if the message is empty; and a credential id
    only if it was given a truthy one, so that a failure never overwrites
    an id stored before.  It throws exactly when the write fails. *)
Theorem status_update_contents method extra userId prov ok cid error
    details env w :
  exists updateData w',
    log w' = (log w ++ [status_update userId prov updateData])%list
    /\ injected_to_n8n updateData = ok
    /\ (injected_at updateData = None <-> ok = false)
    /\ injection_error updateData = string_or_null error
    /\ n8n_credential_id updateData
       = (if truthy cid then Some cid else None)
    /\ snd (updateCredentialStatus_with method extra userId prov ok cid
              error details env w) = w'
    /\ (is_thrown (fst (updateCredentialStatus_with method extra userId prov
                          ok cid error details env w))
        <-> update_failure (update_result env (log w')) <> None).
Proof.
  unfold updateCredentialStatus_with.
  destruct ok; unfold_m; cbv zeta;
    match goal with
    | |- context [update_result env
                    (log (record_event (EvUpdate _ ?u _) ?w0))] =>
        exists u, (record_event (status_update userId prov u) w0)
    end;
    (split; [reflexivity|]); (split; [reflexivity|]);
    (split; [cbn; split; intros; congruence|]);
    (split; [reflexivity|]); (split; [reflexivity|]);
    unfold status_update;
    match goal with
    | |- context [update_result env ?l] =>
        destruct (update_result env l) as [d [err|] | e]
    end; cbn; (split; [reflexivity|]);
    split; intros H; try exact I; try discriminate; try contradiction;
    now elim H.
Qed.

(** ** The enhanced handler, past the importer *)

Lemma updateCredentialStatus_outcome method extra userId prov ok cid error
    details env w :
  exists updateData w',
    log w' = (log w ++ [status_update userId prov updateData])%list
    /\ injected_to_n8n updateData = ok
    /\ (injected_at updateData = None <-> ok = false)
    /\ injection_error updateData = string_or_null error
    /\ n8n_credential_id updateData
       = (if truthy cid then Some cid else None)
    /\ ((update_failure (update_result env (log w')) = None
         /\ updateCredentialStatus_with method extra userId prov ok cid
              error details env w = (Returned tt, w'))
        \/ (exists msg e,
               update_failure (update_result env (log w')) = Some msg
               /\ message_of e = msg
               /\ updateCredentialStatus_with method extra userId prov ok cid
                    error details env w = (Thrown e, w'))).
Proof.
  unfold updateCredentialStatus_with.
  destruct ok; unfold_m; cbv zeta;
    match goal with
    | |- context [update_result env
                    (log (record_event (EvUpdate _ ?u _) ?w0))] =>
        exists u, (record_event (status_update userId prov u) w0)
    end;
    (split; [reflexivity|]); (split; [reflexivity|]);
    (split; [cbn; split; intros; congruence|]);
    (split; [reflexivity|]); (split; [reflexivity|]);
    unfold status_update;
    match goal with
    | |- context [update_result env ?l] =>
        destruct (update_result env l) as [d [err|] | e]
    end; cbn;
    first [ left; split; reflexivity
          | right; do 2 eexists; repeat split; reflexivity ].
Qed.

(** What the enhanced handler answers once the importer has run. *)
Lemma enhanced_handler_after_importer body env w0 cd template w3 :
  reaches_importer body env w0 cd template w3 ->
  exists result w4 updateData w5,
    Enhanced.executeN8NCLIEnhanced cd (generateCredentialJSON [template])
      env w3 = (Returned result, w4)
    /\ log w5
       = (log w4 ++ [status_update (body_user_id body) (body_provider body)
                                   updateData])%list
    /\ injected_to_n8n updateData = success result
    /\ (injected_at updateData = None <-> success result = false)
    /\ injection_error updateData = string_or_null (message result)
    /\ n8n_credential_id updateData
       = (if truthy (credentialId result) then Some (credentialId result)
          else None)
    /\ snd (Enhanced.updateCredentialStatus
              (body_user_id body) (body_provider body)
              (success result) (credentialId result)
              (message result) (details result) env w4) = w5
    /\ Enhanced.inject_credential body env w0
       = (Returned
            match update_failure (update_result env (log w5)) with
            | Some msg =>
                plain_response 500 (str_or msg "Internal server error")
                               (Some "railway_service_error")
            | None =>
                if success result then success_response result
                else failure_response result (attempt_of body)
                                      (troubleshooting result)
            end, w5).
Proof.
  intros Hreach.
  destruct (executeN8NCLIEnhanced_spec cd (generateCredentialJSON [template])
              env w3) as (result & w4 & evs & Hrun & _).
  destruct (updateCredentialStatus_outcome "railway_cli_enhanced"
              [("version", JString "2.0")]
              (body_user_id body) (body_provider body)
              (success result) (credentialId result) (message result)
              (details result) env w4)
    as (updateData & w5 & Hlog & Hinj & Hat & Herr & Hid & Hupd).
  exists result, w4, updateData, w5.
  repeat (split; [assumption|]).
  split.
  { unfold Enhanced.updateCredentialStatus.
    destruct Hupd as [[_ ->] | (msg & e & _ & _ & ->)]; reflexivity. }
  rewrite (enhanced_handler_continues body env w0 cd template w3 Hreach).
  unfold try_catch. rewrite (bind_returned _ _ _ _ _ _ Hrun).
  unfold Enhanced.updateCredentialStatus.
  destruct Hupd as [[Hnone Hret] | (msg & e & Hsome & Hmsg & Hthrown)].
  - rewrite (bind_returned _ _ _ _ _ _ Hret), Hnone.
    destruct (success result); reflexivity.
  - rewrite (bind_thrown _ _ _ _ _ _ Hthrown), Hsome, <- Hmsg. reflexivity.
Qed.

Lemma fetchUserCredentials_total userId prov env w :
  exists found w' sel,
    fetchUserCredentials userId prov env w = (Returned found, w')
    /\ log w' = (log w ++ sel)%list
    /\ Forall early_event sel.
Proof.
  unfold fetchUserCredentials, select_social, select_user. unfold_m.
  destruct (select_social_result env _) as [[sc|] [err|] | e];
    try (do 2 eexists; eexists [_]; split; [reflexivity|];
         split; [reflexivity | repeat constructor]).
  destruct (select_user_result env _) as [[ui|] [err'|] | e'];
    do 2 eexists; eexists [_; _];
    (split; [reflexivity|]);
    (split; [simpl; rewrite <- app_assoc; reflexivity | repeat constructor]).
Qed.

(** A request that does not get as far as the importer is answered with
    a failure, and has attempted at most the probe and the lookups. *)
Lemma enhanced_handler_cases body env w0 :
  (exists cd template w3, reaches_importer body env w0 cd template w3)
  \/ (exists response w' evs,
         Enhanced.inject_credential body env w0 = (Returned response, w')
         /\ In (status response) [400; 404; 500]
         /\ res_success (json response) = false
         /\ log w' = (log w0 ++ evs)%list
         /\ Forall early_event evs).
Proof.
  destruct (truthy (body_user_id body)) eqn:Hu.
  2:{ right. exists (plain_response 400 "Missing user_id or provider" None),
        w0, [].
      rewrite falsy_field_rejected_enhanced by auto.
      rewrite app_nil_r. simpl. auto 10. }
  destruct (truthy (body_provider body)) eqn:Hp.
  2:{ right. exists (plain_response 400 "Missing user_id or provider" None),
        w0, [].
      rewrite falsy_field_rejected_enhanced by auto.
      rewrite app_nil_r. simpl. auto 10. }
  unfold Enhanced.inject_credential. unfold try_catch at 1. cbv zeta.
  rewrite Hu, Hp. cbn [negb orb].
  rewrite (bind_returned _ _ env w0 (CONFIG env) w0) by reflexivity.
  destruct (configured (SUPABASE_URL (CONFIG env))) eqn:Hc1; cbn [negb orb].
  2:{ right. do 2 eexists. exists []. split; [reflexivity|].
      rewrite app_nil_r. simpl. auto 10. }
  destruct (configured (SUPABASE_SERVICE_KEY (CONFIG env))) eqn:Hc2;
    cbn [negb orb].
  2:{ right. do 2 eexists. exists []. split; [reflexivity|].
      rewrite app_nil_r. simpl. auto 10. }
  destruct (template_string (attempt_of body)) as [shown|e0] eqn:Hshown.
  2:{ right. do 2 eexists. exists [].
      rewrite (bind_thrown _ _ _ _ _ _
                 (log_processing_throws _ _ env w0 Hshown)).
      split; [reflexivity|]. rewrite app_nil_r. simpl. auto 10. }
  rewrite (bind_returned _ _ _ _ _ _
             (log_processing_returns _ _ env w0 Hshown)).
  pose proof (execAsync_world "n8n --version" None 5000 None env (tick w0))
    as Hw1.
  destruct (execAsync "n8n --version" None 5000 None env (tick w0))
    as [[out|e] w1] eqn:Hprobe; simpl in Hw1; subst w1.
  2:{ right. do 2 eexists. exists [version_probe].
      rewrite (bind_returned _ _ env (tick w0)
                 (Some (plain_response 500
                          "N8N CLI is not available in this environment"
                          (Some "cli_unavailable")))
                 (record_event version_probe (tick w0))).
      - split; [reflexivity|]. simpl. repeat split; auto.
        repeat constructor.
      - unfold try_catch. now rewrite (bind_thrown _ _ _ _ _ _ Hprobe). }
  rewrite (bind_returned _ _ env (tick w0) None
             (record_event version_probe (tick w0))).
  2:{ apply try_catch_returned. now rewrite (bind_returned _ _ _ _ _ _ Hprobe). }
  destruct (fetchUserCredentials_total (body_user_id body)
              (body_provider body) env (record_event version_probe (tick w0)))
    as (found & w2 & sel & Hfetch & Hlog2 & Hsel).
  rewrite (bind_returned _ _ _ _ _ _ Hfetch).
  destruct found as [cd|].
  2:{ right. do 2 eexists. exists (version_probe :: sel).
      split; [reflexivity|]. simpl. repeat split; auto.
      - rewrite Hlog2. simpl. rewrite <- app_assoc. reflexivity.
      - constructor; [exact I | exact Hsel]. }
  pose proof (createCredentialTemplate_log cd env w2) as Hlog3.
  destruct (createCredentialTemplate cd env w2) as [[template|e] w3] eqn:Htpl;
    simpl in Hlog3.
  - left. exists cd, template, w3. unfold reaches_importer.
    repeat (split; [assumption|]). eauto 10.
  - right. rewrite (bind_thrown _ _ _ _ _ _ Htpl).
    do 2 eexists. exists (version_probe :: sel).
    split; [reflexivity|]. simpl. repeat split; auto.
    + rewrite Hlog3, Hlog2. simpl. rewrite <- app_assoc. reflexivity.
    + constructor; [exact I | exact Hsel].
Qed.

Lemma early_events_no_update evs :
  Forall early_event evs -> filter is_update evs = [].
Proof.
  induction 1 as [|e evs He _ IH]; [reflexivity|].
  simpl. rewrite IH. destruct e; simpl in *; try reflexivity; contradiction.
Qed.

(** X12.  The enhanced handler answers every request: no exception
    escapes it.  The status is 200, 400, 404 or 500, and the [success]
    member of the answer is true exactly for 200. *)
Theorem enhanced_handler_always_answers body env w :
  exists response w',
    Enhanced.inject_credential body env w = (Returned response, w')
    /\ In (status response) [200; 400; 404; 500]
    /\ (res_success (json response) = true <-> status response = 200).
Proof.
  destruct (enhanced_handler_cases body env w)
    as [(cd & template & w3 & Hreach)
       | (response & w' & evs & Hrun & Hst & Hfalse & _)].
  - destruct (enhanced_handler_after_importer body env w cd template w3 Hreach)
      as (result & w4 & upd & w5 & _ & _ & _ & _ & _ & _ & _ & Hrun).
    do 2 eexists. split; [exact Hrun|].
    destruct (update_failure (update_result env (log w5))) as [msg|].
    + simpl. split; [auto|]. split; discriminate.
    + destruct (success result); simpl; (split; [auto|]);
        split; intros; congruence.
  - exists response, w'. split; [exact Hrun|]. split.
    + simpl in *. tauto.
    + rewrite Hfalse. split; [discriminate|].
      intros H200. rewrite H200 in Hst. simpl in Hst.
      destruct Hst as [H|[H|[H|[]]]]; discriminate.
Qed.

(** X13.  An answer 200 of the enhanced handler means that the request
    got through: an import subprocess ended with exit code 0 and printed a
    success substring, the importer reported success, and the status
    update, the last thing attempted, was accepted by the database with
    [injected_to_n8n] true.  The answer carries the importer's credential
    id. *)
Theorem enhanced_200_means_imported_and_recorded body env w response w' :
  Enhanced.inject_credential body env w = (Returned response, w') ->
  status response = 200 ->
  exists cd template w3 result w4 updateData,
    reaches_importer body env w cd template w3
    /\ Enhanced.executeN8NCLIEnhanced cd (generateCredentialJSON [template])
         env w3 = (Returned result, w4)
    /\ success result = true
    /\ import_succeeded env (log w4)
    /\ log w'
       = (log w4 ++ [status_update (body_user_id body) (body_provider body)
                                   updateData])%list
    /\ injected_to_n8n updateData = true
    /\ update_failure (update_result env (log w')) = None
    /\ res_credential_id (json response) = credentialId result.
Proof.
  intros Hrun H200.
  destruct (enhanced_handler_cases body env w)
    as [(cd & template & w3 & Hreach)
       | (response' & w'' & evs & Hrun' & Hst & _)].
  2:{ rewrite Hrun in Hrun'. injection Hrun' as <- <-.
      rewrite H200 in Hst. simpl in Hst.
      destruct Hst as [H|[H|[H|[]]]]; discriminate. }
  destruct (enhanced_handler_after_importer body env w cd template w3 Hreach)
    as (result & w4 & upd & w5 & Himp & Hlog & Hinj & _ & _ & _ & _ & Hans).
  rewrite Hrun in Hans. injection Hans as -> ->.
  destruct (executeN8NCLIEnhanced_spec cd (generateCredentialJSON [template])
              env w3) as (r & w4' & evs & Himp' & _ & _ & Hsucc & _).
  rewrite Himp in Himp'. injection Himp' as <- <-.
  destruct (update_failure (update_result env (log w5))) as [msg|] eqn:Hupd;
    [discriminate|].
  destruct (success result) eqn:Hs; [|discriminate].
  exists cd, template, w3, result, w4, upd.
  split; [exact Hreach|]. split; [exact Himp|]. split; [exact Hs|].
  split; [exact (Hsucc eq_refl)|]. split; [exact Hlog|].
  split; [exact Hinj|]. split; reflexivity.
Qed.

Lemma enhanced_200_means_imported_and_recorded_witness :
  let env := sample_env 0 "Successfully imported 1 credential." in
  let run := Enhanced.inject_credential (sample_body "google") env
               initial_world in
  exists result w4 updateData,
    success result = true
    /\ import_succeeded env (log w4)
    /\ log (snd run)
       = (log w4 ++ [status_update (JString "u1") (JString "google")
                                   updateData])%list
    /\ injected_to_n8n updateData = true.
Proof.
  intros env run.
  destruct (enhanced_200_means_imported_and_recorded (sample_body "google")
              env initial_world (success_response
                 {| success := true;
                    credentialId :=
                      JString "3f2b8c1e-0000-4000-8000-000000000001";
                    message :=
                      "Credentials imported successfully using basic strategy";
                    details :=
                      Some {| method := "railway_cli_basic";
                              output := "Successfully imported 1 credential.";
                              strategy_used := Some "basic" |};
                    troubleshooting := None |})
              (snd run))
    as (cd & template & w3 & result & w4 & upd
        & _ & _ & H3 & H4 & H5 & H6 & _).
  - vm_compute. reflexivity.
  - reflexivity.
  - exists result, w4, upd. auto.
Defined.

(** X14.  When the importer reports a failure and the database accepts
    the status update of the request, the enhanced handler answers 500 with
    the importer's message, the request's [attempt] (1 if the body had
    none) and the troubleshooting payload.  The update that was written
    records the failure: [injected_to_n8n] false, no time of injection, the
    message as [injection_error], and no credential id. *)
Theorem exhausted_strategies_are_recorded_then_500
    body env w0 cd template w3 result w4 :
  reaches_importer body env w0 cd template w3 ->
  Enhanced.executeN8NCLIEnhanced cd (generateCredentialJSON [template]) env w3
  = (Returned result, w4) ->
  success result = false ->
  update_failure
    (update_result env
       (log (snd (Enhanced.updateCredentialStatus
                    (body_user_id body) (body_provider body)
                    (success result) (credentialId result)
                    (message result) (details result) env w4))))
  = None ->
  exists updateData w5,
    Enhanced.inject_credential body env w0
    = (Returned
         {| status := 500;
            json := {| res_success := false;
                       res_message := message result;
                       res_credential_id := JUndefined;
                       res_details := None;
                       res_attempt := attempt_of body;
                       res_troubleshooting := Some Enhanced.failure_hints;
                       res_error_type := None |} |}, w5)
    /\ log w5
       = (log w4 ++ [status_update (body_user_id body) (body_provider body)
                                   updateData])%list
    /\ injected_to_n8n updateData = false
    /\ injected_at updateData = None
    /\ injection_error updateData = Some (message result)
    /\ n8n_credential_id updateData = None.
Proof.
  intros Hreach Hrun Hfail Hok.
  destruct (enhanced_handler_after_importer body env w0 cd template w3 Hreach)
    as (r & w4' & upd & w5 & Hrun' & Hlog & Hinj & Hat & Herr & Hid
        & Hsnd & Hans).
  rewrite Hrun in Hrun'. injection Hrun' as <- <-.
  rewrite Hsnd in Hok.
  destruct (executeN8NCLIEnhanced_shapes _ _ _ _ _ _ Hrun)
    as [[Hs _] | [_ (msg & Hmsg & Hshape)]]; [congruence|].
  exists upd, w5. rewrite Hans, Hok, Hfail.
  rewrite Hshape in *. cbn in *.
  split; [reflexivity|]. split; [exact Hlog|]. split; [exact Hinj|].
  split; [now apply Hat|]. split; [|exact Hid].
  rewrite Herr. unfold string_or_null.
  destruct (msg =? EmptyString)%string eqn:He; [|reflexivity].
  apply String.eqb_eq in He. contradiction.
Qed.

Lemma exhausted_strategies_are_recorded_then_500_witness :
  exists updateData w5,
    fst (Enhanced.inject_credential (sample_body "google")
           (sample_env 1 "Permission denied") initial_world)
    = Returned
        {| status := 500;
           json := {| res_success := false;
                      res_message := "All import strategies failed";
                      res_credential_id := JUndefined;
                      res_details := None;
                      res_attempt := JNumber 1;
                      res_troubleshooting := Some Enhanced.failure_hints;
                      res_error_type := None |} |}
    /\ snd (Enhanced.inject_credential (sample_body "google")
              (sample_env 1 "Permission denied") initial_world) = w5
    /\ injected_to_n8n updateData = false
    /\ injected_at updateData = None
    /\ injection_error updateData = Some "All import strategies failed"
    /\ n8n_credential_id updateData = None.
Proof.
  edestruct (exhausted_strategies_are_recorded_then_500 (sample_body "google")
               (sample_env 1 "Permission denied") initial_world
               (sample_credData "google"))
    as (updateData & w5 & Hrun & _ & H1 & H2 & H3 & H4).
  - reach_by_running.
  - cbv. reflexivity.
  - reflexivity.
  - reflexivity.
  - exists updateData, w5. rewrite Hrun. repeat split; assumption.
Defined.

(** X15.  When the importer reports success and the database accepts the
    status update of the request, the enhanced handler answers 200 with the
    importer's credential id and details.  The update that was written has
    [injected_to_n8n] true and a time of injection; its [injection_error]
    is not empty: it holds the importer's success message, which names the
    strategy that worked. *)
Theorem successful_import_is_recorded_then_200
    body env w0 cd template w3 result w4 :
  reaches_importer body env w0 cd template w3 ->
  Enhanced.executeN8NCLIEnhanced cd (generateCredentialJSON [template]) env w3
  = (Returned result, w4) ->
  success result = true ->
  update_failure
    (update_result env
       (log (snd (Enhanced.updateCredentialStatus
                    (body_user_id body) (body_provider body)
                    (success result) (credentialId result)
                    (message result) (details result) env w4))))
  = None ->
  exists updateData w5 strategy,
    Enhanced.inject_credential body env w0
    = (Returned
         {| status := 200;
            json := {| res_success := true;
                       res_message :=
                         "Credentials injected successfully via Railway n8n CLI";
                       res_credential_id := credentialId result;
                       res_details := details result;
                       res_attempt := JUndefined;
                       res_troubleshooting := None;
                       res_error_type := None |} |}, w5)
    /\ log w5
       = (log w4 ++ [status_update (body_user_id body) (body_provider body)
                                   updateData])%list
    /\ injected_to_n8n updateData = true
    /\ injected_at updateData <> None
    /\ In strategy ["basic"; "userFolder"; "minimal"]
    /\ injection_error updateData
       = Some ("Credentials imported successfully using "
                 ++ strategy ++ " strategy")
    /\ n8n_credential_id updateData
       = (if truthy (credentialId result) then Some (credentialId result)
          else None).
Proof.
  intros Hreach Hrun Hsucc Hok.
  destruct (enhanced_handler_after_importer body env w0 cd template w3 Hreach)
    as (r & w4' & upd & w5 & Hrun' & Hlog & Hinj & Hat & Herr & Hid
        & Hsnd & Hans).
  rewrite Hrun in Hrun'. injection Hrun' as <- <-.
  rewrite Hsnd in Hok.
  destruct (executeN8NCLIEnhanced_shapes _ _ _ _ _ _ Hrun)
    as [[_ (strategy & cid & stdout & Hin & Hshape)] | [Hs _]];
    [|congruence].
  exists upd, w5, strategy. rewrite Hans, Hok, Hsucc.
  split; [reflexivity|]. split; [exact Hlog|]. split; [congruence|].
  split; [intros Hn; apply Hat in Hn; congruence|].
  split; [exact Hin|]. split; [|exact Hid].
  rewrite Herr, Hshape. reflexivity.
Qed.

Lemma successful_import_is_recorded_then_200_witness :
  exists updateData strategy,
    status_of_run
      (fst (Enhanced.inject_credential (sample_body "google")
              (sample_env 0 "Successfully imported 1 credential.")
              initial_world)) = Some 200
    /\ injected_to_n8n updateData = true
    /\ In strategy ["basic"; "userFolder"; "minimal"]
    /\ injection_error updateData
       = Some ("Credentials imported successfully using "
                 ++ strategy ++ " strategy").
Proof.
  edestruct (successful_import_is_recorded_then_200 (sample_body "google")
               (sample_env 0 "Successfully imported 1 credential.")
               initial_world (sample_credData "google"))
    as (updateData & w5 & strategy & Hrun & _ & H1 & _ & H3 & H4 & _).
  - reach_by_running.
  - cbv. reflexivity.
  - reflexivity.
  - reflexivity.
  - exists updateData, strategy. rewrite Hrun. repeat split; assumption.
Defined.

(** X16.  Whatever the request, the enhanced handler attempts at most one
    status update, and only as the last thing it does: either the request
    attempts no update at all, or its events end with the update of the
    record of its user and provider, after a scratch file was written and
    its deletion attempted.  A request that fails before the importer
    leaves the database record as it was. *)
Theorem enhanced_update_only_after_import_attempt body env w :
  exists evs,
    log (snd (Enhanced.inject_credential body env w)) = (log w ++ evs)%list
    /\ ((filter is_update evs = [] /\ Forall early_event evs)
        \/ (exists before updateData path content,
               evs = (before ++ [status_update (body_user_id body)
                                               (body_provider body)
                                               updateData])%list
               /\ filter is_update before = []
               /\ In (EvWriteFile path content) before
               /\ In (EvUnlink path) before)).
Proof.
  destruct (enhanced_handler_cases body env w)
    as [(cd & template & w3 & Hreach)
       | (response & w' & evs & Hrun & _ & _ & Hlog & Hearly)].
  - destruct (enhanced_handler_after_importer body env w cd template w3 Hreach)
      as (result & w4 & upd & w5 & Himp & Hlog5 & _ & _ & _ & _ & _ & Hans).
    destruct (executeN8NCLIEnhanced_spec cd (generateCredentialJSON [template])
                env w3) as (r & w4' & evs & Himp' & Hlog4 & Hall & _).
    rewrite Himp in Himp'. injection Himp' as <- <-.
    rewrite Hans. cbn [snd].
    set (path := Enhanced.temp_path (epoch_ms (clock env (reads w3)))) in *.
    eexists. split.
    + rewrite Hlog5, Hlog4, (reaches_importer_log _ _ _ _ _ _ Hreach).
      rewrite <- !app_assoc. reflexivity.
    + right.
      exists ([ version_probe;
                social_lookup (body_user_id body) (body_provider body);
                user_lookup (body_user_id body) ]
                ++ EvWriteFile path (generateCredentialJSON [template])
                     :: evs ++ [EvUnlink path])%list,
        upd, path, (generateCredentialJSON [template]).
      split; [rewrite <- !app_assoc; reflexivity|].
      split.
      * simpl. rewrite filter_app.
        rewrite (importer_events_no_update evs Hall). reflexivity.
      * split.
        -- apply in_or_app. right. left. reflexivity.
        -- apply in_or_app. right. right.
           apply in_or_app. right. left. reflexivity.
  - exists evs. rewrite Hrun. cbn [snd]. split; [exact Hlog|].
    left. split; [now apply early_events_no_update | exact Hearly].
Qed.

(** ** The order of the import commands *)

Lemma read_back_id_log path env w :
  log (snd (Enhanced.read_back_id path env w))
  = (log w ++ [EvReadFile path])%list.
Proof.
  unfold Enhanced.read_back_id, fs_readFile. unfold_m.
  destruct (readFile_result env _) as [content|e]; [|reflexivity].
  destruct (JSON_parse content) as [parsed|e]; [|reflexivity].
  destruct (get_member parsed "credentials") as [credentials|e];
    [|reflexivity].
  destruct (get_member credentials "0") as [first|e]; [|reflexivity].
  destruct (get_member first "id"); reflexivity.
Qed.

(** An attempt issues its command, and takes no other step. *)
Lemma tryImportCommand_steps path cd strategy env w :
  exists tail,
    log (snd (Enhanced.tryImportCommand path cd strategy env w))
    = (log w ++ import_exec strategy path cd env ++ tail)%list
    /\ filter is_step tail = [].
Proof.
  unfold Enhanced.tryImportCommand, import_exec.
  rewrite (bind_returned _ _ env w (inherited_env env) w) by reflexivity.
  unfold bind at 1. unfold lift at 1.
  destruct (Enhanced.import_invocation strategy path cd (inherited_env env))
    as [[command e]|err].
  2:{ exists []. simpl. now rewrite app_nil_r. }
  unfold bind at 1.
  pose proof (execAsync_world command (Some e) 60000 (Some "/tmp") env w)
    as Hw1.
  destruct (execAsync command (Some e) 60000 (Some "/tmp") env w)
    as [[[stdout stderr]|err] w1]; simpl in Hw1; subst w1.
  2:{ exists []. split; reflexivity. }
  destruct (Enhanced.success_indicators stdout).
  2:{ exists []. split; reflexivity. }
  unfold bind at 1.
  pose proof (read_back_id_log path env
                (record_event (EvExec command (Some e) 60000 (Some "/tmp")) w))
    as Hw2.
  destruct (Enhanced.read_back_id path env _) as [[cid|err] w2];
    simpl in Hw2; exists [EvReadFile path];
    (split; [|reflexivity]); unfold ret; cbn [snd]; rewrite Hw2; simpl;
    rewrite <- app_assoc; reflexivity.
Qed.

Lemma import_exec_all_steps strategy path cd env :
  filter is_step (import_exec strategy path cd env)
  = import_exec strategy path cd env.
Proof.
  unfold import_exec.
  destruct (Enhanced.import_invocation _ _ _ _) as [[command e]|err];
    reflexivity.
Qed.

(** A block without preparation always issues its command. *)
Lemma plain_block_steps path cd strategy env w :
  exists r w' evs,
    Enhanced.strategy_block (ret tt) path cd strategy env w = (Returned r, w')
    /\ log w' = (log w ++ evs)%list
    /\ filter is_step evs = import_exec strategy path cd env.
Proof.
  unfold Enhanced.strategy_block, try_catch, bind. cbn [ret].
  destruct (tryImportCommand_steps path cd strategy env w)
    as [tail [Hlog Htail]].
  destruct (Enhanced.tryImportCommand path cd strategy env w)
    as [[r|e] w1]; cbn [snd] in Hlog.
  - destruct (success r).
    + rewrite swallow_unlink. do 2 eexists.
      exists (import_exec strategy path cd env ++ tail ++ [EvUnlink path])%list.
      split; [reflexivity|]. split.
      * simpl. rewrite Hlog, <- !app_assoc. reflexivity.
      * rewrite !filter_app, Htail, import_exec_all_steps. simpl.
        now rewrite app_nil_r.
    + do 2 eexists. exists (import_exec strategy path cd env ++ tail)%list.
      split; [reflexivity|]. split; [exact Hlog|].
      rewrite filter_app, Htail, import_exec_all_steps. now rewrite app_nil_r.
  - do 2 eexists. exists (import_exec strategy path cd env ++ tail)%list.
    split; [reflexivity|]. split; [exact Hlog|].
    rewrite filter_app, Htail, import_exec_all_steps. now rewrite app_nil_r.
Qed.

(** The block that first creates the user folder issues its command
    exactly when the folder could be created, and returns a result only
    then. *)
Lemma mkdir_block_steps dir path cd strategy env w :
  exists r w' evs,
    Enhanced.strategy_block (fs_mkdir dir) path cd strategy env w
    = (Returned r, w')
    /\ log w' = (log w ++ EvMkdir dir :: evs)%list
    /\ filter is_step evs
       = match mkdir_result env (log w ++ [EvMkdir dir])%list with
         | None => import_exec strategy path cd env
         | Some _ => []
         end
    /\ (r <> None -> mkdir_result env (log w ++ [EvMkdir dir])%list = None).
Proof.
  unfold Enhanced.strategy_block, try_catch, bind.
  unfold fs_mkdir at 1. unfold fs_call at 1. cbv zeta. cbn [log record_event].
  destruct (mkdir_result env (log w ++ [EvMkdir dir])%list) as [err|].
  { do 2 eexists. exists []. split; [reflexivity|].
    split; [reflexivity|]. split; [reflexivity|]. intros H. now elim H. }
  set (w0 := record_event (EvMkdir dir) w).
  destruct (tryImportCommand_steps path cd strategy env w0)
    as [tail [Hlog Htail]].
  destruct (Enhanced.tryImportCommand path cd strategy env w0)
    as [[r|e] w1]; cbn [snd] in Hlog.
  - destruct (success r).
    + rewrite swallow_unlink. do 2 eexists.
      exists (import_exec strategy path cd env ++ tail ++ [EvUnlink path])%list.
      split; [reflexivity|]. split; [|split; [|reflexivity]].
      * simpl. rewrite Hlog. subst w0. simpl.
        rewrite <- !app_assoc. reflexivity.
      * rewrite !filter_app, Htail, import_exec_all_steps. simpl.
        now rewrite app_nil_r.
    + do 2 eexists. exists (import_exec strategy path cd env ++ tail)%list.
      split; [reflexivity|]. split; [|split; [|reflexivity]].
      * rewrite Hlog. subst w0. simpl. rewrite <- !app_assoc. reflexivity.
      * rewrite filter_app, Htail, import_exec_all_steps.
        now rewrite app_nil_r.
  - do 2 eexists. exists (import_exec strategy path cd env ++ tail)%list.
    split; [reflexivity|]. split; [|split; [|reflexivity]].
    + rewrite Hlog. subst w0. simpl. rewrite <- !app_assoc. reflexivity.
    + rewrite filter_app, Htail, import_exec_all_steps. now rewrite app_nil_r.
Qed.

(** The steps of the three blocks in a row. *)
Lemma run_strategies_steps path cd env w :
  exists evs,
    log (snd (Enhanced.run_strategies path cd env w)) = (log w ++ evs)%list
    /\ ((~ is_thrown (fst (Enhanced.run_strategies path cd env w))
         /\ filter is_step evs = import_exec "basic" path cd env)
        \/ (exists before after,
               evs = (before ++ EvMkdir "/tmp/.n8n" :: after)%list
               /\ filter is_step before = import_exec "basic" path cd env
               /\ ((~ is_thrown (fst (Enhanced.run_strategies path cd env w))
                    /\ mkdir_result env
                         (log w ++ before ++ [EvMkdir "/tmp/.n8n"])%list
                       = None
                    /\ filter is_step after
                       = import_exec "userFolder" path cd env)
                   \/ filter is_step after
                      = (match mkdir_result env
                                 (log w ++ before
                                    ++ [EvMkdir "/tmp/.n8n"])%list with
                         | None => import_exec "userFolder" path cd env
                         | Some _ => []
                         end
                           ++ import_exec "minimal" path cd env)%list))).
Proof.
  unfold Enhanced.run_strategies.
  destruct (plain_block_steps path cd "basic" env w)
    as (r1 & w1 & evs1 & H1 & Hlog1 & Hst1).
  rewrite (bind_returned _ _ _ _ _ _ H1).
  destruct r1 as [r1|].
  { exists evs1. cbn [snd fst ret]. split; [exact Hlog1|].
    left. split; [intros H; exact H | exact Hst1]. }
  destruct (mkdir_block_steps "/tmp/.n8n" path cd "userFolder" env w1)
    as (r2 & w2 & evs2 & H2 & Hlog2 & Hst2 & Hok2).
  rewrite (bind_returned _ _ _ _ _ _ H2).
  rewrite Hlog1, <- app_assoc in Hst2, Hok2.
  destruct r2 as [r2|].
  { exists (evs1 ++ EvMkdir "/tmp/.n8n" :: evs2)%list. cbn [snd fst ret].
    split; [rewrite Hlog2, Hlog1, <- app_assoc; reflexivity|].
    right. exists evs1, evs2. split; [reflexivity|]. split; [exact Hst1|].
    left. assert (Hmk := Hok2 ltac:(discriminate)).
    split; [intros H; exact H|]. split; [exact Hmk|].
    rewrite Hst2, Hmk. reflexivity. }
  destruct (plain_block_steps path cd "minimal" env w2)
    as (r3 & w3 & evs3 & H3 & Hlog3 & Hst3).
  rewrite (bind_returned _ _ _ _ _ _ H3).
  exists (evs1 ++ EvMkdir "/tmp/.n8n" :: evs2 ++ evs3)%list. split.
  - destruct r3; cbn [snd ret throw];
      rewrite Hlog3, Hlog2, Hlog1, <- !app_assoc; reflexivity.
  - right. exists evs1, (evs2 ++ evs3)%list.
    split; [reflexivity|]. split; [exact Hst1|]. right.
    rewrite filter_app, Hst2, Hst3. reflexivity.
Qed.

(** X17.  The steps of the enhanced importer follow the fixed order of the
    strategies, and nothing else is run.  Once the scratch file is written
    the command of [basic] is issued.  If it does not succeed, the folder
    [/tmp/.n8n] is asked for; the command of [userFolder] is issued exactly
    when that [mkdir] succeeded, and is skipped otherwise.  If that does
    not succeed either, the command of [minimal] is issued; only then can
    the importer report a failure.  No step is taken twice, and none at
    all if the scratch file cannot be written. *)
Theorem import_commands_follow_strategy_order cd jsonContent env w :
  let path := Enhanced.temp_path (epoch_ms (clock env (reads w))) in
  let w0 := record_event (EvWriteFile path jsonContent) (tick w) in
  let mk := EvMkdir "/tmp/.n8n" in
  (forall strategy, In strategy ["basic"; "userFolder"; "minimal"] ->
      exists command e,
        import_exec strategy path cd env
        = [EvExec command (Some e) 60000 (Some "/tmp")])
  /\ exists result w' evs,
      Enhanced.executeN8NCLIEnhanced cd jsonContent env w
      = (Returned result, w')
      /\ log w' = (log w0 ++ evs)%list
      /\ match writeFile_result env (log w0) with
         | Some _ => filter is_step evs = [] /\ success result = false
         | None =>
             (success result = true
              /\ filter is_step evs = import_exec "basic" path cd env)
             \/ (exists before after,
                    evs = (before ++ mk :: after)%list
                    /\ filter is_step before = import_exec "basic" path cd env
                    /\ ((success result = true
                         /\ mkdir_result env (log w0 ++ before ++ [mk])%list
                            = None
                         /\ filter is_step after
                            = import_exec "userFolder" path cd env)
                        \/ filter is_step after
                           = (match mkdir_result env
                                      (log w0 ++ before ++ [mk])%list with
                              | None => import_exec "userFolder" path cd env
                              | Some _ => []
                              end
                                ++ import_exec "minimal" path cd env)%list))
         end.
Proof.
  intros path w0 mk. split.
  { intros strategy [<-|[<-|[<-|[]]]]; do 2 eexists; reflexivity. }
  unfold Enhanced.executeN8NCLIEnhanced.
  rewrite (bind_returned _ _ env w (epoch_ms (clock env (reads w))) (tick w))
    by reflexivity.
  fold path. unfold try_catch, bind at 1.
  unfold fs_writeFile at 1. unfold fs_call at 1. cbv zeta. fold w0.
  destruct (writeFile_result env (log w0)) as [err|].
  - rewrite (bind_returned _ _ _ _ _ _ (swallow_unlink path env w0)).
    do 2 eexists. exists [EvUnlink path].
    split; [reflexivity|]. split; [reflexivity|]. split; reflexivity.
  - destruct (run_strategies_steps path cd env w0) as (evs & Hlog & Hcases).
    destruct (Enhanced.run_strategies path cd env w0) as [[r|e] w1] eqn:Hrun;
      cbn [snd fst is_thrown] in *.
    + destruct (run_strategies_result _ _ _ _ _ _ Hrun)
        as (s & wa & wb & _ & Ht).
      destruct (tryImportCommand_result_shape _ _ _ _ _ _ _ Ht)
        as (cid & out & Hshape).
      assert (Hs : success r = true) by (rewrite Hshape; reflexivity).
      exists r, w1, evs. split; [reflexivity|]. split; [exact Hlog|].
      destruct Hcases as [[_ Hst] | (before & after & Hevs & Hb & Hrest)].
      * left. auto.
      * right. exists before, after. split; [exact Hevs|].
        split; [exact Hb|].
        destruct Hrest as [(_ & Hmk & Ha) | Ha]; [left | right]; auto.
    + rewrite (bind_returned _ _ _ _ _ _ (swallow_unlink path env w1)).
      do 2 eexists. exists (evs ++ [EvUnlink path])%list.
      split; [reflexivity|]. split.
      * simpl. rewrite Hlog, <- app_assoc. reflexivity.
      * destruct Hcases as [[Hnot _] | (before & after & Hevs & Hb & Hrest)];
          [now elim Hnot|].
        right. exists before, (after ++ [EvUnlink path])%list.
        split; [rewrite Hevs, <- app_assoc; reflexivity|].
        split; [exact Hb|].
        destruct Hrest as [(Hnot & _) | Ha]; [now elim Hnot|].
        right. rewrite filter_app, Ha. simpl. now rewrite app_nil_r.
Qed.

(** ** The simplified importer *)

(** Taking the credential id out of the import document. *)
Lemma id_of_generated_document t ts :
  exists j credentials first,
    JSON_parse (generateCredentialJSON (t :: ts)) = Returned j
    /\ get_member j "credentials" = Returned credentials
    /\ get_member credentials "0" = Returned first
    /\ get_member first "id" = Returned (JString (id t)).
Proof. do 3 eexists. repeat split. Qed.

(** The runs of the simplified importer, case by case. *)
Lemma executeN8NCLI_cases cd jsonContent env w :
  let path := Simplified.temp_path (epoch_ms (clock env (reads w))) in
  let w0 := record_event (EvWriteFile path jsonContent) (tick w) in
  let w1 := record_event (simplified_import_exec path cd env) w0 in
  let w2 := record_event (EvUnlink path) w1 in
  let failure e :=
    {| success := false;
       credentialId := JUndefined;
       message := str_or (message_of e) "Railway CLI execution failed";
       details := None;
       troubleshooting := None |} in
  match writeFile_result env (log w0) with
  | Some e =>
      Simplified.executeN8NCLI cd jsonContent env w
      = (Returned (failure e), record_event (EvUnlink path) w0)
  | None =>
      match execAsync ("n8n import:credentials --input=" ++ path
                         ++ " --separate")
              (Some (set_property
                       (set_property
                          (set_property (inherited_env env)
                             "N8N_ENCRYPTION_KEY" (n8n_encryption_key cd))
                          "N8N_USER_MANAGEMENT_DISABLED" (JString "false"))
                       "N8N_LOG_LEVEL" (JString "warn")))
              30000 None env w0 with
      | (Thrown e, _) =>
          Simplified.executeN8NCLI cd jsonContent env w
          = (Returned (failure e), w2)
      | (Returned (stdout, _), _) =>
          match (parsed <- lift (JSON_parse jsonContent) ;;
                 credentials <- lift (get_member parsed "credentials") ;;
                 first <- lift (get_member credentials "0") ;;
                 lift (get_member first "id")) env w2 with
          | (Returned cid, _) =>
              Simplified.executeN8NCLI cd jsonContent env w
              = (Returned
                   {| success := true;
                      credentialId := cid;
                      message := "Credentials imported successfully via Railway";
                      details := Some {| method := "railway_cli";
                                         output := stdout;
                                         strategy_used := None |};
                      troubleshooting := None |}, w2)
          | (Thrown e, _) =>
              Simplified.executeN8NCLI cd jsonContent env w
              = (Returned (failure e), record_event (EvUnlink path) w2)
          end
      end
  end.
Proof.
  intros path w0 w1 w2 failure.
  destruct (writeFile_result env (log w0)) as [e|] eqn:Hwrite.
  { unfold Simplified.executeN8NCLI.
    rewrite (bind_returned _ _ env w (epoch_ms (clock env (reads w))) (tick w))
      by reflexivity.
    fold path. unfold try_catch, bind at 1, fs_writeFile, fs_call.
    cbv zeta. fold w0. rewrite Hwrite.
    now rewrite (bind_returned _ _ _ _ _ _ (swallow_unlink path env w0)). }
  assert (Hw : fs_writeFile path jsonContent env (tick w) = (Returned tt, w0)).
  { unfold fs_writeFile, fs_call. cbv zeta. fold w0. now rewrite Hwrite. }
  pose proof (execAsync_world
                ("n8n import:credentials --input=" ++ path ++ " --separate")
                (Some (set_property
                         (set_property
                            (set_property (inherited_env env)
                               "N8N_ENCRYPTION_KEY" (n8n_encryption_key cd))
                            "N8N_USER_MANAGEMENT_DISABLED" (JString "false"))
                         "N8N_LOG_LEVEL" (JString "warn")))
                30000 None env w0) as Hw1.
  destruct (execAsync _ _ 30000 None env w0)
    as [[[stdout stderr]|e] w1'] eqn:Hexec;
    cbn [snd] in Hw1; fold (simplified_import_exec path cd env) in Hw1;
    fold w1 in Hw1; subst w1'.
  2:{ unfold Simplified.executeN8NCLI.
      rewrite (bind_returned _ _ env w (epoch_ms (clock env (reads w)))
                 (tick w)) by reflexivity.
      fold path. unfold try_catch.
      rewrite (bind_returned _ _ _ _ _ _ Hw).
      rewrite (bind_returned _ _ env w0 (inherited_env env) w0) by reflexivity.
      rewrite (bind_thrown _ _ _ _ _ _ Hexec).
      now rewrite (bind_returned _ _ _ _ _ _ (swallow_unlink path env w1)). }
  assert (Heq : Simplified.executeN8NCLI cd jsonContent env w
                = try_catch
                    (parsed <- lift (JSON_parse jsonContent) ;;
                     credentials <- lift (get_member parsed "credentials") ;;
                     first <- lift (get_member credentials "0") ;;
                     credentialId <- lift (get_member first "id") ;;
                     ret {| success := true;
                            credentialId := credentialId;
                            message :=
                              "Credentials imported successfully via Railway";
                            details := Some {| method := "railway_cli";
                                               output := stdout;
                                               strategy_used := None |};
                            troubleshooting := None |})
                    (fun error =>
                       swallow (fs_unlink path) ;; ret (failure error))
                    env w2).
  { unfold Simplified.executeN8NCLI.
    rewrite (bind_returned _ _ env w (epoch_ms (clock env (reads w))) (tick w))
      by reflexivity.
    fold path. unfold try_catch.
    rewrite (bind_returned _ _ _ _ _ _ Hw).
    rewrite (bind_returned _ _ env w0 (inherited_env env) w0) by reflexivity.
    rewrite (bind_returned _ _ _ _ _ _ Hexec).
    rewrite (bind_returned _ _ _ _ _ _ (swallow_unlink path env w1)).
    reflexivity. }
  rewrite Heq. unfold try_catch, bind, lift, ret.
  destruct (JSON_parse jsonContent) as [parsed|e];
    [|now rewrite swallow_unlink].
  destruct (get_member parsed "credentials") as [credentials|e];
    [|now rewrite swallow_unlink].
  destruct (get_member credentials "0") as [first|e];
    [|now rewrite swallow_unlink].
  destruct (get_member first "id") as [cid|e];
    [|now rewrite swallow_unlink].
  reflexivity.
Qed.

(** X18.  The simplified importer takes exit code 0 as success and does
    not look at what the command printed: with the scratch file written
    and a generated document, the run succeeds with the id of the first
    template for any output.  A command that does not end with exit code 0
    gives a failure without credential id.  Either way the deletion of the
    scratch file is the last thing attempted. *)
Theorem simplified_importer_trusts_exit_code cd jsonContent env w :
  let path := Simplified.temp_path (epoch_ms (clock env (reads w))) in
  let w0 := record_event (EvWriteFile path jsonContent) (tick w) in
  let w1 := record_event (simplified_import_exec path cd env) w0 in
  let w2 := record_event (EvUnlink path) w1 in
  writeFile_result env (log w0) = None ->
  (forall stdout stderr t ts,
      exec_result env (log w1) = Exited 0 stdout stderr ->
      jsonContent = generateCredentialJSON (t :: ts) ->
      Simplified.executeN8NCLI cd jsonContent env w
      = (Returned
           {| success := true;
              credentialId := JString (id t);
              message := "Credentials imported successfully via Railway";
              details := Some {| method := "railway_cli";
                                 output := stdout;
                                 strategy_used := None |};
              troubleshooting := None |}, w2))
  /\ ((forall stdout stderr,
          exec_result env (log w1) <> Exited 0 stdout stderr) ->
      exists result,
        Simplified.executeN8NCLI cd jsonContent env w = (Returned result, w2)
        /\ success result = false
        /\ credentialId result = JUndefined
        /\ details result = None).
Proof.
  intros path w0 w1 w2 Hwrite.
  pose proof (executeN8NCLI_cases cd jsonContent env w) as Hcases.
  cbv zeta in Hcases. fold path w0 w1 w2 in Hcases. rewrite Hwrite in Hcases.
  split.
  - intros stdout stderr t ts Hexec Hjson.
    rewrite (execAsync_zero _ _ _ _ _ _ _ _ Hexec) in Hcases.
    subst jsonContent. exact Hcases.
  - intros Hexec.
    destruct (execAsync_rejects _ _ _ _ _ _ Hexec) as [e He].
    rewrite He in Hcases. eauto.
Qed.

Lemma simplified_importer_trusts_exit_code_witness :
  fst (Simplified.executeN8NCLI (sample_credData "spotify")
         (generateCredentialJSON [sample_template])
         (sample_env 0 "nothing to report") initial_world)
  = Returned
      {| success := true;
         credentialId := JString "c-9";
         message := "Credentials imported successfully via Railway";
         details := Some {| method := "railway_cli";
                            output := "nothing to report";
                            strategy_used := None |};
         troubleshooting := None |}.
Proof.
  rewrite (proj1 (simplified_importer_trusts_exit_code
                    (sample_credData "spotify")
                    (generateCredentialJSON [sample_template])
                    (sample_env 0 "nothing to report") initial_world eq_refl)
             "nothing to report" EmptyString sample_template []
             eq_refl eq_refl).
  reflexivity.
Defined.

Lemma executeN8NCLI_blind cd jsonContent :
  unlink_blind (Simplified.executeN8NCLI cd jsonContent).
Proof.
  unfold Simplified.executeN8NCLI. repeat blind_step.
Qed.

Lemma executeN8NCLI_spec cd jsonContent env w :
  let path := Simplified.temp_path (epoch_ms (clock env (reads w))) in
  exists result w' evs,
    Simplified.executeN8NCLI cd jsonContent env w = (Returned result, w')
    /\ log w'
       = (log w ++ EvWriteFile path jsonContent :: evs ++ [EvUnlink path])%list
    /\ Forall importer_event evs.
Proof.
  intros path.
  pose proof (executeN8NCLI_cases cd jsonContent env w) as Hcases.
  cbv zeta in Hcases. fold path in Hcases.
  destruct (writeFile_result env _) as [e|].
  { do 2 eexists. exists []. split; [exact Hcases|].
    split; [|constructor]. simpl. rewrite <- app_assoc. reflexivity. }
  destruct (execAsync _ _ 30000 None env _) as [[[stdout stderr]|e] w1'].
  2:{ do 2 eexists. exists [simplified_import_exec path cd env].
      split; [exact Hcases|]. split; [|repeat constructor].
      simpl. rewrite <- !app_assoc. reflexivity. }
  destruct (bind _ _ env _) as [[cid|e] w2'].
  - do 2 eexists. exists [simplified_import_exec path cd env].
    split; [exact Hcases|]. split; [|repeat constructor].
    simpl. rewrite <- !app_assoc. reflexivity.
  - do 2 eexists.
    exists [simplified_import_exec path cd env; EvUnlink path].
    split; [exact Hcases|]. split; [|repeat constructor].
    simpl. rewrite <- !app_assoc. reflexivity.
Qed.

(** X19.  The simplified importer never throws, and every run of it ends
    with an attempt to delete the scratch file it first tried to write.
    The answer of [unlink] is discarded: with any other answer the run is
    the same. *)
Theorem simplified_importer_always_cleans_up cd jsonContent env w :
  let path := Simplified.temp_path (epoch_ms (clock env (reads w))) in
  (exists result w' evs,
      Simplified.executeN8NCLI cd jsonContent env w = (Returned result, w')
      /\ log w'
         = (log w ++ EvWriteFile path jsonContent :: evs ++ [EvUnlink path])%list
      /\ Forall importer_event evs)
  /\ (forall answer,
         Simplified.executeN8NCLI cd jsonContent
           (with_unlink_result answer env) w
         = Simplified.executeN8NCLI cd jsonContent env w).
Proof.
  intros path. split.
  - apply executeN8NCLI_spec.
  - intros answer. apply executeN8NCLI_blind.
Qed.

(** ** The simplified handler *)

Lemma simplified_handler_continues body env w0 cd template w2 :
  simplified_reaches_importer body env w0 cd template w2 ->
  Simplified.inject_credential body env w0
  = try_catch
      (cliResult <- Simplified.executeN8NCLI cd
                      (generateCredentialJSON [template]) ;;
       Simplified.updateCredentialStatus (body_user_id body)
         (body_provider body)
         (success cliResult) (credentialId cliResult)
         (message cliResult) (details cliResult) ;;
       if success cliResult then ret (success_response cliResult)
       else ret (failure_response cliResult (attempt_of body) None))
      (fun error =>
         ret (plain_response 500
                (str_or (message_of error) "Internal server error")
                (Some "railway_service_error")))
      env w2.
Proof.
  intros (Hu & Hp & Hc1 & Hc2 & (shown & Hshown) & w1 & Hfetch & Htpl).
  unfold Simplified.inject_credential. unfold try_catch at 1 2. cbv zeta.
  rewrite Hu, Hp. cbn [negb orb].
  rewrite (bind_returned _ _ env w0 (CONFIG env) w0) by reflexivity.
  rewrite Hc1, Hc2. cbn [negb orb].
  rewrite (bind_returned _ _ _ _ _ _
             (log_processing_returns _ _ env w0 Hshown)).
  rewrite (bind_returned _ _ _ _ _ _ Hfetch).
  rewrite (bind_returned _ _ _ _ _ _ Htpl).
  reflexivity.
Qed.

Lemma fetchUserCredentials_lookups userId prov env w :
  exists found w' sel,
    fetchUserCredentials userId prov env w = (Returned found, w')
    /\ log w' = (log w ++ sel)%list
    /\ Forall lookup_event sel.
Proof.
  unfold fetchUserCredentials, select_social, select_user. unfold_m.
  destruct (select_social_result env _) as [[sc|] [err|] | e];
    try (do 2 eexists; eexists [_]; split; [reflexivity|];
         split; [reflexivity | repeat constructor]).
  destruct (select_user_result env _) as [[ui|] [err'|] | e'];
    do 2 eexists; eexists [_; _];
    (split; [reflexivity|]);
    (split; [simpl; rewrite <- app_assoc; reflexivity | repeat constructor]).
Qed.

Lemma lookup_events_no_update evs :
  Forall lookup_event evs -> filter is_update evs = [].
Proof.
  induction 1 as [|e evs He _ IH]; [reflexivity|].
  simpl. rewrite IH. destruct e; simpl in *; try reflexivity; contradiction.
Qed.

(** A request that does not get as far as the importer is answered with a
    failure, and has attempted nothing but lookups. *)
Lemma simplified_handler_cases body env w0 :
  (exists cd template w2,
      simplified_reaches_importer body env w0 cd template w2
      /\ exists sel, log w2 = (log w0 ++ sel)%list /\ Forall lookup_event sel)
  \/ (exists response w' evs,
         Simplified.inject_credential body env w0 = (Returned response, w')
         /\ In (status response) [400; 404; 500]
         /\ res_success (json response) = false
         /\ log w' = (log w0 ++ evs)%list
         /\ Forall lookup_event evs).
Proof.
  destruct (truthy (body_user_id body)) eqn:Hu.
  2:{ right. exists (plain_response 400 "Missing user_id or provider" None),
        w0, [].
      rewrite falsy_field_rejected_simplified by auto.
      rewrite app_nil_r. simpl. auto 10. }
  destruct (truthy (body_provider body)) eqn:Hp.
  2:{ right. exists (plain_response 400 "Missing user_id or provider" None),
        w0, [].
      rewrite falsy_field_rejected_simplified by auto.
      rewrite app_nil_r. simpl. auto 10. }
  unfold Simplified.inject_credential. unfold try_catch at 1. cbv zeta.
  rewrite Hu, Hp. cbn [negb orb].
  rewrite (bind_returned _ _ env w0 (CONFIG env) w0) by reflexivity.
  destruct (configured (SUPABASE_URL (CONFIG env))) eqn:Hc1; cbn [negb orb].
  2:{ right. do 2 eexists. exists []. split; [reflexivity|].
      rewrite app_nil_r. simpl. auto 10. }
  destruct (configured (SUPABASE_SERVICE_KEY (CONFIG env))) eqn:Hc2;
    cbn [negb orb].
  2:{ right. do 2 eexists. exists []. split; [reflexivity|].
      rewrite app_nil_r. simpl. auto 10. }
  destruct (template_string (attempt_of body)) as [shown|e0] eqn:Hshown.
  2:{ right. do 2 eexists. exists [].
      rewrite (bind_thrown _ _ _ _ _ _
                 (log_processing_throws _ _ env w0 Hshown)).
      split; [reflexivity|]. rewrite app_nil_r. simpl. auto 10. }
  rewrite (bind_returned _ _ _ _ _ _
             (log_processing_returns _ _ env w0 Hshown)).
  destruct (fetchUserCredentials_lookups (body_user_id body)
              (body_provider body) env (tick w0))
    as (found & w1 & sel & Hfetch & Hlog1 & Hsel).
  cbn [log tick] in Hlog1.
  rewrite (bind_returned _ _ _ _ _ _ Hfetch).
  destruct found as [cd|].
  2:{ right. do 2 eexists. exists sel.
      split; [reflexivity|]. simpl. repeat split; auto. }
  pose proof (createCredentialTemplate_log cd env w1) as Hlog2.
  destruct (createCredentialTemplate cd env w1) as [[template|e] w2] eqn:Htpl;
    simpl in Hlog2.
  - left. exists cd, template, w2. split.
    + unfold simplified_reaches_importer.
      repeat (split; [assumption|]). eauto 10.
    + exists sel. split; [congruence | exact Hsel].
  - right. rewrite (bind_thrown _ _ _ _ _ _ Htpl).
    do 2 eexists. exists sel.
    split; [reflexivity|]. simpl. repeat split; auto. congruence.
Qed.

(** X20.  The simplified handler answers every request: no exception
    escapes it, the status is 200, 400, 404 or 500, and [success] is true
    exactly for 200.  A request that fails before the importer has
    attempted nothing but lookups: no status update, no scratch file, no
    subprocess.  Any other request attempts exactly one status update, as
    the last thing it does and for the record of its user and provider,
    after the scratch file was written and its deletion attempted. *)
Theorem simplified_handler_always_answers body env w :
  exists response w' evs,
    Simplified.inject_credential body env w = (Returned response, w')
    /\ In (status response) [200; 400; 404; 500]
    /\ (res_success (json response) = true <-> status response = 200)
    /\ log w' = (log w ++ evs)%list
    /\ ((filter is_update evs = []
         /\ Forall lookup_event evs
         /\ status response <> 200)
        \/ (exists before updateData path content,
               evs = (before ++ [status_update (body_user_id body)
                                               (body_provider body)
                                               updateData])%list
               /\ filter is_update before = []
               /\ In (EvWriteFile path content) before
               /\ In (EvUnlink path) before)).
Proof.
  destruct (simplified_handler_cases body env w)
    as [(cd & template & w2 & Hreach & sel & Hlog2 & Hsel)
       | (response & w' & evs & Hrun & Hst & Hfalse & Hlog & Hearly)].
  - destruct (executeN8NCLI_spec cd (generateCredentialJSON [template]) env w2)
      as (result & w3 & evs & Himp & Hlog3 & Hall).
    destruct (updateCredentialStatus_outcome "railway_cli" []
                (body_user_id body) (body_provider body)
                (success result) (credentialId result) (message result)
                (details result) env w3)
      as (upd & w4 & Hlog4 & _ & _ & _ & _ & Hupd).
    set (path := Simplified.temp_path (epoch_ms (clock env (reads w2)))) in *.
    set (before := (sel ++ EvWriteFile path
                             (generateCredentialJSON [template])
                           :: evs ++ [EvUnlink path])%list).
    assert (Hevents :
              log w4
              = (log w ++ before
                   ++ [status_update (body_user_id body) (body_provider body)
                                     upd])%list).
    { subst before. rewrite Hlog4, Hlog3, Hlog2, <- !app_assoc. reflexivity. }
    assert (Hshape :
              exists before0 updateData path0 content,
                (before ++ [status_update (body_user_id body)
                                          (body_provider body) upd])%list
                = (before0 ++ [status_update (body_user_id body)
                                             (body_provider body)
                                             updateData])%list
                /\ filter is_update before0 = []
                /\ In (EvWriteFile path0 content) before0
                /\ In (EvUnlink path0) before0).
    { exists before, upd, path, (generateCredentialJSON [template]).
      split; [reflexivity|]. subst before. split.
      - rewrite filter_app. simpl. rewrite filter_app.
        rewrite (lookup_events_no_update sel Hsel).
        rewrite (importer_events_no_update evs Hall). reflexivity.
      - split.
        + apply in_or_app. right. left. reflexivity.
        + apply in_or_app. right. right.
          apply in_or_app. right. left. reflexivity. }
    rewrite (simplified_handler_continues body env w cd template w2 Hreach).
    unfold try_catch. rewrite (bind_returned _ _ _ _ _ _ Himp).
    unfold Simplified.updateCredentialStatus.
    destruct Hupd as [[_ Hret] | (msg & e & _ & _ & Hthrown)].
    + rewrite (bind_returned _ _ _ _ _ _ Hret).
      destruct (success result); do 2 eexists; eexists;
        (split; [reflexivity|]); simpl;
        (split; [auto|]); (split; [split; intros; congruence|]);
        (split; [exact Hevents|]); right; exact Hshape.
    + rewrite (bind_thrown _ _ _ _ _ _ Hthrown).
      do 2 eexists; eexists. split; [reflexivity|]. simpl.
      split; [auto|]. split; [split; discriminate|].
      split; [exact Hevents|]. right. exact Hshape.
  - exists response, w', evs. split; [exact Hrun|]. split.
    + simpl in *. tauto.
    + assert (Hnot : status response <> 200).
      { intros H200. rewrite H200 in Hst. simpl in Hst.
        destruct Hst as [H|[H|[H|[]]]]; discriminate. }
      split.
      * rewrite Hfalse. split; [discriminate | contradiction].
      * split; [exact Hlog|]. left.
        split; [now apply lookup_events_no_update|]. split; assumption.
Qed.

(** ** The log line of a request *)

(** X22.  Both handlers print a line that shows [attempt] before they do
    anything outside the process.  A request with both fields present,
    under a complete configuration, whose [attempt] cannot be turned into
    a string (an object with a [toString] member of its own, or an array
    holding one) is answered 500 with [error_type] "railway_service_error"
    and the message of the type error.  Nothing has been attempted by
    then: no subprocess, no lookup, no file, no status update, and the
    clock has not been read. *)
Theorem unprintable_attempt_is_500_without_effects body env w :
  truthy (body_user_id body) = true ->
  truthy (body_provider body) = true ->
  configured (SUPABASE_URL (CONFIG env)) = true ->
  configured (SUPABASE_SERVICE_KEY (CONFIG env)) = true ->
  to_property_key (attempt_of body) = None ->
  let answer :=
    plain_response 500 "Cannot convert object to primitive value"
                   (Some "railway_service_error") in
  Enhanced.inject_credential body env w = (Returned answer, w)
  /\ Simplified.inject_credential body env w = (Returned answer, w).
Proof.
  intros Hu Hp Hc1 Hc2 Hkey answer.
  assert (Hshown : template_string (attempt_of body)
                   = Thrown (TypeError
                               "Cannot convert object to primitive value"))
    by (unfold template_string; now rewrite Hkey).
  split.
  - unfold Enhanced.inject_credential. unfold try_catch at 1. cbv zeta.
    rewrite Hu, Hp. cbn [negb orb].
    rewrite (bind_returned _ _ env w (CONFIG env) w) by reflexivity.
    rewrite Hc1, Hc2. cbn [negb orb].
    rewrite (bind_thrown _ _ _ _ _ _
               (log_processing_throws _ _ env w Hshown)).
    reflexivity.
  - unfold Simplified.inject_credential. unfold try_catch at 1. cbv zeta.
    rewrite Hu, Hp. cbn [negb orb].
    rewrite (bind_returned _ _ env w (CONFIG env) w) by reflexivity.
    rewrite Hc1, Hc2. cbn [negb orb].
    rewrite (bind_thrown _ _ _ _ _ _
               (log_processing_throws _ _ env w Hshown)).
    reflexivity.
Qed.

Lemma unprintable_attempt_is_500_without_effects_witness :
  let body :=
    {| body_user_id := JString "u1";
       body_provider := JString "google";
       body_attempt := JArray [JObject [("toString", JNull)]] |} in
  let env := sample_env 0 "Successfully imported 1 credential." in
  let answer :=
    plain_response 500 "Cannot convert object to primitive value"
                   (Some "railway_service_error") in
  Enhanced.inject_credential body env initial_world
  = (Returned answer, initial_world)
  /\ Simplified.inject_credential body env initial_world
     = (Returned answer, initial_world).
Proof.
  intros body env answer.
  exact (unprintable_attempt_is_500_without_effects body env initial_world
           eq_refl eq_refl eq_refl eq_refl eq_refl).
Defined.

(** ** The health probes *)

(** X21.  The health probes of the enhanced service run one subprocess
    each, limited to five seconds: [/] asks for the version, [/health] for
    the help text.  Neither throws.  The answer is 200 exactly when the
    subprocess ended with exit code 0, else 500.  [/health] still answers
    200 when the help text does not mention [import:credentials]; it only
    reports the fact in [import_command_available]. *)
Theorem enhanced_health_probes env w :
  let probe command := EvExec command None 5000 None in
  (exists response,
      Enhanced.get_root env w
      = (Returned response, tick (record_event (probe "n8n --version") w))
      /\ match exec_result env (log w ++ [probe "n8n --version"])%list with
         | Exited 0 stdout _ =>
             http_status response = 200
             /\ member (http_json response) "n8n_available" = JBool true
             /\ member (http_json response) "n8n_cli_version"
                = JString (trim stdout)
         | _ =>
             http_status response = 500
             /\ member (http_json response) "n8n_available" = JBool false
         end)
  /\ (exists response,
         Enhanced.get_health env w
         = (Returned response, tick (record_event (probe "n8n --help") w))
         /\ match exec_result env (log w ++ [probe "n8n --help"])%list with
            | Exited 0 stdout _ =>
                http_status response = 200
                /\ member (http_json response) "n8n_cli_available"
                   = JBool true
                /\ member (http_json response) "import_command_available"
                   = JBool (includes stdout "import:credentials")
            | _ =>
                http_status response = 500
                /\ member (http_json response) "n8n_cli_available"
                   = JBool false
            end).
Proof.
  intros probe. split.
  - unfold Enhanced.get_root, try_catch, bind, execAsync. cbv zeta.
    cbn [log record_event]. fold (probe "n8n --version").
    destruct (exec_result env (log w ++ [probe "n8n --version"])%list)
      as [[| |] stdout stderr | reason stdout stderr | reason];
      eexists; (split; [reflexivity|]); repeat split.
  - unfold Enhanced.get_health, try_catch, bind, execAsync. cbv zeta.
    cbn [log record_event]. fold (probe "n8n --help").
    destruct (exec_result env (log w ++ [probe "n8n --help"])%list)
      as [[| |] stdout stderr | reason stdout stderr | reason];
      eexists; (split; [reflexivity|]); repeat split.
Qed.
